(** * AeroShield: claim lifecycle and pool accounting

    A shallow embedding of the claims engine
    ([services/insurance/claims_engine.py]), the pool manager
    ([services/insurance/pool_manager.py]), the FDC client's polling loop
    ([services/blockchain/fdc_client.py]) and the two API handlers that
    drive claim verification ([api/v1/claims.py], [api/v1/triggers.py]).

    Conventions of the embedding.
    - The database session is an explicit store [DB]; every operation is a
      function from the store to a new store and either a returned value
      or a raised exception. A raised exception keeps the store as it was
      at the [raise], writes made before it included; the one exception is
      a flush that a unique constraint refuses, which rolls the session's
      transaction back.
    - [Decimal] values are exact rationals. Python's context precision
      (28 significant digits) is not modelled.
    - A Python [float] obtained from a [Decimal] is kept as [float d], the
      double nearest to [d]; where the code compares floats, the rounding
      is a parameter of the development.
    - [datetime.now(timezone.utc)] is an argument [now] of each operation.
    - Answers of the external services (FDC hub, FTSO feed) are arguments
      of the operations that call them. *)

From Stdlib Require Import ZArith QArith Qround Lqa.
From stdpp Require Import gmap strings pretty.

Local Open Scope Z_scope.

Abbreviation UUID := positive (only parsing).
Abbreviation Decimal := Q (only parsing).
Abbreviation datetime := Z (only parsing).

(** ** Numbers *)

(** [float(d)] for a Decimal [d]. *)
Inductive pyfloat := float (d : Decimal).

(** Decimal comparison [a > b]. *)
Definition Qgtb (a b : Q) : bool := negb (Qle_bool a b).

(** ** JSON values ([dict] payloads of the oracle) *)

#[local] Set Warnings "-register-all".

Inductive json :=
| JNull
| JBool (b : bool)
| JInt (z : Z)
| JStr (s : string)
| JList (items : list json)
| JObj (fields : list (string * json)).

(** [d.get(key)] on the fields of an object: the first binding wins. *)
Fixpoint assoc_get (key : string) (fields : list (string * json)) : option json :=
  match fields with
  | [] => None
  | (k, v) :: rest => if decide (k = key) then Some v else assoc_get key rest
  end.

(** ** Status enumerations ([models/policy.py], [models/claim.py]) *)

Module PolicyStatus.
Inductive t := PENDING | ACTIVE | EXPIRED | CLAIMED | CANCELLED | PAYOUT_PENDING | PAID.
#[global] Instance eq_dec : EqDecision t.
Proof. solve_decision. Defined.
End PolicyStatus.

Module ClaimStatus.
Inductive t := INITIATED | VERIFYING | APPROVED | REJECTED | PROCESSING | PAID | FAILED.
#[global] Instance eq_dec : EqDecision t.
Proof. solve_decision. Defined.

(** The enumeration's [.value]. *)
Definition value (s : t) : string :=
  match s with
  | INITIATED => "initiated" | VERIFYING => "verifying" | APPROVED => "approved"
  | REJECTED => "rejected" | PROCESSING => "processing" | PAID => "paid"
  | FAILED => "failed"
  end.
End ClaimStatus.

Module ClaimType.
Inductive t := AUTOMATIC | MANUAL.
End ClaimType.

(** ** Exceptions ([core/exceptions.py] and the builtins the code raises) *)

Inductive value_error :=
| PoolNotFound (pool_id : UUID)          (* f"Pool {pool_id} not found" *)
| ClaimNotApproved (claim_id : UUID).    (* f"Claim {claim_id} is not approved for payout" *)

(** The [detail] of the [HTTPException]s the handlers raise. *)
Inductive http_detail :=
| UserNotFound                                   (* "User not found" *)
| ClaimNotFound                                  (* "Claim not found" *)
| ClaimNotFoundForFDCRequest                     (* "Claim not found for this FDC request" *)
| CannotVerifyClaimWithStatus (s : ClaimStatus.t).
                                                 (* f"Cannot verify claim with status: {claim.status}" *)

Inductive exn :=
| ResourceNotFoundError (resource : string) (identifier : UUID)
| PolicyNotActiveError (policy_id : UUID)
| PolicyAlreadyClaimedError (policy_id : UUID)
| InsufficientFundsError (required available : pyfloat)
| FDCAttestationError (detail : string)
| FTSOPriceError (detail : string)
| ValueError (msg : value_error)
| HTTPException (status_code : Z) (detail : http_detail)
| TypeError
| AttributeError
| MultipleResultsFound        (* scalar_one_or_none() on several rows *)
| IntegrityError.             (* a unique constraint refused at flush *)

(** [isinstance(e, FDCAttestationError)]. *)
Definition is_FDCAttestationError (e : exn) : bool :=
  match e with FDCAttestationError _ => true | _ => false end.

(** [isinstance(e, Exception)]: every exception of the model. *)
Definition is_Exception (e : exn) : bool := true.

(** A text column or dict entry: a literal, or [str(e)] of an exception
    (the model keeps [e] itself, of which the text is a function). *)
Inductive text :=
| Literal (s : string)
| str (e : exn).

Inductive result (A : Type) :=
| Return (a : A)
| Raise (e : exn).
Arguments Return {A} a.
Arguments Raise {A} e.

(** ** Models ([models/policy.py], [models/claim.py], [models/pool.py]) *)

(** The columns of [Policy] that the modelled operations read or write. *)
Module Policy.
Record t := mk {
  id : UUID;
  user_id : UUID;
  status : PolicyStatus.t;
  flight_number : string;
  airline_code : string;
  scheduled_departure : datetime;
  coverage_amount : Decimal;
  currency : string;
  delay_threshold_minutes : Z;
  payout_amount : option Decimal;
  payout_address : option string;
  paid_at : option datetime
}.

Definition with_status (v : PolicyStatus.t) (p : t) : t :=
  let 'mk a b _ d e f g h i j k l := p in mk a b v d e f g h i j k l.
Definition with_payout_amount (v : option Decimal) (p : t) : t :=
  let 'mk a b c d e f g h i _ k l := p in mk a b c d e f g h i v k l.
Definition with_payout_address (v : option string) (p : t) : t :=
  let 'mk a b c d e f g h i j _ l := p in mk a b c d e f g h i j v l.
Definition with_paid_at (v : option datetime) (p : t) : t :=
  let 'mk a b c d e f g h i j k _ := p in mk a b c d e f g h i j k v.
End Policy.

(** The columns of [Claim] that the modelled operations read or write. *)
Module Claim.
Record t := mk {
  id : UUID;
  claim_number : string;
  user_id : UUID;
  policy_id : UUID;
  claim_type : ClaimType.t;
  status : ClaimStatus.t;
  trigger_event : string;
  trigger_value : option string;
  trigger_timestamp : datetime;
  fdc_request_id : option string;
  fdc_attestation_type : option string;
  fdc_merkle_root : option string;
  fdc_proof_data : option json;
  fdc_verified : bool;
  fdc_verification_timestamp : option datetime;
  ftso_price_usd : option Decimal;
  ftso_timestamp : option datetime;
  payout_amount : Decimal;
  payout_currency : string;
  payout_address : string;
  rejection_reason : option string;
  error_message : option text;
  raw_flight_data : option json;
  verified_at : option datetime;
  approved_at : option datetime;
  paid_at : option datetime
}.

Definition with_status (v : ClaimStatus.t) (c : t) : t :=
  let 'mk a1 a2 a3 a4 a5 _ a7 a8 a9 a10 a11 a12 a13 a14 a15 a16 a17 a18 a19 a20 a21 a22 a23 a24 a25 a26 := c in
  mk a1 a2 a3 a4 a5 v a7 a8 a9 a10 a11 a12 a13 a14 a15 a16 a17 a18 a19 a20 a21 a22 a23 a24 a25 a26.
Definition with_fdc_request_id (v : option string) (c : t) : t :=
  let 'mk a1 a2 a3 a4 a5 a6 a7 a8 a9 _ a11 a12 a13 a14 a15 a16 a17 a18 a19 a20 a21 a22 a23 a24 a25 a26 := c in
  mk a1 a2 a3 a4 a5 a6 a7 a8 a9 v a11 a12 a13 a14 a15 a16 a17 a18 a19 a20 a21 a22 a23 a24 a25 a26.
Definition with_fdc_attestation_type (v : option string) (c : t) : t :=
  let 'mk a1 a2 a3 a4 a5 a6 a7 a8 a9 a10 _ a12 a13 a14 a15 a16 a17 a18 a19 a20 a21 a22 a23 a24 a25 a26 := c in
  mk a1 a2 a3 a4 a5 a6 a7 a8 a9 a10 v a12 a13 a14 a15 a16 a17 a18 a19 a20 a21 a22 a23 a24 a25 a26.
Definition with_fdc_merkle_root (v : option string) (c : t) : t :=
  let 'mk a1 a2 a3 a4 a5 a6 a7 a8 a9 a10 a11 _ a13 a14 a15 a16 a17 a18 a19 a20 a21 a22 a23 a24 a25 a26 := c in
  mk a1 a2 a3 a4 a5 a6 a7 a8 a9 a10 a11 v a13 a14 a15 a16 a17 a18 a19 a20 a21 a22 a23 a24 a25 a26.
Definition with_fdc_proof_data (v : option json) (c : t) : t :=
  let 'mk a1 a2 a3 a4 a5 a6 a7 a8 a9 a10 a11 a12 _ a14 a15 a16 a17 a18 a19 a20 a21 a22 a23 a24 a25 a26 := c in
  mk a1 a2 a3 a4 a5 a6 a7 a8 a9 a10 a11 a12 v a14 a15 a16 a17 a18 a19 a20 a21 a22 a23 a24 a25 a26.
Definition with_fdc_verified (v : bool) (c : t) : t :=
  let 'mk a1 a2 a3 a4 a5 a6 a7 a8 a9 a10 a11 a12 a13 _ a15 a16 a17 a18 a19 a20 a21 a22 a23 a24 a25 a26 := c in
  mk a1 a2 a3 a4 a5 a6 a7 a8 a9 a10 a11 a12 a13 v a15 a16 a17 a18 a19 a20 a21 a22 a23 a24 a25 a26.
Definition with_fdc_verification_timestamp (v : option datetime) (c : t) : t :=
  let 'mk a1 a2 a3 a4 a5 a6 a7 a8 a9 a10 a11 a12 a13 a14 _ a16 a17 a18 a19 a20 a21 a22 a23 a24 a25 a26 := c in
  mk a1 a2 a3 a4 a5 a6 a7 a8 a9 a10 a11 a12 a13 a14 v a16 a17 a18 a19 a20 a21 a22 a23 a24 a25 a26.
Definition with_ftso_price_usd (v : option Decimal) (c : t) : t :=
  let 'mk a1 a2 a3 a4 a5 a6 a7 a8 a9 a10 a11 a12 a13 a14 a15 _ a17 a18 a19 a20 a21 a22 a23 a24 a25 a26 := c in
  mk a1 a2 a3 a4 a5 a6 a7 a8 a9 a10 a11 a12 a13 a14 a15 v a17 a18 a19 a20 a21 a22 a23 a24 a25 a26.
Definition with_ftso_timestamp (v : option datetime) (c : t) : t :=
  let 'mk a1 a2 a3 a4 a5 a6 a7 a8 a9 a10 a11 a12 a13 a14 a15 a16 _ a18 a19 a20 a21 a22 a23 a24 a25 a26 := c in
  mk a1 a2 a3 a4 a5 a6 a7 a8 a9 a10 a11 a12 a13 a14 a15 a16 v a18 a19 a20 a21 a22 a23 a24 a25 a26.
Definition with_rejection_reason (v : option string) (c : t) : t :=
  let 'mk a1 a2 a3 a4 a5 a6 a7 a8 a9 a10 a11 a12 a13 a14 a15 a16 a17 a18 a19 a20 _ a22 a23 a24 a25 a26 := c in
  mk a1 a2 a3 a4 a5 a6 a7 a8 a9 a10 a11 a12 a13 a14 a15 a16 a17 a18 a19 a20 v a22 a23 a24 a25 a26.
Definition with_error_message (v : option text) (c : t) : t :=
  let 'mk a1 a2 a3 a4 a5 a6 a7 a8 a9 a10 a11 a12 a13 a14 a15 a16 a17 a18 a19 a20 a21 _ a23 a24 a25 a26 := c in
  mk a1 a2 a3 a4 a5 a6 a7 a8 a9 a10 a11 a12 a13 a14 a15 a16 a17 a18 a19 a20 a21 v a23 a24 a25 a26.
Definition with_raw_flight_data (v : option json) (c : t) : t :=
  let 'mk a1 a2 a3 a4 a5 a6 a7 a8 a9 a10 a11 a12 a13 a14 a15 a16 a17 a18 a19 a20 a21 a22 _ a24 a25 a26 := c in
  mk a1 a2 a3 a4 a5 a6 a7 a8 a9 a10 a11 a12 a13 a14 a15 a16 a17 a18 a19 a20 a21 a22 v a24 a25 a26.
Definition with_verified_at (v : option datetime) (c : t) : t :=
  let 'mk a1 a2 a3 a4 a5 a6 a7 a8 a9 a10 a11 a12 a13 a14 a15 a16 a17 a18 a19 a20 a21 a22 a23 _ a25 a26 := c in
  mk a1 a2 a3 a4 a5 a6 a7 a8 a9 a10 a11 a12 a13 a14 a15 a16 a17 a18 a19 a20 a21 a22 a23 v a25 a26.
Definition with_approved_at (v : option datetime) (c : t) : t :=
  let 'mk a1 a2 a3 a4 a5 a6 a7 a8 a9 a10 a11 a12 a13 a14 a15 a16 a17 a18 a19 a20 a21 a22 a23 a24 _ a26 := c in
  mk a1 a2 a3 a4 a5 a6 a7 a8 a9 a10 a11 a12 a13 a14 a15 a16 a17 a18 a19 a20 a21 a22 a23 a24 v a26.
Definition with_paid_at (v : option datetime) (c : t) : t :=
  let 'mk a1 a2 a3 a4 a5 a6 a7 a8 a9 a10 a11 a12 a13 a14 a15 a16 a17 a18 a19 a20 a21 a22 a23 a24 a25 _ := c in
  mk a1 a2 a3 a4 a5 a6 a7 a8 a9 a10 a11 a12 a13 a14 a15 a16 a17 a18 a19 a20 a21 a22 a23 a24 a25 v.
End Claim.

Module PoolTransactionType.
Inductive t := PREMIUM_DEPOSIT | PAYOUT.
End PoolTransactionType.

Module InsurancePool.
Record t := mk {
  id : UUID;
  name : string;
  symbol : string;
  contract_address : string;
  is_active : bool;
  total_value_locked : Decimal;
  total_premiums_collected : Decimal;
  total_payouts_made : Decimal;
  stablecoin_reserve : Decimal;
  fasset_reserve : Decimal;
  collateralization_ratio : Decimal;
  total_policies_issued : Z;
  total_claims_paid : Z;
  average_payout_time_seconds : option Z;
  lp_apy : option Decimal
}.
End InsurancePool.

(** [PoolTransaction], without the free-text [description]. *)
Module PoolTransaction.
Record t := mk {
  pool_id : UUID;
  transaction_type : PoolTransactionType.t;
  amount : Decimal;
  currency : string;
  tx_hash : string;
  block_number : Z;
  from_address : string;
  to_address : string;
  user_id : option UUID;
  policy_id : option UUID;
  claim_id : option UUID
}.
End PoolTransaction.

(** ** The session's store *)

Record DB := mkDB {
  policies : gmap UUID Policy.t;
  claims : gmap UUID Claim.t;
  pools : gmap UUID InsurancePool.t;
  pool_transactions : list PoolTransaction.t
}.

Definition set_policies (f : gmap UUID Policy.t -> gmap UUID Policy.t) (db : DB) : DB :=
  mkDB (f (policies db)) (claims db) (pools db) (pool_transactions db).
Definition set_claims (f : gmap UUID Claim.t -> gmap UUID Claim.t) (db : DB) : DB :=
  mkDB (policies db) (f (claims db)) (pools db) (pool_transactions db).
Definition set_pools (f : gmap UUID InsurancePool.t -> gmap UUID InsurancePool.t) (db : DB) : DB :=
  mkDB (policies db) (claims db) (f (pools db)) (pool_transactions db).
Definition set_pool_transactions (f : list PoolTransaction.t -> list PoolTransaction.t) (db : DB) : DB :=
  mkDB (policies db) (claims db) (pools db) (f (pool_transactions db)).

(** ** Operations on the store: state and exceptions *)

Definition M (A : Type) : Type := DB -> DB * result A.

#[global] Instance M_ret : MRet M := fun A a db => (db, Return a).
#[global] Instance M_bind : MBind M := fun A B f m db =>
  match m db with
  | (db', Return a) => f a db'
  | (db', Raise e) => (db', Raise e)
  end.

Definition raise {A} (e : exn) : M A := fun db => (db, Raise e).
Definition gets {A} (f : DB -> A) : M A := fun db => (db, Return (f db)).
Definition modify (f : DB -> DB) : M unit := fun db => (f db, Return tt).

(** [try: body except E as e: handler e], for the exceptions [E] selects. *)
Definition try_except {A} (body : M A) (E : exn -> bool) (handler : exn -> M A) : M A :=
  fun db =>
    match body db with
    | (db', Return a) => (db', Return a)
    | (db', Raise e) => if E e then handler e db' else (db', Raise e)
    end.

(** An attribute write on a loaded row: [claim.x = v], [policy.x = v]. *)
Definition update_claim (claim_id : UUID) (f : Claim.t -> Claim.t) : M unit :=
  modify (set_claims (fun m => alter f claim_id m)).
Definition update_policy (policy_id : UUID) (f : Policy.t -> Policy.t) : M unit :=
  modify (set_policies (fun m => alter f policy_id m)).
Definition update_pool (pool_id : UUID) (f : InsurancePool.t -> InsurancePool.t) : M unit :=
  modify (set_pools (fun m => alter f pool_id m)).

(** [await db.flush()] of rows inserted under a unique constraint. When
    the constraint refuses the insert, the flush raises and the session's
    transaction is rolled back: the store is again [db0], the store the
    operation began with. *)
Definition flush_unique (db0 : DB) (collision : bool) : M unit :=
  fun db => if collision then (db0, Raise IntegrityError) else (db, Return tt).

(** ** Pool manager ([services/insurance/pool_manager.py]) *)

Module PoolManager.

Definition min_collateralization_ratio : Decimal := 150%Q.

(** The dict returned by [get_pool_stats]. *)
Record PoolStats := mkStats {
  pool_id : UUID;
  name : string;
  symbol : string;
  total_value_locked : pyfloat;
  total_premiums_collected : pyfloat;
  total_payouts_made : pyfloat;
  stablecoin_reserve : pyfloat;
  fasset_reserve : pyfloat;
  collateralization_ratio : pyfloat;
  total_policies_issued : Z;
  total_claims_paid : Z;
  average_payout_time_seconds : option Z;
  lp_apy : option pyfloat;
  utilization_rate : pyfloat;
  available_for_claims : pyfloat;
  is_active : bool
}.

Definition stats_of (pool : InsurancePool.t) : PoolStats :=
  let available :=
    (InsurancePool.total_value_locked pool - InsurancePool.total_payouts_made pool)%Q in
  let pending_obligations :=
    (InsurancePool.total_premiums_collected pool - InsurancePool.total_payouts_made pool)%Q in
  let utilization_rate :=
    if Qgtb (InsurancePool.total_value_locked pool) 0
    then ((pending_obligations / InsurancePool.total_value_locked pool) * 100)%Q
    else 0%Q in
  {| pool_id := InsurancePool.id pool;
     name := InsurancePool.name pool;
     symbol := InsurancePool.symbol pool;
     total_value_locked := float (InsurancePool.total_value_locked pool);
     total_premiums_collected := float (InsurancePool.total_premiums_collected pool);
     total_payouts_made := float (InsurancePool.total_payouts_made pool);
     stablecoin_reserve := float (InsurancePool.stablecoin_reserve pool);
     fasset_reserve := float (InsurancePool.fasset_reserve pool);
     collateralization_ratio := float (InsurancePool.collateralization_ratio pool);
     total_policies_issued := InsurancePool.total_policies_issued pool;
     total_claims_paid := InsurancePool.total_claims_paid pool;
     average_payout_time_seconds := InsurancePool.average_payout_time_seconds pool;
     lp_apy := match InsurancePool.lp_apy pool with
               | Some apy => if Qeq_bool apy 0 then None else Some (float apy)
               | None => None
               end;
     utilization_rate := float utilization_rate;
     available_for_claims := float available;
     is_active := InsurancePool.is_active pool |}.

(** [get_pool_stats]: [None] when the pool does not exist. *)
Definition get_pool_stats (db : DB) (pool_id : UUID) : option PoolStats :=
  stats_of <$> pools db !! pool_id.

(** The four assignments of [deposit_premium] on the pool row. *)
Definition credit (amount : Decimal) (pool : InsurancePool.t) : InsurancePool.t :=
  let 'InsurancePool.mk i n s ca act tvl prem pay res fas col pol cl avg apy := pool in
  InsurancePool.mk i n s ca act
    (tvl + amount)%Q (prem + amount)%Q pay (res + amount)%Q fas col (pol + 1) cl avg apy.

(** The four assignments of [process_payout] on the pool row. *)
Definition debit (amount : Decimal) (pool : InsurancePool.t) : InsurancePool.t :=
  let 'InsurancePool.mk i n s ca act tvl prem pay res fas col pol cl avg apy := pool in
  InsurancePool.mk i n s ca act
    (tvl - amount)%Q prem (pay + amount)%Q (res - amount)%Q fas col pol (cl + 1) avg apy.

Definition tx_hash_taken (db : DB) (tx_hash : string) : bool :=
  existsb (fun t => bool_decide (PoolTransaction.tx_hash t = tx_hash)) (pool_transactions db).

Definition deposit_premium (pool_id : UUID) (amount : Decimal) (policy_id user_id : UUID)
    (tx_hash : string) (block_number : Z) (from_address : string) : M PoolTransaction.t :=
  fun db0 =>
  (pool ← gets (fun db => pools db !! pool_id);
   match pool with
   | None => raise (ValueError (PoolNotFound pool_id))
   | Some pool =>
     update_pool pool_id (credit amount);;
     let transaction :=
       {| PoolTransaction.pool_id := pool_id;
          PoolTransaction.transaction_type := PoolTransactionType.PREMIUM_DEPOSIT;
          PoolTransaction.amount := amount;
          PoolTransaction.currency := "USDT";
          PoolTransaction.tx_hash := tx_hash;
          PoolTransaction.block_number := block_number;
          PoolTransaction.from_address := from_address;
          PoolTransaction.to_address := InsurancePool.contract_address pool;
          PoolTransaction.user_id := Some user_id;
          PoolTransaction.policy_id := Some policy_id;
          PoolTransaction.claim_id := None |} in
     collision ← gets (fun db => tx_hash_taken db tx_hash);
     modify (set_pool_transactions (fun l => (l ++ [transaction])));;
     flush_unique db0 collision;;
     mret transaction
   end) db0.

(** The dict returned by [process_payout]. *)
Record PayoutInfo := mkPayoutInfo {
  info_pool_id : UUID;
  info_claim_id : UUID;
  info_amount : pyfloat;
  info_currency : string;
  info_to_address : string;
  info_status : string
}.

Definition process_payout (pool_id : UUID) (amount : Decimal) (claim_id user_id : UUID)
    (to_address : string) : M PayoutInfo :=
  pool ← gets (fun db => pools db !! pool_id);
  match pool with
  | None => raise (ValueError (PoolNotFound pool_id))
  | Some pool =>
    let available := InsurancePool.stablecoin_reserve pool in
    if Qgtb amount available
    then raise (InsufficientFundsError (float amount) (float available))
    else
      update_pool pool_id (debit amount);;
      mret {| info_pool_id := pool_id;
              info_claim_id := claim_id;
              info_amount := float amount;
              info_currency := "USDT";
              info_to_address := to_address;
              info_status := "pending_tx" |}
  end.

(** *** [check_pool_health] *)

(** The entries of [warnings]:
    f"Collateralization below minimum ({self.min_collateralization_ratio}%)",
    f"High utilization rate ({stats['utilization_rate']:.1f}%)" and
    "Low stablecoin reserves". *)
Inductive warning :=
| CollateralizationBelowMinimum (minimum : Decimal)
| HighUtilizationRate (rate : pyfloat)
| LowStablecoinReserves.

Record HealthReport := mkHealth {
  is_healthy : bool;
  health_collateralization_ratio : pyfloat;
  minimum_ratio : pyfloat;
  health_available_for_claims : pyfloat;
  pending_claims_value : Z;
  health_utilization_rate : pyfloat;
  risk_level : string;
  warnings : list warning
}.

(** [{"healthy": False, "error": "Pool not found"}] or the report. *)
Inductive Health :=
| HealthPoolNotFound
| Health_ (report : HealthReport).

Section Floats.
(** Rounding of a rational to the nearest double: the number a
    [pyfloat] denotes is [round d]. Comparisons between floats, and
    between a float and an int, compare these numbers exactly. *)
Variable round : Q -> Q.

Definition number (x : pyfloat) : Q := let 'float d := x in round d.

(** First check: [stats["collateralization_ratio"] < float(self.min_collateralization_ratio)]. *)
Definition collateralization_low (stats : PoolStats) : bool :=
  Qgtb (number (float min_collateralization_ratio)) (number (collateralization_ratio stats)).

(** Second check: [stats["utilization_rate"] > 80]. *)
Definition utilization_high (stats : PoolStats) : bool :=
  Qgtb (number (utilization_rate stats)) 80.

(** Third check: [stats["stablecoin_reserve"] < 10000]. *)
Definition reserve_low (stats : PoolStats) : bool :=
  Qgtb 10000 (number (stablecoin_reserve stats)).

Definition health_warnings (stats : PoolStats) : list warning :=
  let warnings := [] in
  let warnings :=
    if collateralization_low stats
    then warnings ++ [CollateralizationBelowMinimum min_collateralization_ratio]
    else warnings in
  let warnings :=
    if utilization_high stats
    then warnings ++ [HighUtilizationRate (utilization_rate stats)]
    else warnings in
  let warnings :=
    if reserve_low stats
    then warnings ++ [LowStablecoinReserves]
    else warnings in
  warnings.

Definition risk_level_of (warnings : list warning) : string :=
  if bool_decide (2 <= length warnings)%nat then "high"
  else if bool_decide (length warnings = 1%nat) then "medium"
  else "low".

Definition check_pool_health (db : DB) (pool_id : UUID) : Health :=
  match get_pool_stats db pool_id with
  | None => HealthPoolNotFound
  | Some stats =>
    let warnings := health_warnings stats in
    let is_healthy := bool_decide (length warnings = 0%nat) in
    let risk_level := risk_level_of warnings in
    Health_ {| is_healthy := is_healthy;
               health_collateralization_ratio := collateralization_ratio stats;
               minimum_ratio := float min_collateralization_ratio;
               health_available_for_claims := available_for_claims stats;
               pending_claims_value := 0;
               health_utilization_rate := utilization_rate stats;
               risk_level := risk_level;
               warnings := warnings |}
  end.
End Floats.

End PoolManager.

(** ** FDC client ([services/blockchain/fdc_client.py]) *)

(** An answer of an external service: the value, or the failure that the
    client wraps into its own exception class. *)
Inductive answer (A : Type) :=
| Answer (a : A)
| Fails (detail : string).
Arguments Answer {A} a.
Arguments Fails {A} detail.

Module FDCClient.

(** The dict of [prepare_flight_status_request] (through
    [prepare_web2_json_request]); the url is kept as the three values
    it is formatted from. *)
Record Request := mkRequest {
  attestationType : string;
  sourceId : string;
  url_airline_code : string;
  url_flight_number : string;
  url_flight_date : datetime;
  jsonPath : string;
  expectedType : string
}.

Definition prepare_flight_status_request (flight_number airline_code : string)
    (flight_date : datetime) : Request :=
  {| attestationType := "Web2Json";
     sourceId := "WEB2";
     url_airline_code := airline_code;
     url_flight_number := flight_number;
     url_flight_date := flight_date;
     jsonPath := "$.flightStatuses[0].status";
     expectedType := "string" |}.

(** The dict of [get_proof]. *)
Record Proof := mkProof {
  proof_request_id : string;
  merkle_root : string;
  proof : list string
}.

(** [verify_proof]: [not merkle_root or not proof] gives [False], any
    other root and proof give [True]. *)
Definition verify_proof (merkle_root : string) (proof : list string) : bool :=
  if bool_decide (merkle_root = "") || bool_decide (proof = [])
  then false
  else true.

(** *** [get_request_status] and [poll_until_finalized] *)

Definition status_map (status : Z) : string :=
  if bool_decide (status = 0) then "pending"
  else if bool_decide (status = 1) then "submitted"
  else if bool_decide (status = 2) then "voting"
  else if bool_decide (status = 3) then "finalized"
  else if bool_decide (status = 4) then "failed"
  else "unknown".

Record Status := mkStatus {
  status_request_id : string;
  status : string;
  status_code : Z
}.

(** The hub as the polling loop sees it. [hub_status k] answers the
    [k]-th call of [getAttestationStatus] (a status code, or the failure
    of the call); the call takes [call_time k] microseconds, and the
    [k]-th [asyncio.sleep] oversleeps by [sleep_lag k] microseconds. *)
Record Hub := mkHub {
  hub_status : nat -> answer Z;
  call_time : nat -> Z;
  sleep_lag : nat -> Z
}.

Definition get_request_status (hub : Hub) (request_id : string) (k : nat) : result Status :=
  match hub_status hub k with
  | Answer status =>
    Return {| status_request_id := request_id;
              status := status_map status;
              status_code := status |}
  | Fails e => Raise (FDCAttestationError ("Status check failed: " +:+ e))
  end.

(** [timedelta(seconds=n)] in microseconds, the resolution of [datetime]. *)
Definition seconds (n : Z) : Z := n * 1000000.

(** The run of [poll_until_finalized]: what it returns or raises, the
    number of status calls it made, and the clock when it ended. *)
Record Run := mkRun {
  outcome : result Status;
  calls : nat;
  ended : datetime
}.

(** The [while] loop, entered for the [k]-th time at clock [now]. The
    loop is unbounded in the source; [fuel] bounds the iterations of the
    model, [None] meaning that the fuel ran out. *)
Fixpoint poll_loop (fuel : nat) (hub : Hub) (request_id : string)
    (timeout_seconds poll_interval : Z) (deadline : datetime)
    (k : nat) (now : datetime) : option Run :=
  match fuel with
  | O => None
  | S fuel =>
    if bool_decide (now < deadline) then
      let now := now + call_time hub k in
      match get_request_status hub request_id k with
      | Raise e => Some (mkRun (Raise e) (S k) now)
      | Return status_ =>
        if bool_decide (status status_ = "finalized") then
          Some (mkRun (Return status_) (S k) now)
        else if bool_decide (status status_ = "failed") then
          Some (mkRun (Raise (FDCAttestationError ("Request " +:+ request_id +:+ " failed")))
                      (S k) now)
        else
          let now := now + seconds (Z.max 0 poll_interval) + sleep_lag hub k in
          poll_loop fuel hub request_id timeout_seconds poll_interval deadline (S k) now
      end
    else
      Some (mkRun
              (Raise (FDCAttestationError
                        ("Request " +:+ request_id +:+ " did not finalize within "
                           +:+ pretty timeout_seconds +:+ "s")))
              k now)
  end.

Definition poll_until_finalized (fuel : nat) (hub : Hub) (start_time : datetime)
    (request_id : string) (timeout_seconds poll_interval : Z) : option Run :=
  let deadline := start_time + seconds timeout_seconds in
  poll_loop fuel hub request_id timeout_seconds poll_interval deadline 0%nat start_time.






(** *** The client as the claims engine sees it

    The answers of the hub and of the verifier to the calls of one
    verification. Each method wraps every failure into
    [FDCAttestationError]; [get_response_data] returns [None] instead. *)
Record t := mk {
  submit_request : Request -> answer string;
  poll : string -> answer Status;
  get_proof : string -> answer Proof;
  get_response_data : string -> option json
}.

End FDCClient.

(** A call of a client method inside an operation on the store. *)
Definition call {A} (wrap : string -> exn) (a : answer A) : M A :=
  match a with
  | Answer v => mret v
  | Fails detail => raise (wrap detail)
  end.

(** ** Claims engine ([services/insurance/claims_engine.py]) *)

Module ClaimsEngine.

(** [select(Claim).where(Claim.id == claim_id)] with the
    [ResourceNotFoundError] of the engine. *)
Definition load_claim (claim_id : UUID) : M Claim.t :=
  claim ← gets (fun db => claims db !! claim_id);
  match claim with
  | None => raise (ResourceNotFoundError "Claim" claim_id)
  | Some claim => mret claim
  end.

(** A read of an attribute of the loaded claim after writes to it. *)
Definition claim_attr {A} (claim_id : UUID) (claim : Claim.t) (attr : Claim.t -> A) : M A :=
  gets (fun db => attr (default claim (claims db !! claim_id))).

(** The unique constraint on [claims.claim_number]. *)
Definition claim_number_taken (db : DB) (claim_number : string) : bool :=
  existsb (fun kv => bool_decide (Claim.claim_number kv.2 = claim_number))
          (map_to_list (claims db)).

(** [initiate_claim]. [claim_number] is the value of
    [generate_claim_number()] (date and random suffix); the primary key
    is the [uuid4] default, a key no claim has yet. *)
Definition initiate_claim (claim_number : string) (now : datetime)
    (policy_id user_id : UUID) (trigger_event : string)
    (trigger_value : option string) (payout_address : string) : M Claim.t :=
  fun db0 =>
  (policy ← gets (fun db => policies db !! policy_id);
   match policy with
   | None => raise (ResourceNotFoundError "Policy" policy_id)
   | Some policy =>
     if bool_decide (Policy.user_id policy ≠ user_id) then
       raise (ResourceNotFoundError "Policy" policy_id)
     else if bool_decide (Policy.status policy ≠ PolicyStatus.ACTIVE) then
       raise (PolicyNotActiveError policy_id)
     else if bool_decide (Policy.status policy ∈ [PolicyStatus.CLAIMED; PolicyStatus.PAID]) then
       raise (PolicyAlreadyClaimedError policy_id)
     else
       id ← gets (fun db => fresh (dom (claims db)));
       let claim :=
         {| Claim.id := id;
            Claim.claim_number := claim_number;
            Claim.user_id := user_id;
            Claim.policy_id := policy_id;
            Claim.claim_type := ClaimType.AUTOMATIC;
            Claim.status := ClaimStatus.INITIATED;
            Claim.trigger_event := trigger_event;
            Claim.trigger_value := trigger_value;
            Claim.trigger_timestamp := now;
            Claim.fdc_request_id := None;
            Claim.fdc_attestation_type := None;
            Claim.fdc_merkle_root := None;
            Claim.fdc_proof_data := None;
            Claim.fdc_verified := false;
            Claim.fdc_verification_timestamp := None;
            Claim.ftso_price_usd := None;
            Claim.ftso_timestamp := None;
            Claim.payout_amount := Policy.coverage_amount policy;
            Claim.payout_currency := Policy.currency policy;
            Claim.payout_address := payout_address;
            Claim.rejection_reason := None;
            Claim.error_message := None;
            Claim.raw_flight_data := None;
            Claim.verified_at := None;
            Claim.approved_at := None;
            Claim.paid_at := None |} in
       collision ← gets (fun db => claim_number_taken db claim_number);
       modify (set_claims (fun m => <[id := claim]> m));;
       update_policy policy_id (Policy.with_status PolicyStatus.PAYOUT_PENDING);;
       flush_unique db0 collision;;
       mret claim
   end) db0.

(** The dict returned by [verify_claim_with_fdc]. *)
Record Verification := mkVerification {
  is_verified : bool;
  fdc_request_id : option string;
  merkle_root : option string;
  verification_timestamp : datetime;
  flight_data : option json;
  error_message : option text
}.

(** [if response_data:] on an [Optional[dict]]. *)
Definition truthy (response_data : option json) : bool :=
  match response_data with
  | None | Some JNull | Some (JObj []) | Some (JList []) => false
  | Some (JBool b) => b
  | Some (JInt z) => bool_decide (z ≠ 0)
  | Some (JStr s) => bool_decide (s ≠ "")
  | Some _ => true
  end.

(** The first steps of [verify_claim_with_fdc]: load the claim and its
    policy, set the claim to VERIFYING, flush. *)
Definition begin_verification (claim_id : UUID) : M (Claim.t * Policy.t) :=
  claim ← load_claim claim_id;
  policy ← gets (fun db => policies db !! Claim.policy_id claim);
  match policy with
  | None => raise (ResourceNotFoundError "Policy" (Claim.policy_id claim))
  | Some policy =>
    update_claim claim_id (Claim.with_status ClaimStatus.VERIFYING);;
    mret (claim, policy)
  end.

(** The body of the [try] of [verify_claim_with_fdc]. *)
Definition attest (fdc : FDCClient.t) (now : datetime) (claim_id : UUID)
    (policy : Policy.t) : M Verification :=
  let fdc_request :=
    FDCClient.prepare_flight_status_request
      (Policy.flight_number policy) (Policy.airline_code policy)
      (Policy.scheduled_departure policy) in
  request_id ← call FDCAttestationError (FDCClient.submit_request fdc fdc_request);
  update_claim claim_id (Claim.with_fdc_request_id (Some request_id));;
  update_claim claim_id (Claim.with_fdc_attestation_type (Some "EVMTransaction"));;
  call FDCAttestationError (FDCClient.poll fdc request_id);;
  proof ← call FDCAttestationError (FDCClient.get_proof fdc request_id);
  let response_data := FDCClient.get_response_data fdc request_id in
  let is_valid :=
    FDCClient.verify_proof (FDCClient.merkle_root proof) (FDCClient.proof proof) in
  (if is_valid then
     update_claim claim_id (Claim.with_fdc_merkle_root (Some (FDCClient.merkle_root proof)));;
     update_claim claim_id
       (Claim.with_fdc_proof_data
          (Some (JObj [("proof", JList (JStr <$> FDCClient.proof proof));
                       ("response", default JNull response_data)])));;
     update_claim claim_id (Claim.with_fdc_verified true);;
     update_claim claim_id (Claim.with_fdc_verification_timestamp (Some now));;
     update_claim claim_id (Claim.with_status ClaimStatus.APPROVED);;
     update_claim claim_id (Claim.with_verified_at (Some now));;
     update_claim claim_id (Claim.with_approved_at (Some now));;
     (if truthy response_data
      then update_claim claim_id (Claim.with_raw_flight_data response_data)
      else mret tt)
   else
     update_claim claim_id (Claim.with_fdc_verified false);;
     update_claim claim_id (Claim.with_status ClaimStatus.REJECTED);;
     update_claim claim_id
       (Claim.with_rejection_reason (Some "FDC proof verification failed")));;
  mret {| is_verified := is_valid;
          fdc_request_id := Some request_id;
          merkle_root := Some (FDCClient.merkle_root proof);
          verification_timestamp := now;
          flight_data := response_data;
          error_message := if is_valid then None else Some (Literal "Verification failed") |}.

(** The [except FDCAttestationError as e] of [verify_claim_with_fdc]. *)
Definition attestation_failed (now : datetime) (claim_id : UUID) (claim : Claim.t)
    (e : exn) : M Verification :=
  update_claim claim_id (Claim.with_status ClaimStatus.FAILED);;
  update_claim claim_id (Claim.with_error_message (Some (str e)));;
  request_id ← claim_attr claim_id claim Claim.fdc_request_id;
  mret {| is_verified := false;
          fdc_request_id := request_id;
          merkle_root := None;
          verification_timestamp := now;
          flight_data := None;
          error_message := Some (str e) |}.

Definition verify_claim_with_fdc (fdc : FDCClient.t) (now : datetime)
    (claim_id : UUID) : M Verification :=
  '(claim, policy) ← begin_verification claim_id;
  try_except (attest fdc now claim_id policy)
    is_FDCAttestationError
    (attestation_failed now claim_id claim).

(** The dict returned by [process_payout]. *)
Inductive Payout :=
| PayoutDone (claim_id : UUID) (payout_amount : pyfloat) (payout_address : string)
             (ftso_price_usd : pyfloat) (paid_at : datetime)
| PayoutFailed (claim_id : UUID) (error : text).

(** The entry ["success"] of the dict. *)
Definition success (r : Payout) : bool :=
  match r with PayoutDone _ _ _ _ _ => true | PayoutFailed _ _ => false end.

(** The body of the [try] of [process_payout]. [usdt_usd] is the answer
    of [ftso_client.get_usdt_usd()], which wraps every failure into
    [FTSOPriceError]. *)
Definition pay (usdt_usd : answer Decimal) (now : datetime) (claim_id pool_id : UUID)
    (claim : Claim.t) : M Payout :=
  usdt_price ← call FTSOPriceError usdt_usd;
  update_claim claim_id (Claim.with_ftso_price_usd (Some usdt_price));;
  update_claim claim_id (Claim.with_ftso_timestamp (Some now));;
  PoolManager.process_payout pool_id (Claim.payout_amount claim) claim_id
    (Claim.user_id claim) (Claim.payout_address claim);;
  update_claim claim_id (Claim.with_status ClaimStatus.PAID);;
  update_claim claim_id (Claim.with_paid_at (Some now));;
  update_policy (Claim.policy_id claim)
    (fun p => Policy.with_payout_address (Some (Claim.payout_address claim))
                (Policy.with_paid_at (Some now)
                   (Policy.with_payout_amount (Some (Claim.payout_amount claim))
                      (Policy.with_status PolicyStatus.PAID p))));;
  mret (PayoutDone claim_id (float (Claim.payout_amount claim))
                   (Claim.payout_address claim) (float usdt_price) now).

(** The [except Exception as e] of [process_payout]. *)
Definition payout_failed (claim_id : UUID) (e : exn) : M Payout :=
  update_claim claim_id (Claim.with_status ClaimStatus.FAILED);;
  update_claim claim_id (Claim.with_error_message (Some (str e)));;
  mret (PayoutFailed claim_id (str e)).

Definition process_payout (usdt_usd : answer Decimal) (now : datetime)
    (claim_id pool_id : UUID) : M Payout :=
  claim ← load_claim claim_id;
  if bool_decide (Claim.status claim ≠ ClaimStatus.APPROVED) then
    raise (ValueError (ClaimNotApproved claim_id))
  else
    update_claim claim_id (Claim.with_status ClaimStatus.PROCESSING);;
    try_except (pay usdt_usd now claim_id pool_id claim)
      is_Exception
      (payout_failed claim_id).

(** The dict returned by [auto_process_claim]. *)
Record AutoResult := mkAuto {
  auto_success : bool;
  auto_claim_id : UUID;
  auto_claim_number : string;
  auto_status : string;
  auto_payout_amount : option pyfloat;
  auto_payout_address : option string;
  auto_paid_at : option datetime;
  auto_error : option text
}.

Definition auto_process_claim (claim_number : string) (fdc : FDCClient.t)
    (usdt_usd : answer Decimal) (now : datetime)
    (policy_id user_id pool_id : UUID) (payout_address : string) : M AutoResult :=
  claim ← initiate_claim claim_number now policy_id user_id "flight_delayed" None payout_address;
  verification ← verify_claim_with_fdc fdc now (Claim.id claim);
  if negb (is_verified verification) then
    mret {| auto_success := false;
            auto_claim_id := Claim.id claim;
            auto_claim_number := Claim.claim_number claim;
            auto_status := "verification_failed";
            auto_payout_amount := None;
            auto_payout_address := None;
            auto_paid_at := None;
            auto_error := error_message verification |}
  else
    payout ← process_payout usdt_usd now (Claim.id claim) pool_id;
    mret {| auto_success := success payout;
            auto_claim_id := Claim.id claim;
            auto_claim_number := Claim.claim_number claim;
            auto_status := if success payout then "paid" else "payout_failed";
            auto_payout_amount := match payout with
                                  | PayoutDone _ a _ _ _ => Some a
                                  | PayoutFailed _ _ => None
                                  end;
            auto_payout_address := match payout with
                                   | PayoutDone _ _ a _ _ => Some a
                                   | PayoutFailed _ _ => None
                                   end;
            auto_paid_at := match payout with
                            | PayoutDone _ _ _ _ t => Some t
                            | PayoutFailed _ _ => None
                            end;
            auto_error := match payout with
                          | PayoutFailed _ e => Some e
                          | PayoutDone _ _ _ _ _ => None
                          end |}.

End ClaimsEngine.

(** ** API handlers ([api/v1/claims.py], [api/v1/triggers.py]) *)

Module Api.

(** The response of [POST /{claim_id}/verify]. *)
Record VerifyResponse := mkVerifyResponse {
  message : string;
  verify_claim_id : UUID;
  verify_fdc_request_id : option string;
  verify_status : string
}.

(** [verify_claim]. [user] is the row of [User] found for the token's
    subject, if any. *)
Definition verify_claim (user : option UUID) (fdc : FDCClient.t) (now : datetime)
    (claim_id : UUID) : M VerifyResponse :=
  match user with
  | None => raise (HTTPException 404 UserNotFound)
  | Some user_id =>
    claim ← gets (fun db =>
               c ← claims db !! claim_id;
               if bool_decide (Claim.user_id c = user_id) then Some c else None);
    match claim with
    | None => raise (HTTPException 404 ClaimNotFound)
    | Some claim =>
      if bool_decide (Claim.status claim ∉ [ClaimStatus.INITIATED; ClaimStatus.VERIFYING]) then
        raise (HTTPException 400 (CannotVerifyClaimWithStatus (Claim.status claim)))
      else
        ClaimsEngine.verify_claim_with_fdc fdc now claim_id;;
        (* [verification_result.get("request_id")]: the dict has no such key *)
        mret {| message := "Verification initiated";
                verify_claim_id := claim_id;
                verify_fdc_request_id := None;
                verify_status := "verifying" |}
    end
  end.

(** [FDCWebhookPayload]; [response_data] is a dict, kept as its fields. *)
Record FDCWebhookPayload := mkPayload {
  request_id : string;
  attestation_type : string;
  merkle_root : string;
  response_data : list (string * json);
  finalized_at : datetime;
  block_number : Z
}.

(** [repr(x)] of a JSON value. The quoting of a string is the plain
    one: quotes and escapes inside the string are not treated. *)
Fixpoint py_repr (x : json) : string :=
  match x with
  | JNull => "None"
  | JBool b => if b then "True" else "False"
  | JInt z => pretty z
  | JStr s => "'" +:+ s +:+ "'"
  | JList items =>
    "[" +:+
    (fix all (l : list json) : string :=
       match l with
       | [] => ""
       | x :: [] => py_repr x
       | x :: (_ :: _) as rest => py_repr x +:+ ", " +:+ all rest
       end) items
    +:+ "]"
  | JObj fields =>
    "{" +:+
    (fix all (l : list (string * json)) : string :=
       match l with
       | [] => ""
       | (k, v) :: [] => "'" +:+ k +:+ "': " +:+ py_repr v
       | (k, v) :: (_ :: _) as rest => "'" +:+ k +:+ "': " +:+ py_repr v +:+ ", " +:+ all rest
       end) fields
    +:+ "}"
  end.

(** [f"{x}"]. *)
Definition py_format (x : json) : string :=
  match x with
  | JStr s => s
  | _ => py_repr x
  end.

(** [x >= n] for an int [n]: defined on ints and bools, a [TypeError]
    on every other JSON value. *)
Definition py_ge (x : json) (n : Z) : result bool :=
  match x with
  | JInt z => Return (bool_decide (n <= z))
  | JBool b => Return (bool_decide (n <= if b then 1 else 0))
  | _ => Raise TypeError
  end.

(** [x.get(key, default)]: an [AttributeError] unless [x] is a dict. *)
Definition py_get (x : json) (key : string) (default_ : json) : result json :=
  match x with
  | JObj fields => Return (default default_ (assoc_get key fields))
  | _ => Raise AttributeError
  end.

Definition lift {A} (r : result A) : M A := fun db => (db, r).

(** [scalar_one_or_none()] of
    [select(Claim).where(Claim.fdc_request_id == request_id)]. *)
Definition claim_of_request (request_id : string) : M (option Claim.t) :=
  rows ← gets (fun db =>
            filter (fun kv => Claim.fdc_request_id kv.2 = Some request_id)
                   (map_to_list (claims db)));
  match rows with
  | [] => mret None
  | [(_, claim)] => mret (Some claim)
  | _ => raise MultipleResultsFound
  end.

(** The response of the webhook. *)
Record WebhookResponse := mkWebhookResponse {
  webhook_status : string;
  webhook_claim_id : UUID;
  claim_status : string
}.

(** [fdc_finalization_webhook]. The queued background task
    [process_claim_payout] only logs. *)
Definition fdc_finalization_webhook (payload : FDCWebhookPayload) : M WebhookResponse :=
  claim ← claim_of_request (request_id payload);
  match claim with
  | None => raise (HTTPException 404 ClaimNotFoundForFDCRequest)
  | Some claim =>
    let claim_id := Claim.id claim in
    update_claim claim_id (Claim.with_fdc_merkle_root (Some (merkle_root payload)));;
    update_claim claim_id (Claim.with_fdc_proof_data (Some (JObj (response_data payload))));;
    update_claim claim_id (Claim.with_fdc_verified true);;
    update_claim claim_id (Claim.with_fdc_verification_timestamp (Some (finalized_at payload)));;
    (if bool_decide (attestation_type payload = "Web2Json") then
       flight_data ← lift (py_get (JObj (response_data payload)) "result" (JObj []));
       delay_minutes ← lift (py_get flight_data "delay_minutes" (JInt 0));
       policy ← gets (fun db => policies db !! Claim.policy_id claim);
       approve ← match policy with
                 | None => mret false
                 | Some policy => lift (py_ge delay_minutes (Policy.delay_threshold_minutes policy))
                 end;
       if approve : bool then
         update_claim claim_id (Claim.with_status ClaimStatus.APPROVED)
       else
         update_claim claim_id (Claim.with_status ClaimStatus.REJECTED);;
         update_claim claim_id
           (Claim.with_rejection_reason
              (Some ("Delay of " +:+ py_format delay_minutes +:+ " minutes below threshold")))
     else mret tt);;
    status ← ClaimsEngine.claim_attr claim_id claim Claim.status;
    mret {| webhook_status := "processed";
            webhook_claim_id := claim_id;
            claim_status := ClaimStatus.value status |}
  end.

End Api.

(** ** Histories of the system

    The operations of the source that write a claim row or a pool row,
    with the arguments and the answers of the external services of one
    call each. *)

Inductive operation :=
| InitiateClaim (claim_number : string) (now : datetime) (policy_id user_id : UUID)
    (trigger_event : string) (trigger_value : option string) (payout_address : string)
| VerifyClaimWithFdc (fdc : FDCClient.t) (now : datetime) (claim_id : UUID)
| ProcessPayout (usdt_usd : answer Decimal) (now : datetime) (claim_id pool_id : UUID)
| AutoProcessClaim (claim_number : string) (fdc : FDCClient.t) (usdt_usd : answer Decimal)
    (now : datetime) (policy_id user_id pool_id : UUID) (payout_address : string)
| VerifyClaim (user : option UUID) (fdc : FDCClient.t) (now : datetime) (claim_id : UUID)
| FdcFinalizationWebhook (payload : Api.FDCWebhookPayload)
| DepositPremium (pool_id : UUID) (amount : Decimal) (policy_id user_id : UUID)
    (tx_hash : string) (block_number : Z) (from_address : string)
| PoolProcessPayout (pool_id : UUID) (amount : Decimal) (claim_id user_id : UUID)
    (to_address : string).

(** The store an operation leaves, whether it returned or raised. *)
Definition apply (o : operation) (db : DB) : DB :=
  match o with
  | InitiateClaim n now p u e v a => (ClaimsEngine.initiate_claim n now p u e v a db).1
  | VerifyClaimWithFdc fdc now c => (ClaimsEngine.verify_claim_with_fdc fdc now c db).1
  | ProcessPayout usdt now c p => (ClaimsEngine.process_payout usdt now c p db).1
  | AutoProcessClaim n fdc usdt now p u pool a =>
    (ClaimsEngine.auto_process_claim n fdc usdt now p u pool a db).1
  | VerifyClaim user fdc now c => (Api.verify_claim user fdc now c db).1
  | FdcFinalizationWebhook payload => (Api.fdc_finalization_webhook payload db).1
  | DepositPremium p a pol u h b f => (PoolManager.deposit_premium p a pol u h b f db).1
  | PoolProcessPayout p a c u t => (PoolManager.process_payout p a c u t db).1
  end.

Definition run (history : list operation) (db : DB) : DB :=
  foldl (fun db o => apply o db) db history.

(** The two operations of the pool ledger, and the premiums a ledger
    history credits. *)
Definition is_ledger_operation (o : operation) : bool :=
  match o with
  | DepositPremium _ _ _ _ _ _ _ | PoolProcessPayout _ _ _ _ _ => true
  | _ => false
  end.

Definition premium_of (o : operation) : Decimal :=
  match o with
  | DepositPremium _ amount _ _ _ _ _ => amount
  | _ => 0%Q
  end.

(** Every claim of [db] is still in [db'], with the payout amount it had. *)
Definition keeps_payout_amounts (db db' : DB) : Prop :=
  forall claim_id claim,
    claims db !! claim_id = Some claim ->
    exists claim',
      claims db' !! claim_id = Some claim'
      /\ Claim.payout_amount claim' = Claim.payout_amount claim.

(** An operation on the store that keeps them, whatever it returns or raises. *)
Definition preserves_payout_amounts {A} (m : M A) : Prop :=
  forall db, keeps_payout_amounts db (m db).1.

(** [stablecoin_reserve >= 0] on every pool of the store. *)
Definition reserves_nonnegative (db : DB) : Prop :=
  forall pool_id pool,
    pools db !! pool_id = Some pool -> (0 <= InsurancePool.stablecoin_reserve pool)%Q.

(** ** Sample data for the concrete cases *)

Module Sample.

Definition pool : InsurancePool.t :=
  {| InsurancePool.id := 1;
     InsurancePool.name := "AeroShield Main Pool";
     InsurancePool.symbol := "asUSDT";
     InsurancePool.contract_address := "0xPOOL";
     InsurancePool.is_active := true;
     InsurancePool.total_value_locked := 1000;
     InsurancePool.total_premiums_collected := 1000;
     InsurancePool.total_payouts_made := 0;
     InsurancePool.stablecoin_reserve := 1000;
     InsurancePool.fasset_reserve := 0;
     InsurancePool.collateralization_ratio := 150;
     InsurancePool.total_policies_issued := 10;
     InsurancePool.total_claims_paid := 0;
     InsurancePool.average_payout_time_seconds := None;
     InsurancePool.lp_apy := None |}.

(** A pool whose reserve is empty. *)
Definition empty_pool : InsurancePool.t :=
  {| InsurancePool.id := 2;
     InsurancePool.name := "Empty Pool";
     InsurancePool.symbol := "asEMPTY";
     InsurancePool.contract_address := "0xEMPTY";
     InsurancePool.is_active := true;
     InsurancePool.total_value_locked := 0;
     InsurancePool.total_premiums_collected := 0;
     InsurancePool.total_payouts_made := 0;
     InsurancePool.stablecoin_reserve := 0;
     InsurancePool.fasset_reserve := 0;
     InsurancePool.collateralization_ratio := 150;
     InsurancePool.total_policies_issued := 0;
     InsurancePool.total_claims_paid := 0;
     InsurancePool.average_payout_time_seconds := None;
     InsurancePool.lp_apy := None |}.

(** A policy of user 7 with the default threshold of 120 minutes. *)
Definition policy (status : PolicyStatus.t) : Policy.t :=
  {| Policy.id := 1;
     Policy.user_id := 7;
     Policy.status := status;
     Policy.flight_number := "100";
     Policy.airline_code := "AA";
     Policy.scheduled_departure := 0;
     Policy.coverage_amount := 1000;
     Policy.currency := "USDT";
     Policy.delay_threshold_minutes := 120;
     Policy.payout_amount := None;
     Policy.payout_address := None;
     Policy.paid_at := None |}.

(** The claim of user 7 on that policy, in a given status. *)
Definition claim (status : ClaimStatus.t) : Claim.t :=
  {| Claim.id := 1;
     Claim.claim_number := "CLM-260101-A1B2C3";
     Claim.user_id := 7;
     Claim.policy_id := 1;
     Claim.claim_type := ClaimType.AUTOMATIC;
     Claim.status := status;
     Claim.trigger_event := "flight_delayed";
     Claim.trigger_value := None;
     Claim.trigger_timestamp := 0;
     Claim.fdc_request_id := Some "0xREQ";
     Claim.fdc_attestation_type := None;
     Claim.fdc_merkle_root := None;
     Claim.fdc_proof_data := None;
     Claim.fdc_verified := false;
     Claim.fdc_verification_timestamp := None;
     Claim.ftso_price_usd := None;
     Claim.ftso_timestamp := None;
     Claim.payout_amount := 1000;
     Claim.payout_currency := "USDT";
     Claim.payout_address := "0xUSER";
     Claim.rejection_reason := None;
     Claim.error_message := None;
     Claim.raw_flight_data := None;
     Claim.verified_at := None;
     Claim.approved_at := None;
     Claim.paid_at := None |}.

(** One policy, one claim on it, two pools. *)
Definition db (policy_status : PolicyStatus.t) (claim_status : ClaimStatus.t) : DB :=
  {| policies := {[ 1%positive := policy policy_status ]};
     claims := {[ 1%positive := claim claim_status ]};
     pools := {[ 1%positive := pool; 2%positive := empty_pool ]};
     pool_transactions := [] |}.

(** The same store before any claim was made. *)
Definition db_without_claim (policy_status : PolicyStatus.t) : DB :=
  {| policies := {[ 1%positive := policy policy_status ]};
     claims := ∅;
     pools := {[ 1%positive := pool; 2%positive := empty_pool ]};
     pool_transactions := [] |}.

(** The oracle's response: the flight was [delay_minutes] late. *)
Definition response (delay_minutes : Z) : list (string * json) :=
  [("result", JObj [("delay_minutes", JInt delay_minutes)])].

(** An FDC client whose every call succeeds, with a proof that
    [verify_proof] accepts and a response reporting [delay_minutes]. *)
Definition fdc (delay_minutes : Z) : FDCClient.t :=
  {| FDCClient.submit_request := fun _ => Answer "0xREQ";
     FDCClient.poll := fun request_id =>
       Answer {| FDCClient.status_request_id := request_id;
                 FDCClient.status := "finalized";
                 FDCClient.status_code := 3 |};
     FDCClient.get_proof := fun request_id =>
       Answer {| FDCClient.proof_request_id := request_id;
                 FDCClient.merkle_root := "0xROOT";
                 FDCClient.proof := ["0xP1"; "0xP2"] |};
     FDCClient.get_response_data := fun _ => Some (JObj (response delay_minutes)) |}.

(** The webhook's payload for the same finalization. *)
Definition payload (delay_minutes : Z) : Api.FDCWebhookPayload :=
  {| Api.request_id := "0xREQ";
     Api.attestation_type := "Web2Json";
     Api.merkle_root := "0xROOT";
     Api.response_data := response delay_minutes;
     Api.finalized_at := 50;
     Api.block_number := 1 |}.

(** A hub that reports "voting" on every call, each call taking one
    second, and a hub that finalizes at the third call. *)
Definition voting_hub : FDCClient.Hub :=
  {| FDCClient.hub_status := fun _ => Answer 2;
     FDCClient.call_time := fun _ => 1000000;
     FDCClient.sleep_lag := fun _ => 0 |}.

Definition finalizing_hub : FDCClient.Hub :=
  {| FDCClient.hub_status := fun k => if bool_decide (k = 2%nat) then Answer 3 else Answer 1;
     FDCClient.call_time := fun _ => 1000000;
     FDCClient.sleep_lag := fun _ => 0 |}.

End Sample.

(** ** Pool manager: creation and valuation
    ([get_or_create_pool], [get_tvl_in_usd]) *)

Module Pools.

Definition default_pool_name : string := "AeroShield Main Pool".
Definition default_symbol : string := "asUSDT".

(** [scalar_one_or_none()] of
    [select(InsurancePool).where(InsurancePool.contract_address == contract_address)]. *)
Definition pool_of_address (contract_address : string) : M (option InsurancePool.t) :=
  rows ← gets (fun db =>
            filter (fun kv => InsurancePool.contract_address kv.2 = contract_address)
                   (map_to_list (pools db)));
  match rows with
  | [] => mret None
  | [(_, pool)] => mret (Some pool)
  | _ => raise MultipleResultsFound
  end.

(** The unique constraints of [insurance_pools]: name, symbol and
    contract address. *)
Definition pool_unique_taken (db : DB) (name symbol contract_address : string) : bool :=
  existsb (fun kv =>
             bool_decide (InsurancePool.name kv.2 = name)
             || bool_decide (InsurancePool.symbol kv.2 = symbol)
             || bool_decide (InsurancePool.contract_address kv.2 = contract_address))
          (map_to_list (pools db)).

(** [get_or_create_pool]. The new row takes the column defaults for what
    the constructor does not pass; its primary key is the [uuid4]
    default, a key no pool has yet. *)
Definition get_or_create_pool (contract_address : string) : M InsurancePool.t :=
  fun db0 =>
  (pool ← pool_of_address contract_address;
   match pool with
   | Some pool => mret pool
   | None =>
     id ← gets (fun db => fresh (dom (pools db)));
     let pool :=
       {| InsurancePool.id := id;
          InsurancePool.name := default_pool_name;
          InsurancePool.symbol := default_symbol;
          InsurancePool.contract_address := contract_address;
          InsurancePool.is_active := true;
          InsurancePool.total_value_locked := 0;
          InsurancePool.total_premiums_collected := 0;
          InsurancePool.total_payouts_made := 0;
          InsurancePool.stablecoin_reserve := 0;
          InsurancePool.fasset_reserve := 0;
          InsurancePool.collateralization_ratio := PoolManager.min_collateralization_ratio;
          InsurancePool.total_policies_issued := 0;
          InsurancePool.total_claims_paid := 0;
          InsurancePool.average_payout_time_seconds := None;
          InsurancePool.lp_apy := None |} in
     collision ← gets (fun db =>
                    pool_unique_taken db default_pool_name default_symbol contract_address);
     modify (set_pools (fun m => <[id := pool]> m));;
     flush_unique db0 collision;;
     mret pool
   end) db0.

(** [get_tvl_in_usd]. [xrp_usd] is the answer of
    [ftso_client.get_xrp_usd()], asked only when the pool holds FAssets;
    its failure is swallowed by the [except Exception: pass]. *)
Definition get_tvl_in_usd (xrp_usd : answer Decimal) (db : DB) (pool_id : UUID) : Decimal :=
  match pools db !! pool_id with
  | None => 0%Q
  | Some pool =>
    let tvl := InsurancePool.stablecoin_reserve pool in
    if Qgtb (InsurancePool.fasset_reserve pool) 0 then
      match xrp_usd with
      | Answer xrp_price => (tvl + InsurancePool.fasset_reserve pool * xrp_price)%Q
      | Fails _ => tvl
      end
    else tvl
  end.

(** The books of a pool that holds stablecoin only: the value locked is
    the reserve, and the reserve is what premiums brought in less what
    payouts took out. *)
Definition balanced (pool : InsurancePool.t) : Prop :=
  (InsurancePool.total_value_locked pool == InsurancePool.stablecoin_reserve pool)%Q
  /\ (InsurancePool.total_premiums_collected pool - InsurancePool.total_payouts_made pool
      == InsurancePool.stablecoin_reserve pool)%Q
  /\ (InsurancePool.fasset_reserve pool == 0)%Q.

Definition all_balanced (db : DB) : Prop :=
  forall pool_id pool, pools db !! pool_id = Some pool -> balanced pool.

End Pools.

(** ** Claims engine: the status report ([get_claim_status]) *)

Module ClaimStatusReport.

Record Step := mkStep {
  step : string;
  completed : bool;
  timestamp : option datetime
}.

Record t := mk {
  claim_id : UUID;
  claim_number : string;
  status : string;
  progress_percentage : Z;
  steps : list Step;
  fdc_verified : bool;
  payout_amount : pyfloat;
  payout_address : string;
  paid_at : option datetime;
  error_message : option text
}.

(** [int((completed_steps / len(progress_steps)) * 100)]. *)
Definition percentage (completed_steps len : nat) : Z :=
  Qfloor ((inject_Z (Z.of_nat completed_steps) / inject_Z (Z.of_nat len)) * 100)%Q.

(** [get_claim_status]. [created_at] is the row's [created_at], which
    the database server sets when the claim is inserted. *)
Definition get_claim_status (created_at : datetime) (claim_id : UUID) : M t :=
  claim ← ClaimsEngine.load_claim claim_id;
  let progress_steps :=
    [ mkStep "initiated" true (Some created_at);
      mkStep "verifying" (bool_decide (Claim.fdc_request_id claim <> None))
             (Claim.fdc_verification_timestamp claim);
      mkStep "approved" (bool_decide (Claim.approved_at claim <> None))
             (Claim.approved_at claim);
      mkStep "paid" (bool_decide (Claim.paid_at claim <> None))
             (Claim.paid_at claim) ] in
  let completed_steps := length (filter (fun s => completed s = true) progress_steps) in
  let progress_percentage := percentage completed_steps (length progress_steps) in
  mret {| claim_id := Claim.id claim;
          claim_number := Claim.claim_number claim;
          status := ClaimStatus.value (Claim.status claim);
          progress_percentage := progress_percentage;
          steps := progress_steps;
          fdc_verified := Claim.fdc_verified claim;
          payout_amount := float (Claim.payout_amount claim);
          payout_address := Claim.payout_address claim;
          paid_at := Claim.paid_at claim;
          error_message := Claim.error_message claim |}.

End ClaimStatusReport.

(** ** What an operation leaves alone *)

(** A relation between the store before and the store after that holds
    along every sequence of steps once it holds for each of them. *)
Class Frame (R : DB -> DB -> Prop) := {
  frame_refl : forall db, R db db;
  frame_trans : forall db1 db2 db3, R db1 db2 -> R db2 db3 -> R db1 db3
}.

(** The operation relates every store to the one it leaves, whether it
    returns or raises. *)
Definition keeps (R : DB -> DB -> Prop) {A} (m : M A) : Prop :=
  forall db, R db (m db).1.

(** The operation leaves a store with the property when it finds one. *)
Definition maintains (I : DB -> Prop) {A} (m : M A) : Prop :=
  forall db, I db -> I (m db).1.

(** Only columns of the claim [claim_id] were written: pools, policies
    and pool transactions are the same, no claim came or went, and the
    other claims are as they were. *)
Definition only_claim_written (claim_id : UUID) (db db' : DB) : Prop :=
  pools db' = pools db
  /\ policies db' = policies db
  /\ pool_transactions db' = pool_transactions db
  /\ dom (claims db') = dom (claims db)
  /\ forall other, other <> claim_id -> claims db' !! other = claims db !! other.

(** Claims stay on their policies and no policy becomes ACTIVE. *)
Definition no_policy_reopened (db db' : DB) : Prop :=
  (forall claim_id,
     Claim.policy_id <$> claims db' !! claim_id = Claim.policy_id <$> claims db !! claim_id)
  /\ (forall policy_id policy',
        policies db' !! policy_id = Some policy' ->
        Policy.status policy' = PolicyStatus.ACTIVE ->
        exists policy,
          policies db !! policy_id = Some policy
          /\ Policy.status policy = PolicyStatus.ACTIVE).

(** No two claims are on the same policy, and a policy with a claim is
    not ACTIVE. *)
Definition one_claim_per_policy (db : DB) : Prop :=
  (forall id1 id2 claim1 claim2,
     claims db !! id1 = Some claim1 ->
     claims db !! id2 = Some claim2 ->
     Claim.policy_id claim1 = Claim.policy_id claim2 ->
     id1 = id2)
  /\ (forall claim_id claim policy,
        claims db !! claim_id = Some claim ->
        policies db !! Claim.policy_id claim = Some policy ->
        Policy.status policy <> PolicyStatus.ACTIVE).

(** The columns of a claim that neither its verification nor its payout
    writes. *)
Definition same_claim_terms (claim claim' : Claim.t) : Prop :=
  Claim.id claim' = Claim.id claim
  /\ Claim.user_id claim' = Claim.user_id claim
  /\ Claim.policy_id claim' = Claim.policy_id claim
  /\ Claim.payout_amount claim' = Claim.payout_amount claim
  /\ Claim.payout_address claim' = Claim.payout_address claim.


(** ** FTSO client ([services/blockchain/ftso_client.py]) *)

Module FTSOClient.

(** [FEED_IDS], the feed ids in hexadecimal. *)
Definition FEED_IDS : gmap string string :=
  list_to_map
  [("FLR/USD", "01464c522f555344000000000000000000000000");
   ("XRP/USD", "015852502f555344000000000000000000000000");
   ("BTC/USD", "014254432f555344000000000000000000000000");
   ("ETH/USD", "014554482f555344000000000000000000000000");
   ("USDT/USD", "01555344542f555344000000000000000000000000");
   ("SGB/USD", "015347422f555344000000000000000000000000")].

(** The dict returned by [get_price]. *)
Record Quote := mkQuote {
  symbol : string;
  price : Decimal;
  decimals : Z;
  timestamp : datetime;
  raw_value : Z;
  fetched_at : datetime
}.

(** The values of [getFeedById] as [get_price] converts them:
    [feed_price] is [Decimal(value) / Decimal(10 ** decimals)] and
    [feed_timestamp] is [datetime.fromtimestamp(timestamp)]. *)
Record Feed := mkFeed {
  feed_value : Z;
  feed_decimals : Z;
  feed_timestamp : datetime;
  feed_price : Decimal
}.

(** The chain as one call of [get_price] finds it: whether the contract
    instance can be built, and the answer of [getFeedById] for a feed id,
    a failure of the call or of a conversion of its values being the
    answer's failure. *)
Record Chain := mkChain {
  ftso_contract : answer unit;
  get_feed_by_id : string -> answer Feed
}.

(** [self._cache_ttl], in seconds. *)
Definition cache_ttl : Z := 30.

Section Client.

(** [str.upper] and [str(e)]. *)
Variable upper : string -> string.
Variable str_of : exn -> string.

(** [_get_feed_id]. *)
Definition get_feed_id (symbol : string) : result string :=
  match FEED_IDS !! upper symbol with
  | Some feed_id => Return feed_id
  | None => Raise (FTSOPriceError ("Unknown feed symbol: " +:+ symbol))
  end.

(** [_is_cache_valid] when the clock reads [now]. *)
Definition is_cache_valid (price_cache : gmap string Quote) (now : datetime)
    (symbol : string) : bool :=
  match price_cache !! symbol with
  | None => false
  | Some cached => bool_decide (now - fetched_at cached < FDCClient.seconds cache_ttl)
  end.

(** The [except Exception as e] of [get_price]. *)
Definition fetch_failed (symbol : string) (e : string) : exn :=
  FTSOPriceError ("Failed to fetch " +:+ symbol +:+ " price: " +:+ e).

(** The [try] of [get_price] with its [except Exception as e]: the
    contract instance, the feed id, the call, and the result stored in
    the cache. The clock reads [fetched] when the result is built. *)
Definition fetch (chain : Chain) (fetched : datetime) (symbol : string)
    (price_cache : gmap string Quote) : gmap string Quote * result Quote :=
  match ftso_contract chain with
  | Fails e => (price_cache, Raise (fetch_failed symbol e))
  | Answer _ =>
    match get_feed_id symbol with
    | Raise e => (price_cache, Raise (fetch_failed symbol (str_of e)))
    | Return feed_id =>
      match get_feed_by_id chain feed_id with
      | Fails e => (price_cache, Raise (fetch_failed symbol e))
      | Answer feed =>
        let result_ := {| symbol := symbol;
                          price := feed_price feed;
                          decimals := feed_decimals feed;
                          timestamp := feed_timestamp feed;
                          raw_value := feed_value feed;
                          fetched_at := fetched |} in
        (<[symbol := result_]> price_cache, Return result_)
      end
    end
  end.

(** [get_price] on the cache [price_cache]. The clock reads [now] when
    the cache is checked. An entry that [_is_cache_valid] accepts is in
    the cache, so that [self._price_cache[symbol]] finds it. *)
Definition get_price (chain : Chain) (now fetched : datetime) (symbol : string)
    (price_cache : gmap string Quote) : gmap string Quote * result Quote :=
  match price_cache !! symbol with
  | Some cached =>
    if is_cache_valid price_cache now symbol then (price_cache, Return cached)
    else fetch chain fetched symbol price_cache
  | None => fetch chain fetched symbol price_cache
  end.

End Client.

End FTSOClient.

(** * Properties *)

Lemma Qgtb_true a b : Qgtb a b = true <-> (b < a)%Q.
Proof.
  unfold Qgtb. rewrite negb_true_iff, <- not_true_iff_false, Qle_bool_iff.
  split; [apply Qnot_le_lt | apply Qlt_not_le].
Qed.

Lemma Qgtb_false a b : Qgtb a b = false <-> (a <= b)%Q.
Proof. unfold Qgtb. rewrite negb_false_iff. apply Qle_bool_iff. Qed.

(** ** Pool ledger *)

Lemma process_payout_insufficient db pool_id pool amount claim_id user_id to_address :
  pools db !! pool_id = Some pool ->
  (InsurancePool.stablecoin_reserve pool < amount)%Q ->
  PoolManager.process_payout pool_id amount claim_id user_id to_address db
  = (db, Raise (InsufficientFundsError (float amount)
                  (float (InsurancePool.stablecoin_reserve pool)))).
Proof.
  intros Hpool Hlt. apply Qgtb_true in Hlt.
  unfold PoolManager.process_payout, mbind, M_bind, gets. cbn.
  rewrite Hpool. cbn. rewrite Hlt. reflexivity.
Qed.

Lemma process_payout_sufficient db pool_id pool amount claim_id user_id to_address :
  pools db !! pool_id = Some pool ->
  (amount <= InsurancePool.stablecoin_reserve pool)%Q ->
  exists info,
    PoolManager.process_payout pool_id amount claim_id user_id to_address db
    = (set_pools (fun m => alter (PoolManager.debit amount) pool_id m) db, Return info).
Proof.
  intros Hpool Hle. apply Qgtb_false in Hle.
  unfold PoolManager.process_payout, mbind, M_bind, gets. cbn.
  rewrite Hpool. cbn. rewrite Hle. cbn. eexists. reflexivity.
Qed.

Lemma process_payout_pool_not_found db pool_id amount claim_id user_id to_address :
  pools db !! pool_id = None ->
  PoolManager.process_payout pool_id amount claim_id user_id to_address db
  = (db, Raise (ValueError (PoolNotFound pool_id))).
Proof.
  intros Hpool. unfold PoolManager.process_payout, mbind, M_bind, gets. cbn.
  rewrite Hpool. reflexivity.
Qed.

Lemma debit_fields amount pool :
  let pool' := PoolManager.debit amount pool in
  InsurancePool.stablecoin_reserve pool' = (InsurancePool.stablecoin_reserve pool - amount)%Q
  /\ InsurancePool.total_value_locked pool' = (InsurancePool.total_value_locked pool - amount)%Q
  /\ InsurancePool.total_payouts_made pool' = (InsurancePool.total_payouts_made pool + amount)%Q
  /\ InsurancePool.total_claims_paid pool' = InsurancePool.total_claims_paid pool + 1
  /\ InsurancePool.total_premiums_collected pool' = InsurancePool.total_premiums_collected pool
  /\ InsurancePool.fasset_reserve pool' = InsurancePool.fasset_reserve pool
  /\ InsurancePool.total_policies_issued pool' = InsurancePool.total_policies_issued pool.
Proof. destruct pool. cbn. repeat split. Qed.

(** C2, the claim as stated fails: [process_payout] does not require
    [amount > 0]. A payout of -5 from a reserve of 1000 is not refused: it
    returns, raises the reserve to 1005 and counts one more paid claim. *)
Lemma process_payout_accepts_negative_amount :
  let r := PoolManager.process_payout 1 (-5) 1 7 "0xUSER" (Sample.db PolicyStatus.PAYOUT_PENDING ClaimStatus.PROCESSING) in
  ~ (0 < -5)%Q
  /\ (exists info, r.2 = Return info)
  /\ InsurancePool.stablecoin_reserve <$> pools r.1 !! 1%positive = Some 1005%Q
  /\ InsurancePool.total_claims_paid <$> pools r.1 !! 1%positive = Some 1.
Proof.
  cbv zeta. split; [|split; [|split]].
  - intros H. discriminate H.
  - eexists. vm_compute. reflexivity.
  - vm_compute. reflexivity.
  - vm_compute. reflexivity.
Qed.

Lemma alter_as_insert {A} (f : A -> A) (m : gmap positive A) i x :
  m !! i = Some x -> alter f i m = <[i := f x]> m.
Proof.
  intros Hx. apply map_eq. intros j. destruct (decide (i = j)) as [->|Hne].
  - rewrite lookup_alter_eq, lookup_insert_eq, Hx. reflexivity.
  - rewrite lookup_alter_ne, lookup_insert_ne by assumption. reflexivity.
Qed.

(** C2 (as amended): on an existing pool, [process_payout] checks one
    precondition, [amount <= stablecoin_reserve]. When it fails, the call
    raises [InsufficientFundsError] with the required and the available
    amount and leaves the store as it was. When it holds, whatever the
    sign of [amount], the pool row is debited: reserve and TVL decrease by
    [amount], payouts-made increases by [amount], claims-paid by one, and
    nothing else changes: every other column of the row keeps its value,
    every other pool, the policies, the claims and the pool transactions
    are as they were, and the dict returned is the payout info of the
    call. With a reserve of 1000, a payout of 1000 leaves a reserve of 0,
    and a payout of 1 then fails with required 1 and available 0. *)
Theorem process_payout_all_or_nothing
    (db : DB) (pool_id : UUID) (pool : InsurancePool.t) (amount : Decimal)
    (claim_id user_id : UUID) (to_address : string) :
  pools db !! pool_id = Some pool ->
  let reserve := InsurancePool.stablecoin_reserve pool in
  let debit := PoolManager.process_payout pool_id amount claim_id user_id to_address in
  let pool' :=
    {| InsurancePool.id := InsurancePool.id pool;
       InsurancePool.name := InsurancePool.name pool;
       InsurancePool.symbol := InsurancePool.symbol pool;
       InsurancePool.contract_address := InsurancePool.contract_address pool;
       InsurancePool.is_active := InsurancePool.is_active pool;
       InsurancePool.total_value_locked := (InsurancePool.total_value_locked pool - amount)%Q;
       InsurancePool.total_premiums_collected := InsurancePool.total_premiums_collected pool;
       InsurancePool.total_payouts_made := (InsurancePool.total_payouts_made pool + amount)%Q;
       InsurancePool.stablecoin_reserve := (reserve - amount)%Q;
       InsurancePool.fasset_reserve := InsurancePool.fasset_reserve pool;
       InsurancePool.collateralization_ratio := InsurancePool.collateralization_ratio pool;
       InsurancePool.total_policies_issued := InsurancePool.total_policies_issued pool;
       InsurancePool.total_claims_paid := InsurancePool.total_claims_paid pool + 1;
       InsurancePool.average_payout_time_seconds :=
         InsurancePool.average_payout_time_seconds pool;
       InsurancePool.lp_apy := InsurancePool.lp_apy pool |} in
  ((reserve < amount)%Q ->
     debit db = (db, Raise (InsufficientFundsError (float amount) (float reserve))))
  /\ ((amount <= reserve)%Q ->
      debit db
      = ({| policies := policies db;
            claims := claims db;
            pools := <[pool_id := pool']> (pools db);
            pool_transactions := pool_transactions db |},
         Return {| PoolManager.info_pool_id := pool_id;
                   PoolManager.info_claim_id := claim_id;
                   PoolManager.info_amount := float amount;
                   PoolManager.info_currency := "USDT";
                   PoolManager.info_to_address := to_address;
                   PoolManager.info_status := "pending_tx" |}))
  /\ (reserve = 1000%Q ->
      exists db' info pool1,
        PoolManager.process_payout pool_id 1000 claim_id user_id to_address db
        = (db', Return info)
        /\ pools db' !! pool_id = Some pool1
        /\ InsurancePool.stablecoin_reserve pool1 = 0%Q
        /\ forall claim_id' user_id' to_address',
             PoolManager.process_payout pool_id 1 claim_id' user_id' to_address' db'
             = (db', Raise (InsufficientFundsError (float 1) (float 0)))).
Proof.
  intros Hpool reserve debit pool'. split; [|split].
  - intros Hlt. apply process_payout_insufficient; assumption.
  - intros Hle. apply Qgtb_false in Hle.
    unfold debit, PoolManager.process_payout, mbind, M_bind, gets, modify, update_pool,
      mret, M_ret. cbn.
    rewrite Hpool. cbn. fold reserve. rewrite Hle. cbn.
    unfold set_pools. rewrite (alter_as_insert _ _ _ _ Hpool).
    subst pool' reserve. destruct pool. reflexivity.
  - intros Hres.
    assert (Hle : (1000 <= InsurancePool.stablecoin_reserve pool)%Q).
    { fold reserve. rewrite Hres. apply Qle_refl. }
    destruct (process_payout_sufficient db pool_id pool 1000 claim_id user_id to_address
                Hpool Hle) as [info Hrun].
    assert (Hpool' : pools (set_pools (fun m => alter (PoolManager.debit 1000) pool_id m) db)
                     !! pool_id = Some (PoolManager.debit 1000 pool)).
    { cbn. rewrite lookup_alter_eq, Hpool. reflexivity. }
    assert (Hzero : InsurancePool.stablecoin_reserve (PoolManager.debit 1000 pool) = 0%Q).
    { destruct (debit_fields 1000 pool) as [-> _]. fold reserve. rewrite Hres. reflexivity. }
    eexists _, info, _. split; [exact Hrun|]. split; [exact Hpool'|]. split; [exact Hzero|].
    intros claim_id' user_id' to_address'.
    rewrite (process_payout_insufficient _ _ _ _ _ _ _ Hpool').
    + rewrite Hzero. reflexivity.
    + rewrite Hzero. reflexivity.
Qed.

Lemma process_payout_all_or_nothing_witness :
  let db := Sample.db PolicyStatus.PAYOUT_PENDING ClaimStatus.PROCESSING in
  pools db !! 1%positive = Some Sample.pool
  /\ PoolManager.process_payout 1 2000 1 7 "0xUSER" db
     = (db, Raise (InsufficientFundsError (float 2000) (float 1000))).
Proof.
  cbv zeta. split; [reflexivity|].
  apply (process_payout_all_or_nothing
           (Sample.db PolicyStatus.PAYOUT_PENDING ClaimStatus.PROCESSING)
           1 Sample.pool 2000 1 7 "0xUSER"); reflexivity.
Defined.

(** The store left by the two ledger operations. *)
Lemma deposit_premium_store db pool_id amount policy_id user_id tx_hash block_number from_address :
  let db' := (PoolManager.deposit_premium pool_id amount policy_id user_id tx_hash
                block_number from_address db).1 in
  db' = db
  \/ exists pool,
       pools db !! pool_id = Some pool
       /\ pools db' = <[pool_id := PoolManager.credit amount pool]> (pools db)
       /\ policies db' = policies db /\ claims db' = claims db.
Proof.
  unfold PoolManager.deposit_premium, mbind, M_bind, gets, modify, flush_unique,
    update_pool, raise, mret, M_ret. cbn.
  destruct (pools db !! pool_id) as [pool|] eqn:Hpool; cbn; [|left; reflexivity].
  destruct (existsb _ _); cbn; [left; reflexivity|].
  right. exists pool. rewrite (alter_as_insert _ _ _ _ Hpool). auto.
Qed.

Lemma process_payout_store db pool_id amount claim_id user_id to_address :
  let db' := (PoolManager.process_payout pool_id amount claim_id user_id to_address db).1 in
  db' = db
  \/ exists pool,
       pools db !! pool_id = Some pool
       /\ (amount <= InsurancePool.stablecoin_reserve pool)%Q
       /\ db' = set_pools (fun m => <[pool_id := PoolManager.debit amount pool]> m) db.
Proof.
  cbv zeta. destruct (pools db !! pool_id) as [pool|] eqn:Hpool.
  - destruct (Qlt_le_dec (InsurancePool.stablecoin_reserve pool) amount) as [Hlt|Hle].
    + left. rewrite (process_payout_insufficient _ _ _ _ _ _ _ Hpool Hlt). reflexivity.
    + right. exists pool.
      destruct (process_payout_sufficient db pool_id pool amount claim_id user_id to_address
                  Hpool Hle) as [info ->].
      cbn. unfold set_pools. rewrite (alter_as_insert _ _ _ _ Hpool). auto.
  - left. unfold PoolManager.process_payout, mbind, M_bind, gets. cbn. rewrite Hpool.
    reflexivity.
Qed.

Lemma credit_reserve amount pool :
  InsurancePool.stablecoin_reserve (PoolManager.credit amount pool)
  = (InsurancePool.stablecoin_reserve pool + amount)%Q.
Proof. destruct pool. reflexivity. Qed.

Lemma reserves_nonnegative_insert db pool_id pool pools' :
  reserves_nonnegative db ->
  (0 <= InsurancePool.stablecoin_reserve pool)%Q ->
  pools' = <[pool_id := pool]> (pools db) ->
  forall db', pools db' = pools' -> reserves_nonnegative db'.
Proof.
  intros Hinv Hpool -> db' Hdb' id p. rewrite Hdb'.
  destruct (decide (pool_id = id)) as [->|Hne].
  - rewrite lookup_insert_eq. intros [= <-]. exact Hpool.
  - rewrite lookup_insert_ne by assumption. apply Hinv.
Qed.

Lemma apply_ledger_keeps_reserves o db :
  is_ledger_operation o = true ->
  (0 <= premium_of o)%Q ->
  reserves_nonnegative db -> reserves_nonnegative (apply o db).
Proof.
  intros Hledger Hpremium Hinv. destruct o; try discriminate Hledger; cbn in *.
  - destruct (deposit_premium_store db pool_id amount policy_id user_id tx_hash
                block_number from_address) as [->|(pool & Hpool & Hpools & _)];
      [exact Hinv|].
    eapply reserves_nonnegative_insert; [exact Hinv| |reflexivity|exact Hpools].
    rewrite credit_reserve. specialize (Hinv _ _ Hpool). lra.
  - destruct (process_payout_store db pool_id amount claim_id user_id to_address)
      as [->|(pool & Hpool & Hle & ->)]; [exact Hinv|].
    eapply reserves_nonnegative_insert; [exact Hinv| |reflexivity|reflexivity].
    destruct (debit_fields amount pool) as [-> _]. lra.
Qed.

(** C4 (as amended): from a store whose pools all have
    [stablecoin_reserve >= 0], every history of ledger operations keeps
    it so, provided the premiums credited are not negative; the debit of
    a payout needs no such proviso, whatever its amount. *)
Theorem ledger_keeps_reserves_nonnegative (history : list operation) (db : DB) :
  Forall (fun o => is_ledger_operation o = true /\ (0 <= premium_of o)%Q) history ->
  reserves_nonnegative db ->
  reserves_nonnegative (run history db).
Proof.
  intros Hhistory. revert db.
  induction Hhistory as [|o history [Hledger Hpremium] _ IH]; intros db Hinv.
  - exact Hinv.
  - cbn. apply IH. apply apply_ledger_keeps_reserves; assumption.
Qed.

Lemma ledger_keeps_reserves_nonnegative_witness :
  let history :=
    [DepositPremium 2 250 1 7 "0xTX1" 100 "0xUSER";
     PoolProcessPayout 2 250 1 7 "0xUSER";
     PoolProcessPayout 2 1 1 7 "0xUSER";
     PoolProcessPayout 1 (-5) 1 7 "0xUSER"] in
  let db := Sample.db PolicyStatus.ACTIVE ClaimStatus.APPROVED in
  reserves_nonnegative (run history db).
Proof.
  cbv zeta. apply ledger_keeps_reserves_nonnegative.
  - repeat constructor; discriminate.
  - intros id p. unfold Sample.db. cbn.
    destruct (decide (id = 1%positive)) as [->|H1].
    { rewrite lookup_insert_eq. intros [= <-]. cbn. discriminate. }
    rewrite lookup_insert_ne by congruence.
    destruct (decide (id = 2%positive)) as [->|H2].
    { rewrite lookup_singleton_eq. intros [= <-]. cbn. discriminate. }
    rewrite lookup_singleton_ne by congruence. discriminate.
Defined.

(** C4, the claim as stated fails: [deposit_premium] accepts a negative
    amount and takes the reserve of the empty pool below zero. *)
Lemma deposit_premium_negative_amount_breaks_reserve :
  let db := Sample.db PolicyStatus.ACTIVE ClaimStatus.APPROVED in
  let r := PoolManager.deposit_premium 2 (-1) 1 7 "0xTX1" 100 "0xUSER" db in
  reserves_nonnegative db
  /\ (exists transaction, r.2 = Return transaction)
  /\ InsurancePool.stablecoin_reserve <$> pools r.1 !! 2%positive = Some (-1)%Q
  /\ ~ reserves_nonnegative r.1.
Proof.
  cbv zeta. split; [|split; [|split]].
  - intros id p. unfold Sample.db. cbn.
    destruct (decide (id = 1%positive)) as [->|H1].
    { rewrite lookup_insert_eq. intros [= <-]. cbn. discriminate. }
    rewrite lookup_insert_ne by congruence.
    destruct (decide (id = 2%positive)) as [->|H2].
    { rewrite lookup_singleton_eq. intros [= <-]. cbn. discriminate. }
    rewrite lookup_singleton_ne by congruence. discriminate.
  - eexists. vm_compute. reflexivity.
  - vm_compute. reflexivity.
  - intros Hinv.
    specialize (Hinv 2%positive (PoolManager.credit (-1) Sample.empty_pool)).
    apply Hinv; [vm_compute; reflexivity | reflexivity].
Qed.

(** ** Pool health *)

Section Health.
Variable round : Q -> Q.

Lemma health_warnings_cases stats :
  PoolManager.health_warnings round stats
  = (if PoolManager.collateralization_low round stats
     then [PoolManager.CollateralizationBelowMinimum PoolManager.min_collateralization_ratio]
     else [])
    ++ (if PoolManager.utilization_high round stats
        then [PoolManager.HighUtilizationRate (PoolManager.utilization_rate stats)]
        else [])
    ++ (if PoolManager.reserve_low round stats
        then [PoolManager.LowStablecoinReserves]
        else []).
Proof.
  unfold PoolManager.health_warnings.
  destruct (PoolManager.collateralization_low round stats),
    (PoolManager.utilization_high round stats),
    (PoolManager.reserve_low round stats); reflexivity.
Qed.
End Health.

(** C9: for an existing pool, [check_pool_health] returns a report whose
    warnings are, in this order and each at most once, the
    collateralization warning exactly when the ratio is below the minimum
    of 150, the utilization warning exactly when the utilization rate is
    above 80, and the reserve warning exactly when the stablecoin reserve
    is below 10000 (the three numbers being those of the floats of
    [get_pool_stats]); [risk_level] is "high" with two or three warnings,
    "medium" with one and "low" with none, and [is_healthy] holds exactly
    when there is no warning. *)
Theorem check_pool_health_warnings
    (round : Q -> Q) (db : DB) (pool_id : UUID) (pool : InsurancePool.t) :
  pools db !! pool_id = Some pool ->
  let stats := PoolManager.stats_of pool in
  let ratio := round (InsurancePool.collateralization_ratio pool) in
  let rate := PoolManager.number round (PoolManager.utilization_rate stats) in
  let reserve := round (InsurancePool.stablecoin_reserve pool) in
  let c := Qgtb (round 150%Q) ratio in
  let u := Qgtb rate 80%Q in
  let r := Qgtb 10000%Q reserve in
  (c = true <-> (ratio < round 150%Q)%Q)
  /\ (u = true <-> (80 < rate)%Q)
  /\ (r = true <-> (reserve < 10000)%Q)
  /\ exists report,
    PoolManager.check_pool_health round db pool_id = PoolManager.Health_ report
    /\ PoolManager.warnings report
       = (if c then [PoolManager.CollateralizationBelowMinimum 150%Q] else [])
         ++ (if u then [PoolManager.HighUtilizationRate (PoolManager.utilization_rate stats)]
             else [])
         ++ (if r then [PoolManager.LowStablecoinReserves] else [])
    /\ length (PoolManager.warnings report)
       = (Nat.b2n c + Nat.b2n u + Nat.b2n r)%nat
    /\ NoDup (PoolManager.warnings report)
    /\ ((2 <= length (PoolManager.warnings report))%nat ->
        PoolManager.risk_level report = "high")
    /\ (length (PoolManager.warnings report) = 1%nat ->
        PoolManager.risk_level report = "medium")
    /\ (length (PoolManager.warnings report) = 0%nat ->
        PoolManager.risk_level report = "low")
    /\ (PoolManager.is_healthy report = true <-> PoolManager.warnings report = []).
Proof.
  intros Hpool stats ratio rate reserve c u r.
  split; [apply Qgtb_true|]. split; [apply Qgtb_true|]. split; [apply Qgtb_true|].
  unfold PoolManager.check_pool_health, PoolManager.get_pool_stats.
  rewrite Hpool. cbn. eexists. split; [reflexivity|]. cbn.
  rewrite health_warnings_cases.
  unfold PoolManager.risk_level_of.
  change (PoolManager.collateralization_low round (PoolManager.stats_of pool)) with c.
  change (PoolManager.utilization_high round (PoolManager.stats_of pool)) with u.
  change (PoolManager.reserve_low round (PoolManager.stats_of pool)) with r.
  destruct c, u, r; cbn; (split; [reflexivity|]); (split; [reflexivity|]);
    (split; [repeat constructor; rewrite ?not_elem_of_cons; intuition (discriminate || (eapply not_elem_of_nil; eassumption))|]);
    repeat split; intros; try reflexivity; try lia; try discriminate.
Qed.

Lemma check_pool_health_warnings_witness :
  exists report,
    PoolManager.check_pool_health (fun x => x)
      (Sample.db PolicyStatus.ACTIVE ClaimStatus.INITIATED) 1
    = PoolManager.Health_ report
    /\ PoolManager.warnings report
       = [PoolManager.HighUtilizationRate (float (((1000 - 0) / 1000) * 100)%Q);
          PoolManager.LowStablecoinReserves]
    /\ PoolManager.risk_level report = "high".
Proof.
  destruct (check_pool_health_warnings (fun x => x)
              (Sample.db PolicyStatus.ACTIVE ClaimStatus.INITIATED) 1 Sample.pool eq_refl)
    as (_ & _ & _ & report & Hrun & Hwarnings & Hlength & _ & Hhigh & _).
  exists report. split; [exact Hrun|]. split; [exact Hwarnings|].
  apply Hhigh. rewrite Hlength. vm_compute. lia.
Defined.

(** ** Polling the hub *)








Section Polling.
Variables (hub : FDCClient.Hub) (request_id : string).
Variables (timeout_seconds poll_interval : Z) (start_time deadline : datetime).
Variables (L J : Z).
Hypothesis poll_positive : 0 < poll_interval.
Hypothesis call_bounded : forall k, 0 <= FDCClient.call_time hub k <= L.
Hypothesis lag_bounded : forall k, 0 <= FDCClient.sleep_lag hub k <= J.

Let P := FDCClient.seconds poll_interval.





End Polling.




(** The hub finalizes at the third call: two calls of one second, two
    sleeps of ten, and the call that finds the request finalized. *)
Example poll_until_finalized_third_call :
  FDCClient.poll_until_finalized 19 Sample.finalizing_hub 0 "0xREQ" 180 10
  = Some {| FDCClient.outcome :=
              Return {| FDCClient.status_request_id := "0xREQ";
                        FDCClient.status := "finalized";
                        FDCClient.status_code := 3 |};
            FDCClient.calls := 3;
            FDCClient.ended := 23000000 |}.
Proof. vm_compute. reflexivity. Qed.

(** The hub never finalizes: 17 calls, eleven seconds apart, and the
    timeout at second 187. *)
Example poll_until_finalized_timeout :
  FDCClient.poll_until_finalized 19 Sample.voting_hub 0 "0xREQ" 180 10
  = Some {| FDCClient.outcome :=
              Raise (FDCAttestationError "Request 0xREQ did not finalize within 180s");
            FDCClient.calls := 17;
            FDCClient.ended := 187000000 |}.
Proof. vm_compute. reflexivity. Qed.

(** A poll interval of zero and a hub that answers at once: the clock of
    the model stands still and no fuel is enough. *)
Example poll_until_finalized_zero_interval :
  FDCClient.poll_until_finalized 1000
    {| FDCClient.hub_status := fun _ => Answer 2;
       FDCClient.call_time := fun _ => 0;
       FDCClient.sleep_lag := fun _ => 0 |}
    0 "0xREQ" 180 0
  = None.
Proof. vm_compute. reflexivity. Qed.

(** ** Payout of a claim *)

Ltac run_M :=
  unfold mbind, M_bind, mret, M_ret, gets, modify, raise, call, try_except,
    update_claim, update_policy, update_pool; cbn.

Lemma load_claim_found db claim_id claim :
  claims db !! claim_id = Some claim ->
  ClaimsEngine.load_claim claim_id db = (db, Return claim).
Proof. intros H. unfold ClaimsEngine.load_claim. run_M. rewrite H. reflexivity. Qed.

Lemma process_payout_not_approved db usdt_usd now claim_id pool_id claim :
  claims db !! claim_id = Some claim ->
  Claim.status claim <> ClaimStatus.APPROVED ->
  ClaimsEngine.process_payout usdt_usd now claim_id pool_id db
  = (db, Raise (ValueError (ClaimNotApproved claim_id))).
Proof.
  intros Hclaim Hstatus. unfold ClaimsEngine.process_payout.
  unfold mbind at 1, M_bind at 1. rewrite (load_claim_found _ _ _ Hclaim).
  rewrite bool_decide_eq_true_2 by assumption. reflexivity.
Qed.

(** C3 (as amended): [process_payout] on a claim that is already PAID
    raises [ValueError] ("not approved for payout") and leaves the whole
    store as it was: the claim, its policy and the pool's reserve, TVL,
    payouts-made and claims-paid. The pool is not debited a second time,
    but the call is an error, not a success returning the prior result. *)
Theorem process_payout_on_paid_claim
    (db : DB) (usdt_usd : answer Decimal) (now : datetime) (claim_id pool_id : UUID)
    (claim : Claim.t) :
  claims db !! claim_id = Some claim ->
  Claim.status claim = ClaimStatus.PAID ->
  ClaimsEngine.process_payout usdt_usd now claim_id pool_id db
  = (db, Raise (ValueError (ClaimNotApproved claim_id))).
Proof.
  intros Hclaim Hstatus. apply (process_payout_not_approved _ _ _ _ _ claim Hclaim).
  rewrite Hstatus. discriminate.
Qed.

Lemma process_payout_on_paid_claim_witness :
  let db := Sample.db PolicyStatus.PAID ClaimStatus.PAID in
  ClaimsEngine.process_payout (Answer 1%Q) 60 1 1 db
  = (db, Raise (ValueError (ClaimNotApproved 1))).
Proof.
  cbv zeta.
  apply (process_payout_on_paid_claim (Sample.db PolicyStatus.PAID ClaimStatus.PAID)
           (Answer 1%Q) 60 1 1 (Sample.claim ClaimStatus.PAID)); reflexivity.
Defined.

(** C3, the claim as stated fails: a second [process_payout] on the
    claim that the first one paid is not a success. *)
Lemma process_payout_twice_is_an_error :
  let db := Sample.db PolicyStatus.PAYOUT_PENDING ClaimStatus.APPROVED in
  let first := ClaimsEngine.process_payout (Answer 1%Q) 60 1 1 db in
  let second := ClaimsEngine.process_payout (Answer 1%Q) 61 1 1 first.1 in
  first.2 = Return (ClaimsEngine.PayoutDone 1 (float 1000) "0xUSER" (float 1) 60)
  /\ Claim.status <$> claims first.1 !! 1%positive = Some ClaimStatus.PAID
  /\ second.2 = Raise (ValueError (ClaimNotApproved 1))
  /\ ~ (exists r, second.2 = Return r /\ ClaimsEngine.success r = true).
Proof.
  cbv zeta. split; [vm_compute; reflexivity|]. split; [vm_compute; reflexivity|].
  assert (H : (ClaimsEngine.process_payout (Answer 1%Q) 61 1 1
                 (ClaimsEngine.process_payout (Answer 1%Q) 60 1 1
                    (Sample.db PolicyStatus.PAYOUT_PENDING ClaimStatus.APPROVED)).1).2
              = Raise (ValueError (ClaimNotApproved 1))) by (vm_compute; reflexivity).
  split; [exact H|]. intros (r & Hr & _). rewrite H in Hr. discriminate Hr.
Qed.

Lemma with_status_status v c : Claim.status (Claim.with_status v c) = v.
Proof. destruct c. reflexivity. Qed.

Lemma with_error_message_status v c :
  Claim.status (Claim.with_error_message v c) = Claim.status c.
Proof. destruct c. reflexivity. Qed.

Lemma with_error_message_error_message v c :
  Claim.error_message (Claim.with_error_message v c) = v.
Proof. destruct c. reflexivity. Qed.

Lemma with_paid_at_status v c : Claim.status (Claim.with_paid_at v c) = Claim.status c.
Proof. destruct c. reflexivity. Qed.

(** The handler of [process_payout], from any store in which the claim
    is present. *)
Lemma payout_failed_marks_claim db claim_id claim e :
  claims db !! claim_id = Some claim ->
  exists db' claim',
    ClaimsEngine.payout_failed claim_id e db
    = (db', Return (ClaimsEngine.PayoutFailed claim_id (str e)))
    /\ claims db' !! claim_id = Some claim'
    /\ Claim.status claim' = ClaimStatus.FAILED
    /\ Claim.error_message claim' = Some (str e)
    /\ pools db' = pools db.
Proof.
  intros Hclaim. unfold ClaimsEngine.payout_failed. run_M.
  eexists _, _. split; [reflexivity|]. cbn.
  rewrite !lookup_alter_eq, Hclaim. cbn. split; [reflexivity|].
  rewrite with_error_message_status, with_status_status, with_error_message_error_message.
  auto.
Qed.

(** C10: on an APPROVED claim, [process_payout] always returns. After
    the claim was set to PROCESSING, either the payout is done and the
    claim is PAID, or the price feed failed, the pool does not exist or
    the reserve does not cover the amount, and then the claim is FAILED,
    its [error_message] is the text of that exception and the returned
    dict has [success = False]. In no case does the exception reach the
    caller or the claim stay PROCESSING. *)
Theorem process_payout_failure_marks_claim_failed
    (db : DB) (usdt_usd : answer Decimal) (now : datetime) (claim_id pool_id : UUID)
    (claim : Claim.t) :
  claims db !! claim_id = Some claim ->
  Claim.status claim = ClaimStatus.APPROVED ->
  exists db' r claim',
    ClaimsEngine.process_payout usdt_usd now claim_id pool_id db = (db', Return r)
    /\ claims db' !! claim_id = Some claim'
    /\ Claim.status claim' <> ClaimStatus.PROCESSING
    /\ ((ClaimsEngine.success r = true
         /\ Claim.status claim' = ClaimStatus.PAID
         /\ exists usdt_price pool,
              usdt_usd = Answer usdt_price
              /\ pools db !! pool_id = Some pool
              /\ (Claim.payout_amount claim <= InsurancePool.stablecoin_reserve pool)%Q)
        \/ exists e,
             r = ClaimsEngine.PayoutFailed claim_id (str e)
             /\ ClaimsEngine.success r = false
             /\ Claim.status claim' = ClaimStatus.FAILED
             /\ Claim.error_message claim' = Some (str e)
             /\ ((exists detail, usdt_usd = Fails detail /\ e = FTSOPriceError detail)
                 \/ (exists usdt_price,
                       usdt_usd = Answer usdt_price
                       /\ pools db !! pool_id = None
                       /\ e = ValueError (PoolNotFound pool_id))
                 \/ (exists usdt_price pool,
                       usdt_usd = Answer usdt_price
                       /\ pools db !! pool_id = Some pool
                       /\ (InsurancePool.stablecoin_reserve pool < Claim.payout_amount claim)%Q
                       /\ e = InsufficientFundsError
                                (float (Claim.payout_amount claim))
                                (float (InsurancePool.stablecoin_reserve pool))))).
Proof.
  intros Hclaim Hstatus. unfold ClaimsEngine.process_payout.
  unfold mbind at 1, M_bind at 1. rewrite (load_claim_found _ _ _ Hclaim).
  rewrite bool_decide_eq_false_2 by (rewrite Hstatus; intros H; apply H; reflexivity).
  unfold ClaimsEngine.pay, ClaimsEngine.payout_failed, PoolManager.process_payout. run_M.
  destruct usdt_usd as [usdt_price|detail]; cbn.
  - destruct (pools db !! pool_id) as [pool|] eqn:Hpool; cbn.
    + destruct (Qgtb (Claim.payout_amount claim) (InsurancePool.stablecoin_reserve pool))
        eqn:Hfunds; cbn.
      * apply Qgtb_true in Hfunds.
        eexists _, _, _. split; [reflexivity|]. cbn.
        rewrite !lookup_alter_eq, Hclaim. cbn. split; [reflexivity|].
        rewrite with_error_message_status, with_status_status,
          with_error_message_error_message.
        split; [discriminate|]. right. eexists. repeat (split; [reflexivity|]).
        right. right. eauto 10.
      * apply Qgtb_false in Hfunds.
        eexists _, _, _. split; [reflexivity|]. cbn.
        rewrite !lookup_alter_eq, Hclaim. cbn. split; [reflexivity|].
        rewrite with_paid_at_status, with_status_status.
        split; [discriminate|]. left. eauto 10.
    + eexists _, _, _. split; [reflexivity|]. cbn.
      rewrite !lookup_alter_eq, Hclaim. cbn. split; [reflexivity|].
      rewrite with_error_message_status, with_status_status,
        with_error_message_error_message.
      split; [discriminate|]. right. eexists. repeat (split; [reflexivity|]).
      right. left. eauto.
  - eexists _, _, _. split; [reflexivity|]. cbn.
    rewrite !lookup_alter_eq, Hclaim. cbn. split; [reflexivity|].
    rewrite with_error_message_status, with_status_status,
      with_error_message_error_message.
    split; [discriminate|]. right. eexists. repeat (split; [reflexivity|]).
    left. eauto.
Qed.

Lemma process_payout_failure_marks_claim_failed_witness :
  let db := Sample.db PolicyStatus.PAYOUT_PENDING ClaimStatus.APPROVED in
  exists db' r claim',
    ClaimsEngine.process_payout (Answer 1%Q) 60 1 2 db = (db', Return r)
    /\ claims db' !! 1%positive = Some claim'
    /\ Claim.status claim' = ClaimStatus.FAILED
    /\ ClaimsEngine.success r = false.
Proof.
  cbv zeta.
  destruct (process_payout_failure_marks_claim_failed
              (Sample.db PolicyStatus.PAYOUT_PENDING ClaimStatus.APPROVED)
              (Answer 1%Q) 60 1 2 (Sample.claim ClaimStatus.APPROVED) eq_refl eq_refl)
    as (db' & r & claim' & Hrun & Hclaim' & _ & [(_ & _ & price & pool & _ & Hpool & Hle)
                                               |(e & _ & Hfail & Hstatus & _)]).
  - exfalso. vm_compute in Hpool. injection Hpool as <-. apply Hle. reflexivity.
  - exists db', r, claim'. auto.
Defined.

(** ** Initiating a claim *)

Lemma fresh_claim_id db : claims db !! fresh (dom (claims db)) = None.
Proof. apply not_elem_of_dom. apply is_fresh. Qed.

(** The three ways [initiate_claim] ends. *)
Lemma initiate_claim_cases db claim_number now policy_id user_id trigger_event trigger_value
    payout_address :
  let r := ClaimsEngine.initiate_claim claim_number now policy_id user_id trigger_event
             trigger_value payout_address db in
  (exists e, r = (db, Raise e)
             /\ match policies db !! policy_id with
                | None => e = ResourceNotFoundError "Policy" policy_id
                | Some policy =>
                  if decide (Policy.user_id policy = user_id) then
                    if decide (Policy.status policy = PolicyStatus.ACTIVE)
                    then e = IntegrityError
                         /\ ClaimsEngine.claim_number_taken db claim_number = true
                    else e = PolicyNotActiveError policy_id
                  else e = ResourceNotFoundError "Policy" policy_id
                end)
  \/ (exists policy claim,
        r = (mkDB (<[policy_id := Policy.with_status PolicyStatus.PAYOUT_PENDING policy]>
                     (policies db))
                  (<[fresh (dom (claims db)) := claim]> (claims db))
                  (pools db) (pool_transactions db),
             Return claim)
        /\ policies db !! policy_id = Some policy
        /\ Policy.user_id policy = user_id
        /\ Policy.status policy = PolicyStatus.ACTIVE
        /\ Claim.id claim = fresh (dom (claims db))
        /\ Claim.status claim = ClaimStatus.INITIATED
        /\ Claim.policy_id claim = policy_id
        /\ Claim.user_id claim = user_id
        /\ Claim.payout_amount claim = Policy.coverage_amount policy
        /\ Claim.payout_currency claim = Policy.currency policy).
Proof.
  cbv zeta. unfold ClaimsEngine.initiate_claim, flush_unique. run_M.
  destruct (policies db !! policy_id) as [policy|] eqn:Hpolicy; cbn;
    [|left; eexists; split; reflexivity].
  destruct (decide (Policy.user_id policy = user_id)) as [Huser|Huser].
  2:{ rewrite bool_decide_eq_true_2 by assumption. left. eexists. split; reflexivity. }
  rewrite bool_decide_eq_false_2 by (intros H; apply H; assumption).
  destruct (decide (Policy.status policy = PolicyStatus.ACTIVE)) as [Hactive|Hactive].
  2:{ rewrite bool_decide_eq_true_2 by assumption. left. eexists. split; reflexivity. }
  rewrite bool_decide_eq_false_2 by (intros H; apply H; assumption).
  rewrite bool_decide_eq_false_2
    by (rewrite Hactive; rewrite !elem_of_cons, elem_of_nil; intuition discriminate).
  cbn.
  destruct (ClaimsEngine.claim_number_taken db claim_number) eqn:Htaken; cbn.
  - left. eexists. split; [reflexivity|]. auto.
  - right. eexists policy, _. split.
    + unfold set_policies, set_claims. cbn.
      rewrite (alter_as_insert _ _ _ _ Hpolicy). reflexivity.
    + cbn. auto 10.
Qed.

(** C6: [initiate_claim] on a policy that is not ACTIVE raises (for the
    policy's owner, [PolicyNotActiveError]) and leaves the store as it
    was: no claim is created and the policy keeps its status. When
    [initiate_claim] returns a claim, the policy was ACTIVE, the store
    holds the new INITIATED claim under a key that was free and the
    policy is now PAYOUT_PENDING; whenever it raises, the store is
    unchanged. *)
Theorem initiate_claim_moves_claim_and_policy_together
    (db : DB) (claim_number : string) (now : datetime) (policy_id user_id : UUID)
    (trigger_event : string) (trigger_value : option string) (payout_address : string) :
  let r := ClaimsEngine.initiate_claim claim_number now policy_id user_id trigger_event
             trigger_value payout_address db in
  (forall policy,
     policies db !! policy_id = Some policy ->
     Policy.status policy <> PolicyStatus.ACTIVE ->
     exists e, r = (db, Raise e)
               /\ (Policy.user_id policy = user_id -> e = PolicyNotActiveError policy_id))
  /\ (forall db' claim,
        r = (db', Return claim) ->
        exists policy,
          policies db !! policy_id = Some policy
          /\ Policy.status policy = PolicyStatus.ACTIVE
          /\ claims db !! Claim.id claim = None
          /\ claims db' = <[Claim.id claim := claim]> (claims db)
          /\ Claim.status claim = ClaimStatus.INITIATED
          /\ Claim.policy_id claim = policy_id
          /\ policies db'
             = <[policy_id := Policy.with_status PolicyStatus.PAYOUT_PENDING policy]>
                 (policies db)
          /\ Policy.status (Policy.with_status PolicyStatus.PAYOUT_PENDING policy)
             = PolicyStatus.PAYOUT_PENDING)
  /\ (forall db' e, r = (db', Raise e) -> db' = db).
Proof.
  intros r.
  destruct (initiate_claim_cases db claim_number now policy_id user_id trigger_event
              trigger_value payout_address)
    as [(e & Hr & He)|(policy & claim & Hr & Hpolicy & Huser & Hactive & Hid & Hstatus
                        & Hpid & _)];
    fold r in Hr; rewrite Hr.
  - split; [|split].
    + intros policy Hpolicy Hstatus. exists e. split; [reflexivity|]. intros Huser.
      rewrite Hpolicy in He. rewrite decide_True in He by assumption.
      rewrite decide_False in He by assumption. exact He.
    + intros db' claim [= _ ?]. 
    + intros db' e' [= <- _]. reflexivity.
  - split; [|split].
    + intros policy' Hpolicy' Hstatus'. rewrite Hpolicy in Hpolicy'.
      injection Hpolicy' as <-. contradiction.
    + intros db' claim' [= <- <-]. exists policy. cbn. rewrite Hid.
      split; [assumption|]. split; [assumption|].
      split; [apply fresh_claim_id|].
      split; [reflexivity|]. split; [assumption|]. split; [assumption|].
      split; [reflexivity|]. destruct policy; reflexivity.
    + intros db' e [= _ ?].
Qed.

Lemma initiate_claim_moves_claim_and_policy_together_witness :
  let db := Sample.db_without_claim PolicyStatus.PENDING in
  ClaimsEngine.initiate_claim "CLM-260101-A1B2C3" 0 1 7 "flight_delayed" None "0xUSER" db
  = (db, Raise (PolicyNotActiveError 1)).
Proof.
  cbv zeta.
  destruct (initiate_claim_moves_claim_and_policy_together
              (Sample.db_without_claim PolicyStatus.PENDING)
              "CLM-260101-A1B2C3" 0 1 7 "flight_delayed" None "0xUSER")
    as (Hinactive & _ & _).
  destruct (Hinactive (Sample.policy PolicyStatus.PENDING)) as (e & -> & He).
  - reflexivity.
  - discriminate.
  - rewrite He by reflexivity. reflexivity.
Defined.

(** ** Verification *)

Lemma begin_verification_marks_verifying db claim_id claim policy :
  claims db !! claim_id = Some claim ->
  policies db !! Claim.policy_id claim = Some policy ->
  ClaimsEngine.begin_verification claim_id db
  = (set_claims (fun m => alter (Claim.with_status ClaimStatus.VERIFYING) claim_id m) db,
     Return (claim, policy)).
Proof.
  intros Hclaim Hpolicy. unfold ClaimsEngine.begin_verification.
  unfold mbind at 1, M_bind at 1. rewrite (load_claim_found _ _ _ Hclaim).
  run_M. rewrite Hpolicy. reflexivity.
Qed.

(** C7 (as amended): the status check is made by the endpoint
    [verify_claim], not by the engine. For a claim of the caller whose
    status is neither INITIATED nor VERIFYING the endpoint raises HTTP
    400 and the store is unchanged; otherwise it runs the engine's
    [verify_claim_with_fdc]. The engine itself sets any claim it loads
    (with its policy) to VERIFYING before it asks the oracle, whatever
    the claim's status was. *)
Theorem verify_claim_checks_status
    (db : DB) (user_id : UUID) (fdc : FDCClient.t) (now : datetime) (claim_id : UUID)
    (claim : Claim.t) :
  claims db !! claim_id = Some claim ->
  Claim.user_id claim = user_id ->
  (Claim.status claim ∉ [ClaimStatus.INITIATED; ClaimStatus.VERIFYING] ->
   Api.verify_claim (Some user_id) fdc now claim_id db
   = (db, Raise (HTTPException 400 (CannotVerifyClaimWithStatus (Claim.status claim)))))
  /\ (Claim.status claim ∈ [ClaimStatus.INITIATED; ClaimStatus.VERIFYING] ->
      (Api.verify_claim (Some user_id) fdc now claim_id db).1
      = (ClaimsEngine.verify_claim_with_fdc fdc now claim_id db).1)
  /\ (forall policy,
        policies db !! Claim.policy_id claim = Some policy ->
        exists db1,
          ClaimsEngine.begin_verification claim_id db = (db1, Return (claim, policy))
          /\ Claim.status <$> claims db1 !! claim_id = Some ClaimStatus.VERIFYING
          /\ ClaimsEngine.verify_claim_with_fdc fdc now claim_id db
             = try_except (ClaimsEngine.attest fdc now claim_id policy)
                 is_FDCAttestationError
                 (ClaimsEngine.attestation_failed now claim_id claim) db1).
Proof.
  intros Hclaim Huser. split; [|split].
  - intros Hstatus. unfold Api.verify_claim. run_M. rewrite Hclaim. cbn.
    rewrite bool_decide_eq_true_2 by assumption.
    rewrite bool_decide_eq_true_2 by assumption. reflexivity.
  - intros Hstatus. unfold Api.verify_claim. run_M. rewrite Hclaim. cbn.
    rewrite bool_decide_eq_true_2 by assumption.
    rewrite bool_decide_eq_false_2 by (intros H; apply H; assumption).
    destruct (ClaimsEngine.verify_claim_with_fdc fdc now claim_id db) as [db' [v|e]];
      reflexivity.
  - intros policy Hpolicy. eexists. split; [|split].
    + apply begin_verification_marks_verifying; eassumption.
    + cbn. rewrite lookup_alter_eq, Hclaim. cbn. rewrite with_status_status. reflexivity.
    + unfold ClaimsEngine.verify_claim_with_fdc. unfold mbind at 1, M_bind at 1.
      rewrite (begin_verification_marks_verifying _ _ _ _ Hclaim Hpolicy). reflexivity.
Qed.

Lemma verify_claim_checks_status_witness :
  let db := Sample.db PolicyStatus.PAID ClaimStatus.PAID in
  Api.verify_claim (Some 7%positive) (Sample.fdc 150) 70 1 db
  = (db, Raise (HTTPException 400 (CannotVerifyClaimWithStatus ClaimStatus.PAID))).
Proof.
  cbv zeta.
  apply (verify_claim_checks_status (Sample.db PolicyStatus.PAID ClaimStatus.PAID)
           7 (Sample.fdc 150) 70 1 (Sample.claim ClaimStatus.PAID) eq_refl eq_refl).
  cbn. rewrite !not_elem_of_cons. split; [discriminate|]. split; [discriminate|].
  apply not_elem_of_nil.
Defined.

(** C7, the claim as stated fails: the engine's [verify_claim_with_fdc]
    starts the verification of a PAID claim and overwrites its status. *)
Lemma verify_claim_with_fdc_overwrites_paid_claim :
  let db := Sample.db PolicyStatus.PAID ClaimStatus.PAID in
  let r := ClaimsEngine.verify_claim_with_fdc (Sample.fdc 150) 70 1 db in
  Claim.status <$> claims db !! 1%positive = Some ClaimStatus.PAID
  /\ Claim.status <$> claims (ClaimsEngine.begin_verification 1 db).1 !! 1%positive
     = Some ClaimStatus.VERIFYING
  /\ ClaimsEngine.fdc_request_id <$> (match r.2 with Return v => Some v | Raise _ => None end)
     = Some (Some "0xREQ")
  /\ Claim.status <$> claims r.1 !! 1%positive = Some ClaimStatus.APPROVED.
Proof. cbv zeta. repeat split; vm_compute; reflexivity. Qed.

(** What [verify_claim_with_fdc] decides once the oracle has answered:
    the claim is APPROVED when [verify_proof] accepts the proof, and
    neither the response nor the policy's threshold is looked at. *)
Lemma verify_claim_with_fdc_approves_valid_proof db fdc now claim_id claim policy
    request_id status proof :
  claims db !! claim_id = Some claim ->
  policies db !! Claim.policy_id claim = Some policy ->
  FDCClient.submit_request fdc
    (FDCClient.prepare_flight_status_request (Policy.flight_number policy)
       (Policy.airline_code policy) (Policy.scheduled_departure policy))
  = Answer request_id ->
  FDCClient.poll fdc request_id = Answer status ->
  FDCClient.get_proof fdc request_id = Answer proof ->
  FDCClient.verify_proof (FDCClient.merkle_root proof) (FDCClient.proof proof) = true ->
  exists db' v claim',
    ClaimsEngine.verify_claim_with_fdc fdc now claim_id db = (db', Return v)
    /\ ClaimsEngine.is_verified v = true
    /\ claims db' !! claim_id = Some claim'
    /\ Claim.status claim' = ClaimStatus.APPROVED
    /\ Claim.rejection_reason claim' = Claim.rejection_reason claim.
Proof.
  intros Hclaim Hpolicy Hsubmit Hpoll Hproof Hvalid.
  unfold ClaimsEngine.verify_claim_with_fdc. unfold mbind at 1, M_bind at 1.
  rewrite (begin_verification_marks_verifying _ _ _ _ Hclaim Hpolicy).
  unfold ClaimsEngine.attest. run_M. rewrite Hsubmit. cbn. rewrite Hpoll. cbn.
  rewrite Hproof. cbn. rewrite Hvalid. cbn.
  destruct (ClaimsEngine.truthy (FDCClient.get_response_data fdc request_id)); cbn;
    (eexists _, _, _; split; [reflexivity|]; cbn; split; [reflexivity|];
     rewrite !lookup_alter_eq, Hclaim; cbn; split; [reflexivity|];
     destruct claim; split; reflexivity).
Qed.

(** C1, the code at the failing input. The oracle finalizes with a
    valid proof and a response of 95 minutes for a policy whose
    threshold is 120 minutes: [verify_claim_with_fdc] approves the claim
    and records no rejection reason. The webhook, given the same
    finalization, compares the delay with the threshold and rejects the
    claim; its reason cites the delay and not the threshold. At 120
    minutes both approve. *)
Theorem verify_claim_with_fdc_ignores_threshold :
  let db := Sample.db PolicyStatus.PAYOUT_PENDING ClaimStatus.INITIATED in
  let engine := ClaimsEngine.verify_claim_with_fdc (Sample.fdc 95) 50 1 db in
  let webhook := Api.fdc_finalization_webhook (Sample.payload 95) db in
  let webhook_at_threshold := Api.fdc_finalization_webhook (Sample.payload 120) db in
  Policy.delay_threshold_minutes <$> policies db !! 1%positive = Some 120
  /\ Claim.status <$> claims engine.1 !! 1%positive = Some ClaimStatus.APPROVED
  /\ Claim.rejection_reason <$> claims engine.1 !! 1%positive = Some None
  /\ Claim.raw_flight_data <$> claims engine.1 !! 1%positive
     = Some (Some (JObj [("result", JObj [("delay_minutes", JInt 95)])]))
  /\ Claim.status <$> claims webhook.1 !! 1%positive = Some ClaimStatus.REJECTED
  /\ Claim.rejection_reason <$> claims webhook.1 !! 1%positive
     = Some (Some "Delay of 95 minutes below threshold")
  /\ Claim.status <$> claims webhook_at_threshold.1 !! 1%positive
     = Some ClaimStatus.APPROVED.
Proof. cbv zeta. repeat split; vm_compute; reflexivity. Qed.

(** ** The payout amount of a claim *)

Lemma keeps_payout_amounts_refl db : keeps_payout_amounts db db.
Proof. intros id c Hc. eauto. Qed.

Lemma keeps_payout_amounts_trans db1 db2 db3 :
  keeps_payout_amounts db1 db2 -> keeps_payout_amounts db2 db3 ->
  keeps_payout_amounts db1 db3.
Proof.
  intros H12 H23 id c Hc. destruct (H12 id c Hc) as (c2 & Hc2 & E2).
  destruct (H23 id c2 Hc2) as (c3 & Hc3 & E3). exists c3. split; [assumption|congruence].
Qed.

Lemma keeps_payout_amounts_same_claims db db' :
  claims db' = claims db -> keeps_payout_amounts db db'.
Proof. intros E id c Hc. rewrite E. eauto. Qed.

Section Preservation.
Context {A B : Type}.

Lemma preserves_ret (a : A) : preserves_payout_amounts (mret a : M A).
Proof. intros db. apply keeps_payout_amounts_refl. Qed.

Lemma preserves_raise (e : exn) : preserves_payout_amounts (raise e : M A).
Proof. intros db. apply keeps_payout_amounts_refl. Qed.

Lemma preserves_gets (f : DB -> A) : preserves_payout_amounts (gets f).
Proof. intros db. apply keeps_payout_amounts_refl. Qed.

Lemma preserves_lift (r : result A) : preserves_payout_amounts (Api.lift r).
Proof. intros db. apply keeps_payout_amounts_refl. Qed.

Lemma preserves_call (wrap : string -> exn) (a : answer A) :
  preserves_payout_amounts (call wrap a).
Proof. destruct a; [apply preserves_ret | apply preserves_raise]. Qed.

Lemma preserves_bind (m : M A) (f : A -> M B) :
  preserves_payout_amounts m ->
  (forall a, preserves_payout_amounts (f a)) ->
  preserves_payout_amounts (m ≫= f).
Proof.
  intros Hm Hf db. unfold mbind, M_bind. specialize (Hm db).
  destruct (m db) as [db' [a|e]]; cbn in *; [|exact Hm].
  eapply keeps_payout_amounts_trans; [exact Hm | apply Hf].
Qed.

Lemma preserves_try_except (body : M A) (E : exn -> bool) (handler : exn -> M A) :
  preserves_payout_amounts body ->
  (forall e, preserves_payout_amounts (handler e)) ->
  preserves_payout_amounts (try_except body E handler).
Proof.
  intros Hbody Hhandler db. unfold try_except. specialize (Hbody db).
  destruct (body db) as [db' [a|e]]; cbn in *; [exact Hbody|].
  destruct (E e); [|exact Hbody].
  eapply keeps_payout_amounts_trans; [exact Hbody | apply Hhandler].
Qed.
End Preservation.

Lemma preserves_update_claim claim_id f :
  (forall c, Claim.payout_amount (f c) = Claim.payout_amount c) ->
  preserves_payout_amounts (update_claim claim_id f).
Proof.
  intros Hf db id c Hc. cbn. destruct (decide (claim_id = id)) as [->|Hne].
  - rewrite lookup_alter_eq, Hc. cbn. eauto.
  - rewrite lookup_alter_ne by assumption. eauto.
Qed.

Lemma preserves_update_policy policy_id f :
  preserves_payout_amounts (update_policy policy_id f).
Proof. intros db. apply keeps_payout_amounts_same_claims. reflexivity. Qed.

Lemma preserves_update_pool pool_id f :
  preserves_payout_amounts (update_pool pool_id f).
Proof. intros db. apply keeps_payout_amounts_same_claims. reflexivity. Qed.

Create HintDb payout_amounts.

#[local] Hint Resolve preserves_ret preserves_raise preserves_gets preserves_lift
  preserves_call preserves_update_policy preserves_update_pool : payout_amounts.

(** The setters the operations apply to a claim leave [payout_amount]. *)
Ltac setter_keeps_amount := intros []; reflexivity.

(** Follows the structure of an operation: binds, handlers, branches. *)
Ltac preserve :=
  repeat first
    [ apply preserves_bind; [|intros ?]
    | apply preserves_try_except; [|intros ?]
    | apply preserves_update_claim; setter_keeps_amount
    | solve [auto with payout_amounts]
    | progress cbv zeta
    | match goal with
      | |- preserves_payout_amounts (match ?x with _ => _ end) => destruct x
      | |- preserves_payout_amounts (if ?b then _ else _) => destruct b
      end ].

Lemma pool_process_payout_preserves pool_id amount claim_id user_id to_address :
  preserves_payout_amounts
    (PoolManager.process_payout pool_id amount claim_id user_id to_address).
Proof. unfold PoolManager.process_payout. preserve. Qed.

Lemma deposit_premium_preserves pool_id amount policy_id user_id tx_hash block_number
    from_address :
  preserves_payout_amounts
    (PoolManager.deposit_premium pool_id amount policy_id user_id tx_hash block_number
       from_address).
Proof.
  intros db.
  destruct (deposit_premium_store db pool_id amount policy_id user_id tx_hash
              block_number from_address) as [->|(pool & _ & _ & _ & Hclaims)].
  - apply keeps_payout_amounts_refl.
  - apply keeps_payout_amounts_same_claims. exact Hclaims.
Qed.

Lemma initiate_claim_preserves claim_number now policy_id user_id trigger_event
    trigger_value payout_address :
  preserves_payout_amounts
    (ClaimsEngine.initiate_claim claim_number now policy_id user_id trigger_event
       trigger_value payout_address).
Proof.
  intros db.
  destruct (initiate_claim_cases db claim_number now policy_id user_id trigger_event
              trigger_value payout_address) as [(e & -> & _)|(policy & claim & -> & _)].
  - apply keeps_payout_amounts_refl.
  - intros id c Hc. cbn. exists c. split; [|reflexivity].
    rewrite lookup_insert_ne; [assumption|].
    intros <-. rewrite fresh_claim_id in Hc. discriminate.
Qed.

Lemma load_claim_preserves claim_id :
  preserves_payout_amounts (ClaimsEngine.load_claim claim_id).
Proof. unfold ClaimsEngine.load_claim. preserve. Qed.

Lemma claim_attr_preserves {A} claim_id claim (attr : Claim.t -> A) :
  preserves_payout_amounts (ClaimsEngine.claim_attr claim_id claim attr).
Proof. unfold ClaimsEngine.claim_attr. preserve. Qed.

#[local] Hint Resolve pool_process_payout_preserves deposit_premium_preserves
  initiate_claim_preserves load_claim_preserves claim_attr_preserves : payout_amounts.

Lemma verify_claim_with_fdc_preserves fdc now claim_id :
  preserves_payout_amounts (ClaimsEngine.verify_claim_with_fdc fdc now claim_id).
Proof.
  unfold ClaimsEngine.verify_claim_with_fdc, ClaimsEngine.begin_verification,
    ClaimsEngine.attest, ClaimsEngine.attestation_failed.
  preserve.
Qed.

Lemma process_payout_preserves usdt_usd now claim_id pool_id :
  preserves_payout_amounts (ClaimsEngine.process_payout usdt_usd now claim_id pool_id).
Proof.
  unfold ClaimsEngine.process_payout, ClaimsEngine.pay, ClaimsEngine.payout_failed.
  preserve.
Qed.

#[local] Hint Resolve verify_claim_with_fdc_preserves process_payout_preserves
  : payout_amounts.

Lemma auto_process_claim_preserves claim_number fdc usdt_usd now policy_id user_id pool_id
    payout_address :
  preserves_payout_amounts
    (ClaimsEngine.auto_process_claim claim_number fdc usdt_usd now policy_id user_id
       pool_id payout_address).
Proof. unfold ClaimsEngine.auto_process_claim. preserve. Qed.

Lemma verify_claim_preserves user fdc now claim_id :
  preserves_payout_amounts (Api.verify_claim user fdc now claim_id).
Proof. unfold Api.verify_claim. preserve. Qed.

Lemma fdc_finalization_webhook_preserves payload :
  preserves_payout_amounts (Api.fdc_finalization_webhook payload).
Proof.
  unfold Api.fdc_finalization_webhook, Api.claim_of_request. preserve.
Qed.

Lemma apply_keeps_payout_amounts o db : keeps_payout_amounts db (apply o db).
Proof.
  destruct o; cbn;
    [ apply initiate_claim_preserves | apply verify_claim_with_fdc_preserves
    | apply process_payout_preserves | apply auto_process_claim_preserves
    | apply verify_claim_preserves | apply fdc_finalization_webhook_preserves
    | apply deposit_premium_preserves | apply pool_process_payout_preserves ].
Qed.

Lemma run_keeps_payout_amounts history : forall db,
  keeps_payout_amounts db (run history db).
Proof.
  induction history as [|o history IH]; intros db; cbn.
  - apply keeps_payout_amounts_refl.
  - eapply keeps_payout_amounts_trans; [apply apply_keeps_payout_amounts | apply IH].
Qed.

(** C5: the claim that [initiate_claim] returns has the policy's
    coverage amount as its [payout_amount], and after any history of
    operations on the store (verification through the engine, the
    endpoint or the webhook, payout, further claims, pool operations)
    the claim is still there with that [payout_amount]; so it has it
    when it is PAID. *)
Theorem payout_amount_fixed_at_creation
    (db db1 : DB) (claim_number : string) (now : datetime) (policy_id user_id : UUID)
    (trigger_event : string) (trigger_value : option string) (payout_address : string)
    (claim : Claim.t) (history : list operation) :
  ClaimsEngine.initiate_claim claim_number now policy_id user_id trigger_event
    trigger_value payout_address db = (db1, Return claim) ->
  (exists policy,
     policies db !! policy_id = Some policy
     /\ Claim.payout_amount claim = Policy.coverage_amount policy)
  /\ Claim.status claim = ClaimStatus.INITIATED
  /\ claims db1 !! Claim.id claim = Some claim
  /\ exists claim',
       claims (run history db1) !! Claim.id claim = Some claim'
       /\ Claim.payout_amount claim' = Claim.payout_amount claim
       /\ (Claim.status claim' = ClaimStatus.PAID ->
           exists policy,
             policies db !! policy_id = Some policy
             /\ Claim.payout_amount claim' = Policy.coverage_amount policy).
Proof.
  intros Hrun.
  destruct (initiate_claim_cases db claim_number now policy_id user_id trigger_event
              trigger_value payout_address)
    as [(e & Hr & _)|(policy & claim0 & Hr & Hpolicy & _ & _ & Hid & Hstatus & _ & _
                      & Hamount & _)];
    rewrite Hrun in Hr; [discriminate Hr|].
  injection Hr as -> ->.
  assert (Hclaim : claims
                     (mkDB (<[policy_id := Policy.with_status PolicyStatus.PAYOUT_PENDING
                                             policy]> (policies db))
                           (<[fresh (dom (claims db)) := claim0]> (claims db))
                           (pools db) (pool_transactions db))
                   !! Claim.id claim0 = Some claim0).
  { cbn. rewrite Hid. apply lookup_insert_eq. }
  split; [eauto|]. split; [assumption|]. split; [exact Hclaim|].
  destruct (run_keeps_payout_amounts history _ _ _ Hclaim) as (claim' & Hclaim' & Hsame).
  exists claim'. split; [exact Hclaim'|]. split; [exact Hsame|].
  intros _. exists policy. split; [assumption|congruence].
Qed.

Lemma payout_amount_fixed_at_creation_witness :
  let db := Sample.db_without_claim PolicyStatus.ACTIVE in
  let r := ClaimsEngine.initiate_claim "CLM-260101-A1B2C3" 0 1 7 "flight_delayed" None
             "0xUSER" db in
  let history := [VerifyClaimWithFdc (Sample.fdc 150) 50 1;
                  ProcessPayout (Answer 1%Q) 60 1 1;
                  ProcessPayout (Answer 1%Q) 61 1 1] in
  exists claim',
    claims (run history r.1) !! 1%positive = Some claim'
    /\ Claim.status claim' = ClaimStatus.PAID
    /\ Claim.payout_amount claim' = 1000%Q.
Proof.
  cbv zeta.
  set (r := ClaimsEngine.initiate_claim "CLM-260101-A1B2C3" 0 1 7 "flight_delayed" None
              "0xUSER" (Sample.db_without_claim PolicyStatus.ACTIVE)).
  set (history := [VerifyClaimWithFdc (Sample.fdc 150) 50 1;
                   ProcessPayout (Answer 1%Q) 60 1 1;
                   ProcessPayout (Answer 1%Q) 61 1 1]).
  assert (Hr : exists claim, r = (r.1, Return claim) /\ Claim.id claim = 1%positive
                             /\ Claim.payout_amount claim = 1000%Q).
  { vm_compute. eexists. split; [reflexivity|]. split; reflexivity. }
  destruct Hr as (claim & Hr & Hid & Hamount).
  destruct (payout_amount_fixed_at_creation _ _ _ _ _ _ _ _ _ claim history Hr)
    as (_ & _ & _ & claim' & Hclaim' & Hsame & _).
  exists claim'. rewrite Hid in Hclaim'. split; [exact Hclaim'|].
  split; [|congruence].
  assert (Hstatus : Claim.status <$> claims (run history r.1) !! 1%positive
                    = Some ClaimStatus.PAID) by (vm_compute; reflexivity).
  rewrite Hclaim' in Hstatus. injection Hstatus as ->. reflexivity.
Defined.

(** * Further properties of the code *)

(** ** Rows selected by a column *)

(** [scalar_one_or_none()]: when one row of a table has the value
    looked for, the rows selected are that row alone. *)
Lemma filter_map_to_list_unique {A} (P : positive * A -> Prop) `{!forall kv, Decision (P kv)}
    (m : gmap positive A) (k : positive) (x : A) :
  m !! k = Some x ->
  P (k, x) ->
  (forall k' x', m !! k' = Some x' -> P (k', x') -> k' = k) ->
  filter P (map_to_list m) = [(k, x)].
Proof.
  intros Hk HP Huniq.
  assert (Hall : forall kv, kv ∈ filter P (map_to_list m) -> kv = (k, x)).
  { intros [k' x'] Hin. apply list_elem_of_filter in Hin as [HP' Hin].
    apply elem_of_map_to_list in Hin. assert (k' = k) as -> by eauto. congruence. }
  assert (Hin : (k, x) ∈ filter P (map_to_list m)).
  { apply list_elem_of_filter. split; [assumption|]. apply elem_of_map_to_list. assumption. }
  assert (Hnd : NoDup (filter P (map_to_list m))).
  { apply NoDup_filter. apply NoDup_map_to_list. }
  destruct (filter P (map_to_list m)) as [|a [|b l]].
  - apply elem_of_nil in Hin. contradiction.
  - f_equal. apply Hall. left.
  - exfalso. assert (a = (k, x)) as -> by (apply Hall; left).
    assert (b = (k, x)) as -> by (apply Hall; right; left).
    apply NoDup_cons in Hnd as [Hnot _]. apply Hnot. left.
Qed.

Lemma filter_map_to_list_none {A} (P : positive * A -> Prop) `{!forall kv, Decision (P kv)}
    (m : gmap positive A) :
  (forall k x, m !! k = Some x -> ~ P (k, x)) <-> filter P (map_to_list m) = [].
Proof.
  split.
  - intros Hnone. destruct (filter P (map_to_list m)) as [|[k x] l] eqn:E; [reflexivity|].
    assert (Hin : (k, x) ∈ filter P (map_to_list m)) by (rewrite E; left).
    apply list_elem_of_filter in Hin as [HP Hin]. apply elem_of_map_to_list in Hin.
    exfalso. eapply Hnone; eassumption.
  - intros Hnil k x Hk HP.
    assert (Hin : (k, x) ∈ filter P (map_to_list m)).
    { apply list_elem_of_filter. split; [assumption|]. apply elem_of_map_to_list. assumption. }
    rewrite Hnil in Hin. apply elem_of_nil in Hin. contradiction.
Qed.

(** ** The books of the pool *)

Lemma credit_fields amount pool :
  let pool' := PoolManager.credit amount pool in
  InsurancePool.stablecoin_reserve pool' = (InsurancePool.stablecoin_reserve pool + amount)%Q
  /\ InsurancePool.total_value_locked pool' = (InsurancePool.total_value_locked pool + amount)%Q
  /\ InsurancePool.total_premiums_collected pool'
     = (InsurancePool.total_premiums_collected pool + amount)%Q
  /\ InsurancePool.total_policies_issued pool' = InsurancePool.total_policies_issued pool + 1
  /\ InsurancePool.total_payouts_made pool' = InsurancePool.total_payouts_made pool
  /\ InsurancePool.fasset_reserve pool' = InsurancePool.fasset_reserve pool
  /\ InsurancePool.total_claims_paid pool' = InsurancePool.total_claims_paid pool.
Proof. destruct pool. cbn. repeat split. Qed.

Lemma credit_balanced amount pool :
  Pools.balanced pool -> Pools.balanced (PoolManager.credit amount pool).
Proof.
  unfold Pools.balanced. intros (Htvl & Hbooks & Hfasset).
  destruct (credit_fields amount pool) as (-> & -> & -> & _ & -> & -> & _).
  repeat split; lra.
Qed.

Lemma debit_balanced amount pool :
  Pools.balanced pool -> Pools.balanced (PoolManager.debit amount pool).
Proof.
  unfold Pools.balanced. intros (Htvl & Hbooks & Hfasset).
  destruct (debit_fields amount pool) as (-> & -> & -> & _ & -> & -> & _).
  repeat split; lra.
Qed.

Lemma all_balanced_insert db pool_id pool db' :
  Pools.all_balanced db ->
  Pools.balanced pool ->
  pools db' = <[pool_id := pool]> (pools db) ->
  Pools.all_balanced db'.
Proof.
  intros Hinv Hpool Hdb' id p. rewrite Hdb'.
  destruct (decide (pool_id = id)) as [->|Hne].
  - rewrite lookup_insert_eq. intros [= <-]. exact Hpool.
  - rewrite lookup_insert_ne by assumption. apply Hinv.
Qed.

Lemma apply_ledger_keeps_balanced o db :
  is_ledger_operation o = true ->
  Pools.all_balanced db -> Pools.all_balanced (apply o db).
Proof.
  intros Hledger Hinv. destruct o; try discriminate Hledger; cbn in *.
  - destruct (deposit_premium_store db pool_id amount policy_id user_id tx_hash
                block_number from_address) as [->|(pool & Hpool & Hpools & _)];
      [exact Hinv|].
    eapply all_balanced_insert; [exact Hinv| |exact Hpools].
    apply credit_balanced. eapply Hinv. exact Hpool.
  - destruct (process_payout_store db pool_id amount claim_id user_id to_address)
      as [->|(pool & Hpool & _ & ->)]; [exact Hinv|].
    eapply all_balanced_insert; [exact Hinv| |reflexivity].
    apply debit_balanced. eapply Hinv. exact Hpool.
Qed.

(** X1: premiums and payouts keep the books of every pool balanced.
    If in each pool the value locked equals the stablecoin reserve, the
    reserve equals premiums collected less payouts made and there is no
    FAsset reserve, then the same holds after any history of
    [deposit_premium] and [process_payout] calls, whatever their amounts
    and whether they return or raise. *)
Theorem ledger_keeps_books_balanced (history : list operation) (db : DB) :
  Forall (fun o => is_ledger_operation o = true) history ->
  Pools.all_balanced db ->
  Pools.all_balanced (run history db).
Proof.
  intros Hhistory. revert db.
  induction Hhistory as [|o history Hledger _ IH]; intros db Hinv.
  - exact Hinv.
  - cbn. apply IH. apply apply_ledger_keeps_balanced; assumption.
Qed.

Lemma ledger_keeps_books_balanced_witness :
  let history :=
    [DepositPremium 2 250 1 7 "0xTX1" 100 "0xUSER";
     PoolProcessPayout 2 100 1 7 "0xUSER";
     DepositPremium 2 (-30) 1 7 "0xTX2" 101 "0xUSER"] in
  let db := Sample.db PolicyStatus.ACTIVE ClaimStatus.APPROVED in
  Pools.all_balanced (run history db).
Proof.
  cbv zeta. apply ledger_keeps_books_balanced.
  - repeat constructor.
  - intros id p. unfold Sample.db. cbn.
    destruct (decide (id = 1%positive)) as [->|H1].
    { rewrite lookup_insert_eq. intros [= <-]. repeat split. }
    rewrite lookup_insert_ne by congruence.
    destruct (decide (id = 2%positive)) as [->|H2].
    { rewrite lookup_singleton_eq. intros [= <-]. repeat split. }
    rewrite lookup_singleton_ne by congruence. discriminate.
Defined.

(** ** Replayed deposits *)



(** ** Creating the pool *)

Lemma fresh_pool_id db : pools db !! fresh (dom (pools db)) = None.
Proof. apply not_elem_of_dom. apply is_fresh. Qed.

(** The ways [get_or_create_pool] ends. *)
Lemma get_or_create_pool_cases db contract_address :
  let r := Pools.get_or_create_pool contract_address db in
  let rows := filter (fun kv => InsurancePool.contract_address kv.2 = contract_address)
                     (map_to_list (pools db)) in
  (exists k pool, rows = [(k, pool)] /\ r = (db, Return pool))
  \/ (exists a b l, rows = a :: b :: l /\ r = (db, Raise MultipleResultsFound))
  \/ (rows = []
      /\ Pools.pool_unique_taken db Pools.default_pool_name Pools.default_symbol
           contract_address = true
      /\ r = (db, Raise IntegrityError))
  \/ (rows = []
      /\ Pools.pool_unique_taken db Pools.default_pool_name Pools.default_symbol
           contract_address = false
      /\ exists pool,
           r = (set_pools (fun m => <[fresh (dom (pools db)) := pool]> m) db, Return pool)
           /\ InsurancePool.id pool = fresh (dom (pools db))
           /\ InsurancePool.name pool = Pools.default_pool_name
           /\ InsurancePool.symbol pool = Pools.default_symbol
           /\ InsurancePool.contract_address pool = contract_address
           /\ InsurancePool.total_value_locked pool = 0%Q
           /\ InsurancePool.total_premiums_collected pool = 0%Q
           /\ InsurancePool.total_payouts_made pool = 0%Q
           /\ InsurancePool.stablecoin_reserve pool = 0%Q
           /\ InsurancePool.fasset_reserve pool = 0%Q
           /\ InsurancePool.collateralization_ratio pool = 150%Q).
Proof.
  cbv zeta. unfold Pools.get_or_create_pool, Pools.pool_of_address, flush_unique. run_M.
  destruct (filter _ (map_to_list (pools db))) as [|[k pool] [|b l]] eqn:Hrows; cbn.
  - destruct (Pools.pool_unique_taken db _ _ contract_address) eqn:Htaken; cbn.
    + right. right. left. auto.
    + right. right. right. split; [reflexivity|]. split; [reflexivity|].
      eexists. split; [reflexivity|]. cbn. repeat split.
  - left. eauto.
  - right. left. eauto.
Qed.

(** X3: [get_or_create_pool] is idempotent. When it returns a pool for
    a contract address, a second call with that address returns the same
    pool and changes nothing. *)
Theorem get_or_create_pool_idempotent
    (db db1 : DB) (contract_address : string) (pool : InsurancePool.t) :
  Pools.get_or_create_pool contract_address db = (db1, Return pool) ->
  Pools.get_or_create_pool contract_address db1 = (db1, Return pool).
Proof.
  intros Hrun.
  destruct (get_or_create_pool_cases db contract_address)
    as [(k & p & Hrows & Hr)|[(a & b & l & _ & Hr)|[(_ & _ & Hr)
        |(Hrows & _ & p & Hr & _ & _ & _ & Haddr & _)]]];
    rewrite Hrun in Hr; try discriminate Hr.
  - injection Hr as -> ->. exact Hrun.
  - injection Hr as -> ->.
    set (db1 := set_pools (fun m => <[fresh (dom (pools db)) := p]> m) db).
    assert (Hrows1 :
              filter (fun kv => InsurancePool.contract_address kv.2 = contract_address)
                     (map_to_list (pools db1))
              = [(fresh (dom (pools db)), p)]).
    { apply filter_map_to_list_unique.
      - cbn. apply lookup_insert_eq.
      - exact Haddr.
      - cbn. intros k' x'.
        destruct (decide (fresh (dom (pools db)) = k')) as [<-|Hne]; [reflexivity|].
        rewrite lookup_insert_ne by assumption. intros Hk' HP. exfalso.
        eapply filter_map_to_list_none in Hrows; eauto. }
    destruct (get_or_create_pool_cases db1 contract_address)
      as [(k' & p' & Hrows' & ->)|[(a & b & l & Hrows' & _)|[(Hrows' & _)|(Hrows' & _)]]];
      rewrite Hrows1 in Hrows'; try discriminate Hrows'.
    congruence.
Qed.

Lemma get_or_create_pool_idempotent_witness :
  let db := mkDB ∅ ∅ ∅ [] in
  let first := Pools.get_or_create_pool "0xPOOL" db in
  Pools.get_or_create_pool "0xPOOL" first.1 = first.
Proof.
  cbv zeta.
  set (first := Pools.get_or_create_pool "0xPOOL" (mkDB ∅ ∅ ∅ [])).
  assert (Hfirst : exists pool, first = (first.1, Return pool))
    by (vm_compute; eexists; reflexivity).
  destruct Hfirst as (pool & Hfirst).
  rewrite (get_or_create_pool_idempotent _ _ _ _ Hfirst). symmetry. exact Hfirst.
Defined.

Lemma get_or_create_pool_returns_a_row db db1 contract_address pool :
  Pools.get_or_create_pool contract_address db = (db1, Return pool) ->
  exists k, pools db1 !! k = Some pool.
Proof.
  intros Hrun.
  destruct (get_or_create_pool_cases db contract_address)
    as [(k & p & Hrows & Hr)|[(a & b & l & _ & Hr)|[(_ & _ & Hr)
        |(_ & _ & p & Hr & _)]]];
    rewrite Hrun in Hr; try discriminate Hr; injection Hr as -> ->.
  - exists k. apply elem_of_map_to_list.
    assert (Hin : (k, p) ∈ filter
                    (fun kv => InsurancePool.contract_address kv.2 = contract_address)
                    (map_to_list (pools db))) by (rewrite Hrows; left).
    apply list_elem_of_filter in Hin as [_ Hin]. exact Hin.
  - eexists. cbn. apply lookup_insert_eq.
Qed.

(** X4: one pool at most carries the default name. After
    [get_or_create_pool] has returned a pool of that name, a call for a
    contract address that no pool has raises [IntegrityError] (the name
    and the symbol of the new row are taken) and leaves the store as it
    was. *)
Theorem get_or_create_pool_second_address_refused
    (db db1 : DB) (contract_address contract_address' : string) (pool : InsurancePool.t) :
  Pools.get_or_create_pool contract_address db = (db1, Return pool) ->
  InsurancePool.name pool = Pools.default_pool_name ->
  (forall k p, pools db1 !! k = Some p ->
               InsurancePool.contract_address p <> contract_address') ->
  Pools.get_or_create_pool contract_address' db1 = (db1, Raise IntegrityError).
Proof.
  intros Hrun Hname Hnew.
  destruct (get_or_create_pool_returns_a_row _ _ _ _ Hrun) as (k & Hk).
  assert (Hrows : filter (fun kv => InsurancePool.contract_address kv.2 = contract_address')
                         (map_to_list (pools db1)) = []).
  { apply filter_map_to_list_none. intros k' p' Hk' HP. exact (Hnew _ _ Hk' HP). }
  assert (Htaken : Pools.pool_unique_taken db1 Pools.default_pool_name Pools.default_symbol
                     contract_address' = true).
  { unfold Pools.pool_unique_taken. apply existsb_exists. exists (k, pool). split.
    - apply list_elem_of_In. apply elem_of_map_to_list. exact Hk.
    - cbn. rewrite bool_decide_eq_true_2 by assumption. reflexivity. }
  destruct (get_or_create_pool_cases db1 contract_address')
    as [(k' & p' & Hrows' & _)|[(a & b & l & Hrows' & _)|[(_ & _ & Hr)|(_ & Hfree & _)]]].
  - rewrite Hrows in Hrows'. discriminate Hrows'.
  - rewrite Hrows in Hrows'. discriminate Hrows'.
  - exact Hr.
  - rewrite Htaken in Hfree. discriminate Hfree.
Qed.

Lemma get_or_create_pool_second_address_refused_witness :
  let db := mkDB ∅ ∅ ∅ [] in
  let first := Pools.get_or_create_pool "0xPOOL" db in
  Pools.get_or_create_pool "0xOTHER" first.1 = (first.1, Raise IntegrityError).
Proof.
  cbv zeta.
  set (first := Pools.get_or_create_pool "0xPOOL" (mkDB ∅ ∅ ∅ [])).
  assert (Hfirst : exists pool,
             first = (first.1, Return pool)
             /\ InsurancePool.name pool = Pools.default_pool_name
             /\ pools first.1 = {[ 1%positive := pool ]}
             /\ InsurancePool.contract_address pool = "0xPOOL").
  { vm_compute. eexists. split; [reflexivity|]. repeat split. }
  destruct Hfirst as (pool & Hfirst & Hname & Hpools & Haddr).
  apply (get_or_create_pool_second_address_refused _ _ "0xPOOL" "0xOTHER" pool Hfirst Hname).
  intros k p. rewrite Hpools. intros Hk.
  apply lookup_singleton_Some in Hk as [_ <-]. rewrite Haddr. discriminate.
Defined.

(** ** What balanced books mean for the reports *)

Lemma balanced_utilization pool :
  Pools.balanced pool ->
  (0 < InsurancePool.total_value_locked pool)%Q ->
  exists u, PoolManager.utilization_rate (PoolManager.stats_of pool) = float u
            /\ (u == 100)%Q.
Proof.
  intros (Htvl & Hbooks & _) Hpos. unfold PoolManager.stats_of. cbn.
  rewrite (proj2 (Qgtb_true _ _) Hpos). eexists. split; [reflexivity|].
  rewrite Hbooks, <- Htvl. field. lra.
Qed.

(** X5: [check_pool_health] never finds a pool healthy whose books are
    balanced. With a positive value locked the utilization rate is 100
    per cent and draws the utilization warning; otherwise the reserve is
    not positive and draws the reserve warning. (The rounding to float
    is assumed to send 100 above 80 and numbers up to 0 below 10000.) *)
Theorem balanced_pool_is_never_healthy
    (round : Q -> Q) (db : DB) (pool_id : UUID) (pool : InsurancePool.t) :
  (forall x, (x == 100)%Q -> (80 < round x)%Q) ->
  (forall x, (x <= 0)%Q -> (round x < 10000)%Q) ->
  pools db !! pool_id = Some pool ->
  Pools.balanced pool ->
  exists report,
    PoolManager.check_pool_health round db pool_id = PoolManager.Health_ report
    /\ PoolManager.is_healthy report = false
    /\ PoolManager.risk_level report <> "low"
    /\ ((0 < InsurancePool.total_value_locked pool)%Q ->
        PoolManager.HighUtilizationRate (PoolManager.utilization_rate (PoolManager.stats_of pool))
        ∈ PoolManager.warnings report)
    /\ ((InsurancePool.total_value_locked pool <= 0)%Q ->
        PoolManager.LowStablecoinReserves ∈ PoolManager.warnings report).
Proof.
  intros Hround100 Hround0 Hpool Hbal.
  unfold PoolManager.check_pool_health, PoolManager.get_pool_stats.
  rewrite Hpool. cbn. eexists. split; [reflexivity|]. cbn.
  rewrite health_warnings_cases. unfold PoolManager.risk_level_of.
  destruct (Qlt_le_dec 0 (InsurancePool.total_value_locked pool)) as [Hpos|Hneg].
  - assert (Hu : PoolManager.utilization_high round (PoolManager.stats_of pool) = true).
    { destruct (balanced_utilization pool Hbal Hpos) as (u & Hu & H100).
      unfold PoolManager.utilization_high. rewrite Hu. cbn.
      apply Qgtb_true. apply Hround100. exact H100. }
    rewrite Hu.
    destruct (PoolManager.collateralization_low round (PoolManager.stats_of pool)),
      (PoolManager.reserve_low round (PoolManager.stats_of pool)); cbn;
      (split; [reflexivity|]); (split; [discriminate|]);
      (split; [intros _; rewrite ?elem_of_cons; auto|]); intros H; lra.
  - assert (Hr : PoolManager.reserve_low round (PoolManager.stats_of pool) = true).
    { unfold PoolManager.reserve_low. cbn. apply Qgtb_true. apply Hround0.
      destruct Hbal as (Htvl & _). rewrite <- Htvl. exact Hneg. }
    rewrite Hr.
    destruct (PoolManager.collateralization_low round (PoolManager.stats_of pool)),
      (PoolManager.utilization_high round (PoolManager.stats_of pool)); cbn;
      (split; [reflexivity|]); (split; [discriminate|]);
      (split; [intros H; lra|]); intros _; rewrite ?elem_of_cons; auto.
Qed.

Lemma balanced_pool_is_never_healthy_witness :
  exists report,
    PoolManager.check_pool_health (fun x => x)
      (Sample.db PolicyStatus.ACTIVE ClaimStatus.INITIATED) 2
    = PoolManager.Health_ report
    /\ PoolManager.is_healthy report = false.
Proof.
  destruct (balanced_pool_is_never_healthy (fun x => x)
              (Sample.db PolicyStatus.ACTIVE ClaimStatus.INITIATED) 2 Sample.empty_pool)
    as (report & Hrun & Hhealthy & _).
  - intros x Hx. rewrite Hx. reflexivity.
  - intros x Hx. lra.
  - reflexivity.
  - repeat split.
  - exists report. auto.
Defined.

(** X6: for a pool with balanced books [get_tvl_in_usd] is the value
    locked, whatever the price feed answers: the feed is asked only for a
    positive FAsset reserve. *)
Theorem get_tvl_in_usd_of_balanced_pool
    (xrp_usd : answer Decimal) (db : DB) (pool_id : UUID) (pool : InsurancePool.t) :
  pools db !! pool_id = Some pool ->
  Pools.balanced pool ->
  (Pools.get_tvl_in_usd xrp_usd db pool_id == InsurancePool.total_value_locked pool)%Q.
Proof.
  intros Hpool (Htvl & _ & Hfasset). unfold Pools.get_tvl_in_usd. rewrite Hpool.
  assert (Hno : Qgtb (InsurancePool.fasset_reserve pool) 0 = false)
    by (apply Qgtb_false; rewrite Hfasset; apply Qle_refl).
  rewrite Hno. symmetry. exact Htvl.
Qed.

Lemma get_tvl_in_usd_of_balanced_pool_witness :
  (Pools.get_tvl_in_usd (Fails "rpc down")
     (Sample.db PolicyStatus.ACTIVE ClaimStatus.INITIATED) 1 == 1000)%Q.
Proof.
  apply (get_tvl_in_usd_of_balanced_pool (Fails "rpc down")
           (Sample.db PolicyStatus.ACTIVE ClaimStatus.INITIATED) 1 Sample.pool).
  - reflexivity.
  - repeat split.
Defined.

(** ** What the operations leave alone *)

Section FrameRules.
Context {R : DB -> DB -> Prop} `{!Frame R} {A B : Type}.

Lemma keeps_ret (a : A) : keeps R (mret a : M A).
Proof. intros db. apply frame_refl. Qed.

Lemma keeps_raise (e : exn) : keeps R (raise e : M A).
Proof. intros db. apply frame_refl. Qed.

Lemma keeps_gets (f : DB -> A) : keeps R (gets f).
Proof. intros db. apply frame_refl. Qed.

Lemma keeps_lift (r : result A) : keeps R (Api.lift r).
Proof. intros db. apply frame_refl. Qed.

Lemma keeps_call (wrap : string -> exn) (a : answer A) : keeps R (call wrap a).
Proof. destruct a; [apply keeps_ret | apply keeps_raise]. Qed.

Lemma keeps_bind (m : M A) (f : A -> M B) :
  keeps R m -> (forall a, keeps R (f a)) -> keeps R (m ≫= f).
Proof.
  intros Hm Hf db. unfold mbind, M_bind. specialize (Hm db).
  destruct (m db) as [db' [a|e]]; cbn in *; [|exact Hm].
  eapply frame_trans; [exact Hm | apply Hf].
Qed.

Lemma keeps_try_except (body : M A) (E : exn -> bool) (handler : exn -> M A) :
  keeps R body -> (forall e, keeps R (handler e)) -> keeps R (try_except body E handler).
Proof.
  intros Hbody Hhandler db. unfold try_except. specialize (Hbody db).
  destruct (body db) as [db' [a|e]]; cbn in *; [exact Hbody|].
  destruct (E e); [|exact Hbody].
  eapply frame_trans; [exact Hbody | apply Hhandler].
Qed.
End FrameRules.

#[global] Instance only_claim_written_frame claim_id : Frame (only_claim_written claim_id).
Proof.
  split.
  - intros db. repeat split.
  - intros db1 db2 db3 (P12 & Q12 & T12 & D12 & O12) (P23 & Q23 & T23 & D23 & O23).
    repeat split; try congruence. intros other Hne. rewrite O23, O12 by assumption.
    reflexivity.
Qed.

#[global] Instance no_policy_reopened_frame : Frame no_policy_reopened.
Proof.
  split.
  - intros db. split; [reflexivity|]. eauto.
  - intros db1 db2 db3 (C12 & P12) (C23 & P23). split.
    + intros id. rewrite C23, C12. reflexivity.
    + intros pid p3 Hp3 Hactive. destruct (P23 _ _ Hp3 Hactive) as (p2 & Hp2 & Hactive2).
      exact (P12 _ _ Hp2 Hactive2).
Qed.

Lemma update_claim_only_claim_written claim_id f :
  keeps (only_claim_written claim_id) (update_claim claim_id f).
Proof.
  intros db. cbn. repeat split.
  - apply dom_alter_L.
  - intros other Hne. cbn. apply lookup_alter_ne. congruence.
Qed.

Lemma update_claim_no_policy_reopened claim_id f :
  (forall c, Claim.policy_id (f c) = Claim.policy_id c) ->
  keeps no_policy_reopened (update_claim claim_id f).
Proof.
  intros Hf db. split; cbn; [|eauto]. intros id.
  destruct (decide (claim_id = id)) as [->|Hne].
  - rewrite lookup_alter_eq. destruct (claims db !! id); cbn; [|reflexivity].
    rewrite Hf. reflexivity.
  - rewrite lookup_alter_ne by assumption. reflexivity.
Qed.

Lemma update_policy_no_policy_reopened policy_id f :
  (forall p, Policy.status (f p) = PolicyStatus.ACTIVE ->
             Policy.status p = PolicyStatus.ACTIVE) ->
  keeps no_policy_reopened (update_policy policy_id f).
Proof.
  intros Hf db. split; cbn; [reflexivity|]. intros pid p' Hp' Hactive.
  destruct (decide (policy_id = pid)) as [->|Hne].
  - rewrite lookup_alter_eq in Hp'. destruct (policies db !! pid) as [p|]; [|discriminate].
    injection Hp' as <-. eauto.
  - rewrite lookup_alter_ne in Hp' by assumption. eauto.
Qed.

Lemma update_pool_no_policy_reopened pool_id f :
  keeps no_policy_reopened (update_pool pool_id f).
Proof. intros db. split; cbn; [reflexivity|]. eauto. Qed.

Create HintDb frames.

#[local] Hint Resolve update_claim_only_claim_written update_pool_no_policy_reopened
  : frames.

(** Follows the structure of an operation, as [preserve] does. *)
Ltac keep :=
  repeat first
    [ apply keeps_bind; [|intros ?]
    | apply keeps_try_except; [|intros ?]
    | apply update_claim_no_policy_reopened; intros []; reflexivity
    | apply update_policy_no_policy_reopened; intros []; cbn; discriminate
    | apply keeps_ret | apply keeps_raise | apply keeps_gets | apply keeps_lift
    | apply keeps_call
    | solve [auto with frames]
    | progress cbv zeta
    | match goal with
      | |- keeps _ (match ?x with _ => _ end) => destruct x
      | |- keeps _ (if ?b then _ else _) => destruct b
      end ].

(** X7: [verify_claim_with_fdc] writes to the claim it verifies and to
    nothing else. Whatever the oracle answers and whether the call
    returns or raises, pools, policies and pool transactions are
    unchanged, no claim is created or removed, and every other claim is
    as it was. *)
Theorem verify_claim_with_fdc_writes_only_its_claim
    (fdc : FDCClient.t) (now : datetime) (claim_id : UUID) (db : DB) :
  only_claim_written claim_id db (ClaimsEngine.verify_claim_with_fdc fdc now claim_id db).1.
Proof.
  revert db. change (keeps (only_claim_written claim_id)
                       (ClaimsEngine.verify_claim_with_fdc fdc now claim_id)).
  unfold ClaimsEngine.verify_claim_with_fdc, ClaimsEngine.begin_verification,
    ClaimsEngine.attest, ClaimsEngine.attestation_failed, ClaimsEngine.load_claim,
    ClaimsEngine.claim_attr.
  keep.
Qed.

(** ** One claim per policy *)

Lemma verify_claim_with_fdc_no_policy_reopened fdc now claim_id :
  keeps no_policy_reopened (ClaimsEngine.verify_claim_with_fdc fdc now claim_id).
Proof.
  unfold ClaimsEngine.verify_claim_with_fdc, ClaimsEngine.begin_verification,
    ClaimsEngine.attest, ClaimsEngine.attestation_failed, ClaimsEngine.load_claim,
    ClaimsEngine.claim_attr.
  keep.
Qed.

Lemma pool_process_payout_no_policy_reopened pool_id amount claim_id user_id to_address :
  keeps no_policy_reopened
    (PoolManager.process_payout pool_id amount claim_id user_id to_address).
Proof. unfold PoolManager.process_payout. keep. Qed.

Lemma process_payout_no_policy_reopened usdt_usd now claim_id pool_id :
  keeps no_policy_reopened (ClaimsEngine.process_payout usdt_usd now claim_id pool_id).
Proof.
  unfold ClaimsEngine.process_payout, ClaimsEngine.pay, ClaimsEngine.payout_failed,
    ClaimsEngine.load_claim, PoolManager.process_payout.
  keep.
Qed.

Lemma verify_claim_no_policy_reopened user fdc now claim_id :
  keeps no_policy_reopened (Api.verify_claim user fdc now claim_id).
Proof.
  unfold Api.verify_claim. keep.
Qed.

Lemma fdc_finalization_webhook_no_policy_reopened payload :
  keeps no_policy_reopened (Api.fdc_finalization_webhook payload).
Proof.
  unfold Api.fdc_finalization_webhook, Api.claim_of_request, ClaimsEngine.claim_attr.
  keep.
Qed.

Lemma deposit_premium_no_policy_reopened pool_id amount policy_id user_id tx_hash
    block_number from_address :
  keeps no_policy_reopened
    (PoolManager.deposit_premium pool_id amount policy_id user_id tx_hash block_number
       from_address).
Proof.
  intros db.
  destruct (deposit_premium_store db pool_id amount policy_id user_id tx_hash
              block_number from_address) as [->|(pool & _ & _ & Hpolicies & Hclaims)].
  - apply frame_refl.
  - split.
    + intros id. rewrite Hclaims. reflexivity.
    + intros pid p'. rewrite Hpolicies. eauto.
Qed.

Lemma no_policy_reopened_keeps_one_claim db db' :
  one_claim_per_policy db -> no_policy_reopened db db' -> one_claim_per_policy db'.
Proof.
  intros [Hone Hclosed] [Hclaims Hpolicies]. split.
  - intros id1 id2 c1' c2' H1 H2 Hsame.
    pose proof (Hclaims id1) as E1. pose proof (Hclaims id2) as E2.
    rewrite H1 in E1. rewrite H2 in E2. cbn in *.
    destruct (claims db !! id1) as [c1|] eqn:Hc1; [|discriminate].
    destruct (claims db !! id2) as [c2|] eqn:Hc2; [|discriminate].
    cbn in *. eapply Hone; [exact Hc1 | exact Hc2 | congruence].
  - intros id c' p' Hc' Hp' Hactive.
    pose proof (Hclaims id) as E. rewrite Hc' in E. cbn in E.
    destruct (claims db !! id) as [c|] eqn:Hc; [|discriminate]. cbn in E.
    destruct (Hpolicies _ _ Hp' Hactive) as (p & Hp & Hpactive).
    injection E as E. rewrite E in Hp. exact (Hclosed _ _ _ Hc Hp Hpactive).
Qed.

Lemma keeps_maintains {A} (m : M A) :
  keeps no_policy_reopened m -> maintains one_claim_per_policy m.
Proof. intros Hm db Hinv. eapply no_policy_reopened_keeps_one_claim; [exact Hinv|apply Hm]. Qed.

Lemma maintains_bind {A B} (I : DB -> Prop) (m : M A) (f : A -> M B) :
  maintains I m -> (forall a, maintains I (f a)) -> maintains I (m ≫= f).
Proof.
  intros Hm Hf db Hinv. unfold mbind, M_bind. specialize (Hm db Hinv).
  destruct (m db) as [db' [a|e]]; cbn in *; [|exact Hm]. apply Hf. exact Hm.
Qed.

Lemma policy_with_status_status v p : Policy.status (Policy.with_status v p) = v.
Proof. destruct p. reflexivity. Qed.

Lemma initiate_claim_maintains_one_claim claim_number now policy_id user_id trigger_event
    trigger_value payout_address :
  maintains one_claim_per_policy
    (ClaimsEngine.initiate_claim claim_number now policy_id user_id trigger_event
       trigger_value payout_address).
Proof.
  intros db [Hone Hclosed].
  destruct (initiate_claim_cases db claim_number now policy_id user_id trigger_event
              trigger_value payout_address)
    as [(e & -> & _)|(policy & claim & -> & Hpolicy & _ & Hactive & _ & _ & Hpid & _)];
    [split; assumption|].
  cbn. pose proof (fresh_claim_id db) as Hfresh.
  assert (Hnone : forall id c, claims db !! id = Some c -> Claim.policy_id c <> policy_id).
  { intros id c Hc Heq. rewrite <- Heq in Hpolicy. exact (Hclosed _ _ _ Hc Hpolicy Hactive). }
  split; cbn.
  - intros id1 id2 c1 c2.
    destruct (decide (fresh (dom (claims db)) = id1)) as [<-|Hne1];
      destruct (decide (fresh (dom (claims db)) = id2)) as [<-|Hne2];
      rewrite ?lookup_insert_eq, ?lookup_insert_ne by assumption; try reflexivity.
    + intros [= <-] Hc2 Hsame. exfalso. apply (Hnone _ _ Hc2). congruence.
    + intros Hc1 [= <-] Hsame. exfalso. apply (Hnone _ _ Hc1). congruence.
    + apply Hone.
  - intros id c p.
    destruct (decide (fresh (dom (claims db)) = id)) as [<-|Hne].
    + rewrite lookup_insert_eq. intros [= <-]. rewrite Hpid, lookup_insert_eq.
      intros [= <-]. rewrite policy_with_status_status. discriminate.
    + rewrite lookup_insert_ne by assumption. intros Hc.
      rewrite lookup_insert_ne by (intros Heq; apply (Hnone _ _ Hc); congruence).
      apply (Hclosed _ _ _ Hc).
Qed.

Lemma apply_maintains_one_claim o db :
  one_claim_per_policy db -> one_claim_per_policy (apply o db).
Proof.
  revert db. destruct o; cbn.
  - apply initiate_claim_maintains_one_claim.
  - apply keeps_maintains, verify_claim_with_fdc_no_policy_reopened.
  - apply keeps_maintains, process_payout_no_policy_reopened.
  - unfold ClaimsEngine.auto_process_claim.
    apply maintains_bind; [apply initiate_claim_maintains_one_claim|intros claim].
    apply maintains_bind;
      [apply keeps_maintains, verify_claim_with_fdc_no_policy_reopened|intros v].
    apply keeps_maintains. destruct (negb _); [apply keeps_ret|].
    apply keeps_bind; [apply process_payout_no_policy_reopened|intros r; apply keeps_ret].
  - apply keeps_maintains, verify_claim_no_policy_reopened.
  - apply keeps_maintains, fdc_finalization_webhook_no_policy_reopened.
  - apply keeps_maintains, deposit_premium_no_policy_reopened.
  - apply keeps_maintains, pool_process_payout_no_policy_reopened.
Qed.

Lemma run_maintains_one_claim history : forall db,
  one_claim_per_policy db -> one_claim_per_policy (run history db).
Proof.
  induction history as [|o history IH]; intros db Hinv; cbn; [exact Hinv|].
  apply IH. apply apply_maintains_one_claim. exact Hinv.
Qed.

(** X8: a policy is claimed at most once. From a store in which no two
    claims are on the same policy and no policy with a claim is ACTIVE
    (a store without claims, for one), every history of the operations
    leads to such a store; and there [initiate_claim] on the policy of
    any existing claim raises and changes nothing, so a second claim on
    the policy cannot be made. *)
Theorem a_policy_is_claimed_once
    (history : list operation) (db : DB)
    (claim_id : UUID) (claim : Claim.t)
    (claim_number : string) (now : datetime) (user_id : UUID) (trigger_event : string)
    (trigger_value : option string) (payout_address : string) :
  one_claim_per_policy db ->
  claims (run history db) !! claim_id = Some claim ->
  one_claim_per_policy (run history db)
  /\ exists e,
       ClaimsEngine.initiate_claim claim_number now (Claim.policy_id claim) user_id
         trigger_event trigger_value payout_address (run history db)
       = (run history db, Raise e).
Proof.
  intros Hinv Hclaim. pose proof (run_maintains_one_claim history db Hinv) as Hinv'.
  split; [exact Hinv'|].
  destruct (initiate_claim_cases (run history db) claim_number now (Claim.policy_id claim)
              user_id trigger_event trigger_value payout_address)
    as [(e & Hr & _)|(policy & claim' & _ & Hpolicy & _ & Hactive & _)]; [eauto|].
  exfalso. destruct Hinv' as [_ Hclosed]. exact (Hclosed _ _ _ Hclaim Hpolicy Hactive).
Qed.

Lemma a_policy_is_claimed_once_witness :
  let db := Sample.db_without_claim PolicyStatus.ACTIVE in
  let history :=
    [InitiateClaim "CLM-260101-A1B2C3" 0 1 7 "flight_delayed" None "0xUSER";
     VerifyClaimWithFdc (Sample.fdc 150) 50 1] in
  exists e,
    ClaimsEngine.initiate_claim "CLM-260102-D4E5F6" 90 1 7 "flight_delayed" None "0xUSER"
      (run history db)
    = (run history db, Raise e).
Proof.
  cbv zeta.
  set (history := [InitiateClaim "CLM-260101-A1B2C3" 0 1 7 "flight_delayed" None "0xUSER";
                   VerifyClaimWithFdc (Sample.fdc 150) 50 1]).
  set (db := Sample.db_without_claim PolicyStatus.ACTIVE).
  assert (Hclaim : exists claim, claims (run history db) !! 1%positive = Some claim
                                 /\ Claim.policy_id claim = 1%positive).
  { vm_compute. eexists. split; reflexivity. }
  destruct Hclaim as (claim & Hclaim & Hpid).
  destruct (a_policy_is_claimed_once history db 1 claim "CLM-260102-D4E5F6" 90 7
              "flight_delayed" None "0xUSER") as (_ & e & He).
  - split.
    + intros id1 id2 c1 c2 H1. cbn in H1. rewrite lookup_empty in H1. discriminate.
    + intros id c p H. cbn in H. rewrite lookup_empty in H. discriminate.
  - exact Hclaim.
  - exists e. rewrite Hpid in He. exact He.
Defined.

(** ** Outcomes of a verification *)

Lemma verify_claim_with_fdc_keeps_frame fdc now claim_id :
  keeps (only_claim_written claim_id) (ClaimsEngine.verify_claim_with_fdc fdc now claim_id).
Proof.
  unfold ClaimsEngine.verify_claim_with_fdc, ClaimsEngine.begin_verification,
    ClaimsEngine.attest, ClaimsEngine.attestation_failed, ClaimsEngine.load_claim,
    ClaimsEngine.claim_attr.
  keep.
Qed.

Ltac verify_case claim Hclaim :=
  eexists _, _, _; split; [reflexivity|]; cbn;
  rewrite !lookup_alter_eq, Hclaim; cbn; split; [reflexivity|];
  destruct claim; cbn; repeat split; auto; try discriminate.

(** A verification of an existing claim with its policy returns, and
    the claim ends APPROVED when the result is verified, REJECTED or
    FAILED when it is not. *)
Lemma verify_claim_with_fdc_returns db fdc now claim_id claim policy :
  claims db !! claim_id = Some claim ->
  policies db !! Claim.policy_id claim = Some policy ->
  exists db' v claim',
    ClaimsEngine.verify_claim_with_fdc fdc now claim_id db = (db', Return v)
    /\ claims db' !! claim_id = Some claim'
    /\ same_claim_terms claim claim'
    /\ (ClaimsEngine.is_verified v = true -> Claim.status claim' = ClaimStatus.APPROVED)
    /\ (ClaimsEngine.is_verified v = false ->
        (Claim.status claim' = ClaimStatus.REJECTED
         \/ Claim.status claim' = ClaimStatus.FAILED)
        /\ ClaimsEngine.error_message v <> None).
Proof.
  intros Hclaim Hpolicy.
  unfold ClaimsEngine.verify_claim_with_fdc. unfold mbind at 1, M_bind at 1.
  rewrite (begin_verification_marks_verifying _ _ _ _ Hclaim Hpolicy).
  unfold ClaimsEngine.attest, ClaimsEngine.attestation_failed, ClaimsEngine.claim_attr.
  run_M.
  destruct (FDCClient.submit_request fdc _) as [request_id|detail]; cbn;
    [|verify_case claim Hclaim].
  destruct (FDCClient.poll fdc request_id) as [st|detail]; cbn; [|verify_case claim Hclaim].
  destruct (FDCClient.get_proof fdc request_id) as [proof|detail]; cbn;
    [|verify_case claim Hclaim].
  destruct (FDCClient.verify_proof _ _) eqn:Hvalid; cbn; [|verify_case claim Hclaim].
  destruct (ClaimsEngine.truthy _); cbn; verify_case claim Hclaim.
Qed.

(** X9: a failure of the oracle after the request was submitted leaves
    the request id on the claim. When [submit_request] returns a request
    id and then the polling or the proof retrieval fails,
    [verify_claim_with_fdc] returns an unverified result carrying that
    failure, and the claim is FAILED with the failure as its
    [error_message] and the request id stored. *)
Theorem verify_claim_with_fdc_failure_keeps_request_id
    (db : DB) (fdc : FDCClient.t) (now : datetime) (claim_id : UUID)
    (claim : Claim.t) (policy : Policy.t) (request_id detail : string) :
  claims db !! claim_id = Some claim ->
  policies db !! Claim.policy_id claim = Some policy ->
  FDCClient.submit_request fdc
    (FDCClient.prepare_flight_status_request (Policy.flight_number policy)
       (Policy.airline_code policy) (Policy.scheduled_departure policy))
  = Answer request_id ->
  (FDCClient.poll fdc request_id = Fails detail
   \/ (exists st, FDCClient.poll fdc request_id = Answer st)
      /\ FDCClient.get_proof fdc request_id = Fails detail) ->
  exists db' v claim',
    ClaimsEngine.verify_claim_with_fdc fdc now claim_id db = (db', Return v)
    /\ ClaimsEngine.is_verified v = false
    /\ ClaimsEngine.fdc_request_id v = Some request_id
    /\ ClaimsEngine.error_message v = Some (str (FDCAttestationError detail))
    /\ claims db' !! claim_id = Some claim'
    /\ Claim.status claim' = ClaimStatus.FAILED
    /\ Claim.error_message claim' = Some (str (FDCAttestationError detail))
    /\ Claim.fdc_request_id claim' = Some request_id
    /\ Claim.fdc_verified claim' = Claim.fdc_verified claim.
Proof.
  intros Hclaim Hpolicy Hsubmit Hfail. destruct claim.
  unfold ClaimsEngine.verify_claim_with_fdc. unfold mbind at 1, M_bind at 1.
  rewrite (begin_verification_marks_verifying _ _ _ _ Hclaim Hpolicy).
  unfold ClaimsEngine.attest, ClaimsEngine.attestation_failed, ClaimsEngine.claim_attr.
  run_M. rewrite Hsubmit. cbn.
  destruct Hfail as [Hpoll|[(st & Hpoll) Hproof]]; rewrite Hpoll; cbn;
    [|rewrite Hproof; cbn];
    (eexists _, _, _; split; [reflexivity|]; cbn;
     rewrite !lookup_alter_eq, Hclaim; cbn; repeat split).
Qed.

Lemma verify_claim_with_fdc_failure_keeps_request_id_witness :
  let db := Sample.db_without_claim PolicyStatus.PAYOUT_PENDING in
  let db := set_claims (fun m => <[1%positive := Sample.claim ClaimStatus.INITIATED]> m) db in
  let fdc :=
    {| FDCClient.submit_request := fun _ => Answer "0xNEW";
       FDCClient.poll := fun request_id =>
         Fails ("Request " +:+ request_id +:+ " did not finalize within 180s");
       FDCClient.get_proof := fun _ => Fails "unreachable";
       FDCClient.get_response_data := fun _ => None |} in
  exists db' v claim',
    ClaimsEngine.verify_claim_with_fdc fdc 50 1 db = (db', Return v)
    /\ claims db' !! 1%positive = Some claim'
    /\ Claim.status claim' = ClaimStatus.FAILED
    /\ Claim.fdc_request_id claim' = Some "0xNEW".
Proof.
  cbv zeta.
  edestruct (verify_claim_with_fdc_failure_keeps_request_id
               (set_claims (fun m => <[1%positive := Sample.claim ClaimStatus.INITIATED]> m)
                  (Sample.db_without_claim PolicyStatus.PAYOUT_PENDING))
               {| FDCClient.submit_request := fun _ => Answer "0xNEW";
                  FDCClient.poll := fun request_id =>
                    Fails ("Request " +:+ request_id +:+ " did not finalize within 180s");
                  FDCClient.get_proof := fun _ => Fails "unreachable";
                  FDCClient.get_response_data := fun _ => None |}
               50 1 (Sample.claim ClaimStatus.INITIATED)
               (Sample.policy PolicyStatus.PAYOUT_PENDING) "0xNEW")
    as (db' & v & claim' & Hrun & _ & _ & _ & Hclaim' & Hstatus & _ & Hrid & _).
  - reflexivity.
  - reflexivity.
  - reflexivity.
  - left. reflexivity.
  - exists db', v, claim'. auto.
Defined.

(** X10: a proof that [verify_proof] refuses (an empty merkle root or
    an empty proof list) rejects the claim. With the request finalized
    and the proof fetched, [verify_claim_with_fdc] returns an unverified
    result with "Verification failed", and the claim is REJECTED with
    reason "FDC proof verification failed", not marked verified and not
    given an approval time. *)
Theorem verify_claim_with_fdc_refused_proof_rejects
    (db : DB) (fdc : FDCClient.t) (now : datetime) (claim_id : UUID)
    (claim : Claim.t) (policy : Policy.t) (request_id : string)
    (st : FDCClient.Status) (proof : FDCClient.Proof) :
  claims db !! claim_id = Some claim ->
  policies db !! Claim.policy_id claim = Some policy ->
  FDCClient.submit_request fdc
    (FDCClient.prepare_flight_status_request (Policy.flight_number policy)
       (Policy.airline_code policy) (Policy.scheduled_departure policy))
  = Answer request_id ->
  FDCClient.poll fdc request_id = Answer st ->
  FDCClient.get_proof fdc request_id = Answer proof ->
  (FDCClient.merkle_root proof = "" \/ FDCClient.proof proof = []) ->
  exists db' v claim',
    ClaimsEngine.verify_claim_with_fdc fdc now claim_id db = (db', Return v)
    /\ ClaimsEngine.is_verified v = false
    /\ ClaimsEngine.error_message v = Some (Literal "Verification failed")
    /\ claims db' !! claim_id = Some claim'
    /\ Claim.status claim' = ClaimStatus.REJECTED
    /\ Claim.rejection_reason claim' = Some "FDC proof verification failed"
    /\ Claim.fdc_verified claim' = false
    /\ Claim.approved_at claim' = Claim.approved_at claim
    /\ Claim.fdc_request_id claim' = Some request_id.
Proof.
  intros Hclaim Hpolicy Hsubmit Hpoll Hproof Hempty.
  assert (Hvalid : FDCClient.verify_proof (FDCClient.merkle_root proof)
                     (FDCClient.proof proof) = false).
  { unfold FDCClient.verify_proof. destruct Hempty as [-> | ->].
    - reflexivity.
    - rewrite (bool_decide_eq_true_2 ([] = [])) by reflexivity. rewrite orb_true_r.
      reflexivity. }
  destruct claim.
  unfold ClaimsEngine.verify_claim_with_fdc. unfold mbind at 1, M_bind at 1.
  rewrite (begin_verification_marks_verifying _ _ _ _ Hclaim Hpolicy).
  unfold ClaimsEngine.attest. run_M. rewrite Hsubmit. cbn. rewrite Hpoll. cbn.
  rewrite Hproof. cbn. rewrite Hvalid. cbn.
  eexists _, _, _. split; [reflexivity|]. cbn.
  rewrite !lookup_alter_eq, Hclaim. cbn. repeat split.
Qed.

Lemma verify_claim_with_fdc_refused_proof_rejects_witness :
  let db := Sample.db PolicyStatus.PAYOUT_PENDING ClaimStatus.INITIATED in
  let fdc :=
    {| FDCClient.submit_request := fun _ => Answer "0xREQ";
       FDCClient.poll := fun request_id => Answer (FDCClient.mkStatus request_id "finalized" 3);
       FDCClient.get_proof := fun request_id => Answer (FDCClient.mkProof request_id "0xROOT" []);
       FDCClient.get_response_data := fun _ => None |} in
  exists db' v claim',
    ClaimsEngine.verify_claim_with_fdc fdc 50 1 db = (db', Return v)
    /\ claims db' !! 1%positive = Some claim'
    /\ Claim.status claim' = ClaimStatus.REJECTED.
Proof.
  cbv zeta.
  edestruct (verify_claim_with_fdc_refused_proof_rejects
               (Sample.db PolicyStatus.PAYOUT_PENDING ClaimStatus.INITIATED)
               {| FDCClient.submit_request := fun _ => Answer "0xREQ";
                  FDCClient.poll := fun request_id =>
                    Answer (FDCClient.mkStatus request_id "finalized" 3);
                  FDCClient.get_proof := fun request_id =>
                    Answer (FDCClient.mkProof request_id "0xROOT" []);
                  FDCClient.get_response_data := fun _ => None |}
               50 1 (Sample.claim ClaimStatus.INITIATED)
               (Sample.policy PolicyStatus.PAYOUT_PENDING) "0xREQ")
    as (db' & v & claim' & Hrun & _ & _ & Hclaim' & Hstatus & _).
  - reflexivity.
  - reflexivity.
  - reflexivity.
  - reflexivity.
  - reflexivity.
  - right. reflexivity.
  - exists db', v, claim'. auto.
Defined.

(** ** Where the money goes *)

(** What [process_payout] writes on the policy of a paid claim. *)
Lemma paid_policy_fields now claim policy :
  let policy' :=
    Policy.with_payout_address (Some (Claim.payout_address claim))
      (Policy.with_paid_at (Some now)
         (Policy.with_payout_amount (Some (Claim.payout_amount claim))
            (Policy.with_status PolicyStatus.PAID policy))) in
  Policy.status policy' = PolicyStatus.PAID
  /\ Policy.payout_amount policy' = Some (Claim.payout_amount claim)
  /\ Policy.payout_address policy' = Some (Claim.payout_address claim)
  /\ Policy.paid_at policy' = Some now
  /\ Policy.coverage_amount policy' = Policy.coverage_amount policy
  /\ Policy.user_id policy' = Policy.user_id policy.
Proof. destruct policy. cbn. repeat split. Qed.

(** The two ways [process_payout] ends on an APPROVED claim. *)
Lemma process_payout_outcome db usdt_usd now claim_id pool_id claim :
  claims db !! claim_id = Some claim ->
  Claim.status claim = ClaimStatus.APPROVED ->
  exists db' r claim',
    ClaimsEngine.process_payout usdt_usd now claim_id pool_id db = (db', Return r)
    /\ claims db' !! claim_id = Some claim'
    /\ same_claim_terms claim claim'
    /\ pool_transactions db' = pool_transactions db
    /\ ((ClaimsEngine.success r = true
         /\ Claim.status claim' = ClaimStatus.PAID
         /\ Claim.paid_at claim' = Some now
         /\ (exists pool,
               pools db !! pool_id = Some pool
               /\ (Claim.payout_amount claim <= InsurancePool.stablecoin_reserve pool)%Q
               /\ pools db'
                  = <[pool_id := PoolManager.debit (Claim.payout_amount claim) pool]>
                      (pools db))
         /\ policies db'
            = alter (fun p =>
                       Policy.with_payout_address (Some (Claim.payout_address claim))
                         (Policy.with_paid_at (Some now)
                            (Policy.with_payout_amount (Some (Claim.payout_amount claim))
                               (Policy.with_status PolicyStatus.PAID p))))
                (Claim.policy_id claim) (policies db))
        \/ (ClaimsEngine.success r = false
            /\ Claim.status claim' = ClaimStatus.FAILED
            /\ Claim.paid_at claim' = Claim.paid_at claim
            /\ pools db' = pools db
            /\ policies db' = policies db)).
Proof.
  intros Hclaim Hstatus. destruct claim. cbn in Hstatus. subst.
  unfold ClaimsEngine.process_payout.
  unfold mbind at 1, M_bind at 1. rewrite (load_claim_found _ _ _ Hclaim).
  rewrite bool_decide_eq_false_2 by (cbn; intros H; apply H; reflexivity).
  unfold ClaimsEngine.pay, ClaimsEngine.payout_failed, PoolManager.process_payout. run_M.
  destruct usdt_usd as [usdt_price|detail]; cbn.
  - destruct (pools db !! pool_id) as [pool|] eqn:Hpool; cbn.
    + destruct (Qgtb payout_amount (InsurancePool.stablecoin_reserve pool)) eqn:Hfunds; cbn.
      * eexists _, _, _. split; [reflexivity|]. cbn.
        rewrite !lookup_alter_eq, Hclaim. cbn. split; [reflexivity|].
        split; [repeat split|]. split; [reflexivity|]. right. repeat split.
      * apply Qgtb_false in Hfunds.
        eexists _, _, _. split; [reflexivity|]. cbn.
        rewrite !lookup_alter_eq, Hclaim. cbn. split; [reflexivity|].
        split; [repeat split|]. split; [reflexivity|]. left.
        do 3 (split; [reflexivity|]). split; [|reflexivity].
        exists pool. split; [reflexivity|]. split; [exact Hfunds|].
        apply alter_as_insert. exact Hpool.
    + eexists _, _, _. split; [reflexivity|]. cbn.
      rewrite !lookup_alter_eq, Hclaim. cbn. split; [reflexivity|].
      split; [repeat split|]. split; [reflexivity|]. right. repeat split.
  - eexists _, _, _. split; [reflexivity|]. cbn.
    rewrite !lookup_alter_eq, Hclaim. cbn. split; [reflexivity|].
    split; [repeat split|]. split; [reflexivity|]. right. repeat split.
Qed.

(** X11: [process_payout] on an APPROVED claim either pays or moves
    nothing. When the returned dict has [success = True], the pool was
    debited the claim's payout amount once (reserve and TVL less by it,
    payouts-made more by it, one more paid claim) and the claim's policy
    is PAID with that amount, the claim's address and the time of
    payment. When [success] is [False], pools and policies are exactly
    as before, so the policy stays as it was. In both cases no pool
    transaction is recorded. *)
Theorem process_payout_pays_or_moves_nothing
    (db : DB) (usdt_usd : answer Decimal) (now : datetime) (claim_id pool_id : UUID)
    (claim : Claim.t) :
  claims db !! claim_id = Some claim ->
  Claim.status claim = ClaimStatus.APPROVED ->
  exists db' r,
    ClaimsEngine.process_payout usdt_usd now claim_id pool_id db = (db', Return r)
    /\ pool_transactions db' = pool_transactions db
    /\ (ClaimsEngine.success r = true ->
        (exists pool pool',
           pools db !! pool_id = Some pool
           /\ pools db' = <[pool_id := pool']> (pools db)
           /\ InsurancePool.stablecoin_reserve pool'
              = (InsurancePool.stablecoin_reserve pool - Claim.payout_amount claim)%Q
           /\ InsurancePool.total_value_locked pool'
              = (InsurancePool.total_value_locked pool - Claim.payout_amount claim)%Q
           /\ InsurancePool.total_payouts_made pool'
              = (InsurancePool.total_payouts_made pool + Claim.payout_amount claim)%Q
           /\ InsurancePool.total_claims_paid pool'
              = InsurancePool.total_claims_paid pool + 1)
        /\ (forall policy,
              policies db !! Claim.policy_id claim = Some policy ->
              exists policy',
                policies db' !! Claim.policy_id claim = Some policy'
                /\ Policy.status policy' = PolicyStatus.PAID
                /\ Policy.payout_amount policy' = Some (Claim.payout_amount claim)
                /\ Policy.payout_address policy' = Some (Claim.payout_address claim)
                /\ Policy.paid_at policy' = Some now)
        /\ (forall other, other <> Claim.policy_id claim ->
              policies db' !! other = policies db !! other))
    /\ (ClaimsEngine.success r = false ->
        pools db' = pools db /\ policies db' = policies db).
Proof.
  intros Hclaim Hstatus.
  destruct (process_payout_outcome db usdt_usd now claim_id pool_id claim Hclaim Hstatus)
    as (db' & r & claim' & Hrun & _ & _ & Htx
        & [(Hok & _ & _ & (pool & Hpool & _ & Hpools) & Hpolicies)
          |(Hfail & _ & _ & Hpools & Hpolicies)]).
  - exists db', r. split; [exact Hrun|]. split; [exact Htx|]. split.
    + intros _. split; [|split].
      * exists pool, (PoolManager.debit (Claim.payout_amount claim) pool).
        split; [exact Hpool|]. split; [exact Hpools|].
        destruct (debit_fields (Claim.payout_amount claim) pool)
          as (H1 & H2 & H3 & H4 & _). auto.
      * intros policy Hpolicy. rewrite Hpolicies, lookup_alter_eq, Hpolicy. cbn.
        eexists. split; [reflexivity|].
        destruct (paid_policy_fields now claim policy) as (H1 & H2 & H3 & H4 & _). auto.
      * intros other Hne. rewrite Hpolicies. apply lookup_alter_ne. congruence.
    + rewrite Hok. discriminate.
  - exists db', r. split; [exact Hrun|]. split; [exact Htx|]. split.
    + rewrite Hfail. discriminate.
    + auto.
Qed.

Lemma process_payout_pays_or_moves_nothing_witness :
  let db := Sample.db PolicyStatus.PAYOUT_PENDING ClaimStatus.APPROVED in
  exists db' r,
    ClaimsEngine.process_payout (Answer 1%Q) 60 1 2 db = (db', Return r)
    /\ ClaimsEngine.success r = false
    /\ pools db' = pools db /\ policies db' = policies db.
Proof.
  cbv zeta.
  destruct (process_payout_pays_or_moves_nothing
              (Sample.db PolicyStatus.PAYOUT_PENDING ClaimStatus.APPROVED)
              (Answer 1%Q) 60 1 2 (Sample.claim ClaimStatus.APPROVED) eq_refl eq_refl)
    as (db' & r & Hrun & _ & _ & Hfail).
  assert (Hr : ClaimsEngine.success r = false).
  { assert (H : ClaimsEngine.success <$>
                  (match (ClaimsEngine.process_payout (Answer 1%Q) 60 1 2
                            (Sample.db PolicyStatus.PAYOUT_PENDING ClaimStatus.APPROVED)).2
                   with Return r => Some r | Raise _ => None end) = Some false)
      by (vm_compute; reflexivity).
    rewrite Hrun in H. cbn in H. congruence. }
  exists db', r. split; [exact Hrun|]. split; [exact Hr|]. apply Hfail. exact Hr.
Defined.

(** ** The automatic claim, end to end *)

Lemma claim_number_free db claim_number :
  (forall id c, claims db !! id = Some c -> Claim.claim_number c <> claim_number) ->
  ClaimsEngine.claim_number_taken db claim_number = false.
Proof.
  intros Hfree. unfold ClaimsEngine.claim_number_taken.
  destruct (existsb _ _) eqn:E; [|reflexivity].
  apply existsb_exists in E as ([id c] & Hin & Hc). exfalso.
  apply list_elem_of_In, elem_of_map_to_list in Hin.
  apply bool_decide_eq_true_1 in Hc. exact (Hfree _ _ Hin Hc).
Qed.

(** X12: [auto_process_claim] on an ACTIVE policy of the caller, with a
    claim number not yet used, always returns, and what it returns tells
    what happened to the money. With [success = True] the new claim is
    PAID, the policy is PAID with the coverage amount, and the pool was
    debited the coverage amount. With [success = False] the claim is
    REJECTED or FAILED, an error is reported, the pools are untouched and
    the policy is left PAYOUT_PENDING. *)
Theorem auto_process_claim_pays_or_leaves_policy_pending
    (db : DB) (claim_number : string) (fdc : FDCClient.t) (usdt_usd : answer Decimal)
    (now : datetime) (policy_id user_id pool_id : UUID) (payout_address : string)
    (policy : Policy.t) :
  policies db !! policy_id = Some policy ->
  Policy.user_id policy = user_id ->
  Policy.status policy = PolicyStatus.ACTIVE ->
  (forall id c, claims db !! id = Some c -> Claim.claim_number c <> claim_number) ->
  exists db' r claim' policy',
    ClaimsEngine.auto_process_claim claim_number fdc usdt_usd now policy_id user_id pool_id
      payout_address db = (db', Return r)
    /\ claims db !! ClaimsEngine.auto_claim_id r = None
    /\ claims db' !! ClaimsEngine.auto_claim_id r = Some claim'
    /\ Claim.policy_id claim' = policy_id
    /\ Claim.payout_amount claim' = Policy.coverage_amount policy
    /\ policies db' !! policy_id = Some policy'
    /\ ((ClaimsEngine.auto_success r = true
         /\ Claim.status claim' = ClaimStatus.PAID
         /\ Policy.status policy' = PolicyStatus.PAID
         /\ Policy.payout_amount policy' = Some (Policy.coverage_amount policy)
         /\ exists pool,
              pools db !! pool_id = Some pool
              /\ (Policy.coverage_amount policy <= InsurancePool.stablecoin_reserve pool)%Q
              /\ pools db'
                 = <[pool_id := PoolManager.debit (Policy.coverage_amount policy) pool]>
                     (pools db))
        \/ (ClaimsEngine.auto_success r = false
            /\ (Claim.status claim' = ClaimStatus.REJECTED
                \/ Claim.status claim' = ClaimStatus.FAILED)
            /\ ClaimsEngine.auto_error r <> None
            /\ Policy.status policy' = PolicyStatus.PAYOUT_PENDING
            /\ pools db' = pools db)).
Proof.
  intros Hpolicy Huser Hactive Hfree.
  destruct (initiate_claim_cases db claim_number now policy_id user_id "flight_delayed"
              None payout_address)
    as [(e & _ & He)|(policy0 & claim & Hinit & Hpolicy0 & _ & _ & Hid & Hinitiated & Hpid
                      & _ & Hamount & _)].
  { exfalso. rewrite Hpolicy in He. rewrite decide_True in He by assumption.
    rewrite decide_True in He by assumption. destruct He as [_ Htaken].
    rewrite (claim_number_free _ _ Hfree) in Htaken. discriminate. }
  rewrite Hpolicy in Hpolicy0. injection Hpolicy0 as <-.
  set (db1 := mkDB (<[policy_id := Policy.with_status PolicyStatus.PAYOUT_PENDING policy]>
                      (policies db))
                   (<[fresh (dom (claims db)) := claim]> (claims db))
                   (pools db) (pool_transactions db)) in Hinit.
  assert (Hclaim1 : claims db1 !! Claim.id claim = Some claim)
    by (rewrite Hid; apply lookup_insert_eq).
  assert (Hpolicy1 : policies db1 !! Claim.policy_id claim
                     = Some (Policy.with_status PolicyStatus.PAYOUT_PENDING policy))
    by (rewrite Hpid; apply lookup_insert_eq).
  destruct (verify_claim_with_fdc_returns db1 fdc now (Claim.id claim) claim _
              Hclaim1 Hpolicy1)
    as (db2 & v & claim2 & Hverify & Hclaim2 & (_ & _ & Hpid2 & Hamount2 & _)
        & Hverified & Hunverified).
  pose proof (verify_claim_with_fdc_keeps_frame fdc now (Claim.id claim) db1) as Hframe.
  rewrite Hverify in Hframe. cbn [fst] in Hframe.
  destruct Hframe as (Hpools2 & Hpolicies2 & _).
  unfold ClaimsEngine.auto_process_claim. unfold mbind at 1, M_bind at 1. rewrite Hinit.
  unfold mbind at 1, M_bind at 1. rewrite Hverify.
  destruct (ClaimsEngine.is_verified v) eqn:Hv; cbn [negb].
  - specialize (Hverified eq_refl).
    destruct (process_payout_outcome db2 usdt_usd now (Claim.id claim) pool_id claim2
                Hclaim2 Hverified)
      as (db3 & r & claim3 & Hpay & Hclaim3 & (_ & _ & Hpid3 & Hamount3 & _) & _
          & [(Hok & Hpaid & _ & (pool & Hpool & Hle & Hpools3) & Hpolicies3)
            |(Hfail & Hfailed & _ & Hpools3 & Hpolicies3)]).
    + unfold mbind, M_bind. rewrite Hpay. cbn.
      eexists _, _, claim3, _. split; [reflexivity|]. cbn.
      split; [rewrite Hid; apply fresh_claim_id|].
      split; [exact Hclaim3|]. split; [congruence|]. split; [congruence|].
      split.
      { rewrite Hpolicies3, Hpid2, Hpid, lookup_alter_eq, Hpolicies2. cbn.
        rewrite lookup_insert_eq. cbn. reflexivity. }
      left. rewrite Hok. split; [reflexivity|]. split; [exact Hpaid|].
      destruct (paid_policy_fields now claim2
                  (Policy.with_status PolicyStatus.PAYOUT_PENDING policy))
        as (Hs & Ha & _).
      split; [exact Hs|]. split; [rewrite Ha; congruence|].
      exists pool. rewrite Hpools2 in Hpool, Hpools3. cbn in Hpool, Hpools3.
      rewrite Hamount2, Hamount in Hle, Hpools3. auto.
    + unfold mbind, M_bind. rewrite Hpay. cbn.
      eexists _, _, claim3, _. split; [reflexivity|]. cbn.
      split; [rewrite Hid; apply fresh_claim_id|].
      split; [exact Hclaim3|]. split; [congruence|]. split; [congruence|].
      split.
      { rewrite Hpolicies3, Hpolicies2. cbn. apply lookup_insert_eq. }
      right. rewrite Hfail. split; [reflexivity|]. split; [auto|].
      split; [destruct r; [discriminate Hfail|discriminate]|].
      split; [apply policy_with_status_status|]. rewrite Hpools3, Hpools2. reflexivity.
  - destruct (Hunverified eq_refl) as (Hstatus2 & Herror).
    eexists _, _, claim2, _. split; [reflexivity|]. cbn.
    split; [rewrite Hid; apply fresh_claim_id|].
    split; [exact Hclaim2|]. split; [congruence|]. split; [congruence|].
    split.
    { rewrite Hpolicies2. cbn. apply lookup_insert_eq. }
    right. split; [reflexivity|]. split; [exact Hstatus2|]. split; [exact Herror|].
    split; [apply policy_with_status_status|]. rewrite Hpools2. reflexivity.
Qed.

Lemma auto_process_claim_pays_or_leaves_policy_pending_witness :
  let db := Sample.db_without_claim PolicyStatus.ACTIVE in
  exists db' r claim',
    ClaimsEngine.auto_process_claim "CLM-260101-A1B2C3" (Sample.fdc 150) (Answer 1%Q) 50
      1 7 1 "0xUSER" db = (db', Return r)
    /\ claims db' !! ClaimsEngine.auto_claim_id r = Some claim'
    /\ Claim.payout_amount claim' = 1000%Q.
Proof.
  cbv zeta.
  destruct (auto_process_claim_pays_or_leaves_policy_pending
              (Sample.db_without_claim PolicyStatus.ACTIVE) "CLM-260101-A1B2C3"
              (Sample.fdc 150) (Answer 1%Q) 50 1 7 1 "0xUSER"
              (Sample.policy PolicyStatus.ACTIVE))
    as (db' & r & claim' & policy' & Hrun & _ & Hclaim' & _ & Hamount & _).
  - reflexivity.
  - reflexivity.
  - reflexivity.
  - intros id c H. cbn in H. rewrite lookup_empty in H. discriminate.
  - exists db', r, claim'. auto.
Defined.

(** ** The finalization webhook *)

Lemma claim_of_request_unique db request_id claim_id claim :
  claims db !! claim_id = Some claim ->
  Claim.fdc_request_id claim = Some request_id ->
  (forall id' c', claims db !! id' = Some c' ->
                  Claim.fdc_request_id c' = Some request_id -> id' = claim_id) ->
  Api.claim_of_request request_id db = (db, Return (Some claim)).
Proof.
  intros Hclaim Hrid Huniq. unfold Api.claim_of_request. run_M.
  rewrite (filter_map_to_list_unique _ _ claim_id claim); auto.
Qed.

Lemma claim_of_request_none db request_id :
  (forall id c, claims db !! id = Some c -> Claim.fdc_request_id c <> Some request_id) ->
  Api.claim_of_request request_id db = (db, Return None).
Proof.
  intros Hnone. unfold Api.claim_of_request. run_M.
  assert (E : filter (fun kv : positive * Claim.t =>
                        Claim.fdc_request_id kv.2 = Some request_id)
                     (map_to_list (claims db)) = []).
  { apply filter_map_to_list_none. intros k x Hk HP. exact (Hnone _ _ Hk HP). }
  rewrite E. reflexivity.
Qed.

(** X13: the webhook decides on the threshold, inclusively. For a
    Web2Json finalization whose request id is that of exactly one claim,
    with an integer delay in the response (0 when the response has none)
    and the claim's policy present, the claim becomes APPROVED when the
    delay is at least the policy's threshold and REJECTED, with reason
    "Delay of <delay> minutes below threshold", when it is less. Either
    way the claim is marked FDC-verified with the payload's merkle root,
    no approval time is set, and pools and policies are untouched. *)
Theorem fdc_finalization_webhook_decides_on_threshold
    (db : DB) (payload : Api.FDCWebhookPayload) (claim_id : UUID) (claim : Claim.t)
    (policy : Policy.t) (flight_data : json) (delay_minutes : Z) :
  claims db !! claim_id = Some claim ->
  Claim.id claim = claim_id ->
  Claim.fdc_request_id claim = Some (Api.request_id payload) ->
  (forall id' c', claims db !! id' = Some c' ->
                  Claim.fdc_request_id c' = Some (Api.request_id payload) ->
                  id' = claim_id) ->
  Api.attestation_type payload = "Web2Json" ->
  Api.py_get (JObj (Api.response_data payload)) "result" (JObj []) = Return flight_data ->
  Api.py_get flight_data "delay_minutes" (JInt 0) = Return (JInt delay_minutes) ->
  policies db !! Claim.policy_id claim = Some policy ->
  exists db' response claim',
    Api.fdc_finalization_webhook payload db = (db', Return response)
    /\ claims db' !! claim_id = Some claim'
    /\ Api.claim_status response = ClaimStatus.value (Claim.status claim')
    /\ (if bool_decide (Policy.delay_threshold_minutes policy <= delay_minutes)
        then Claim.status claim' = ClaimStatus.APPROVED
             /\ Claim.rejection_reason claim' = Claim.rejection_reason claim
        else Claim.status claim' = ClaimStatus.REJECTED
             /\ Claim.rejection_reason claim'
                = Some ("Delay of " +:+ pretty delay_minutes +:+ " minutes below threshold"))
    /\ Claim.fdc_verified claim' = true
    /\ Claim.fdc_merkle_root claim' = Some (Api.merkle_root payload)
    /\ Claim.approved_at claim' = Claim.approved_at claim
    /\ Claim.payout_amount claim' = Claim.payout_amount claim
    /\ pools db' = pools db
    /\ policies db' = policies db.
Proof.
  intros Hclaim Hid Hrid Huniq Htype Hresult Hdelay Hpolicy. destruct claim.
  cbn in Hid. subst id.
  unfold Api.fdc_finalization_webhook. unfold mbind at 1, M_bind at 1.
  rewrite (claim_of_request_unique _ _ _ _ Hclaim Hrid Huniq).
  unfold ClaimsEngine.claim_attr, Api.lift. run_M.
  rewrite bool_decide_eq_true_2 by assumption.
  cbn in Hresult. injection Hresult as Hresult. rewrite Hresult.
  rewrite Hdelay. cbn. cbn in Hpolicy. rewrite Hpolicy. cbn.
  destruct (bool_decide (Policy.delay_threshold_minutes policy <= delay_minutes)); cbn;
    (eexists _, _, _; split; [reflexivity|]; cbn;
     rewrite !lookup_alter_eq, Hclaim; cbn; repeat split).
Qed.

Lemma fdc_finalization_webhook_decides_on_threshold_witness :
  let db := Sample.db PolicyStatus.PAYOUT_PENDING ClaimStatus.VERIFYING in
  exists db' response claim',
    Api.fdc_finalization_webhook (Sample.payload 119) db = (db', Return response)
    /\ claims db' !! 1%positive = Some claim'
    /\ Claim.status claim' = ClaimStatus.REJECTED
    /\ Claim.rejection_reason claim' = Some "Delay of 119 minutes below threshold".
Proof.
  cbv zeta.
  destruct (fdc_finalization_webhook_decides_on_threshold
              (Sample.db PolicyStatus.PAYOUT_PENDING ClaimStatus.VERIFYING)
              (Sample.payload 119) 1 (Sample.claim ClaimStatus.VERIFYING)
              (Sample.policy PolicyStatus.PAYOUT_PENDING)
              (JObj [("delay_minutes", JInt 119)]) 119)
    as (db' & response & claim' & Hrun & Hclaim' & _ & Hdecision & _).
  - reflexivity.
  - reflexivity.
  - reflexivity.
  - intros id' c' H _. cbn in H. apply lookup_singleton_Some in H as [<- _]. reflexivity.
  - reflexivity.
  - reflexivity.
  - reflexivity.
  - reflexivity.
  - exists db', response, claim'. split; [exact Hrun|]. split; [exact Hclaim'|].
    exact Hdecision.
Defined.

(** X14: a finalization that no claim is waiting for changes nothing.
    When no claim carries the payload's request id, the webhook raises
    HTTP 404 and the store is as it was. *)
Theorem fdc_finalization_webhook_unknown_request
    (db : DB) (payload : Api.FDCWebhookPayload) :
  (forall id c, claims db !! id = Some c ->
                Claim.fdc_request_id c <> Some (Api.request_id payload)) ->
  Api.fdc_finalization_webhook payload db
  = (db, Raise (HTTPException 404 ClaimNotFoundForFDCRequest)).
Proof.
  intros Hnone. unfold Api.fdc_finalization_webhook. unfold mbind at 1, M_bind at 1.
  rewrite (claim_of_request_none _ _ Hnone). reflexivity.
Qed.

Lemma fdc_finalization_webhook_unknown_request_witness :
  let db := Sample.db_without_claim PolicyStatus.ACTIVE in
  Api.fdc_finalization_webhook (Sample.payload 150) db
  = (db, Raise (HTTPException 404 ClaimNotFoundForFDCRequest)).
Proof.
  cbv zeta. apply fdc_finalization_webhook_unknown_request.
  intros id c H. cbn in H. rewrite lookup_empty in H. discriminate.
Defined.

(** X15: a finalization of another attestation type marks the claim
    verified and leaves its status. For a payload whose type is not
    "Web2Json" and whose request id is that of exactly one claim, the
    webhook returns, the claim is marked FDC-verified with the payload's
    merkle root and response, and its status and rejection reason are
    unchanged. *)
Theorem fdc_finalization_webhook_other_attestation_type
    (db : DB) (payload : Api.FDCWebhookPayload) (claim_id : UUID) (claim : Claim.t) :
  claims db !! claim_id = Some claim ->
  Claim.id claim = claim_id ->
  Claim.fdc_request_id claim = Some (Api.request_id payload) ->
  (forall id' c', claims db !! id' = Some c' ->
                  Claim.fdc_request_id c' = Some (Api.request_id payload) ->
                  id' = claim_id) ->
  Api.attestation_type payload <> "Web2Json" ->
  exists db' response claim',
    Api.fdc_finalization_webhook payload db = (db', Return response)
    /\ claims db' !! claim_id = Some claim'
    /\ Claim.status claim' = Claim.status claim
    /\ Claim.rejection_reason claim' = Claim.rejection_reason claim
    /\ Claim.fdc_verified claim' = true
    /\ Claim.fdc_merkle_root claim' = Some (Api.merkle_root payload)
    /\ Claim.fdc_proof_data claim' = Some (JObj (Api.response_data payload))
    /\ Api.claim_status response = ClaimStatus.value (Claim.status claim).
Proof.
  intros Hclaim Hid Hrid Huniq Htype. destruct claim. cbn in Hid. subst id.
  unfold Api.fdc_finalization_webhook. unfold mbind at 1, M_bind at 1.
  rewrite (claim_of_request_unique _ _ _ _ Hclaim Hrid Huniq).
  unfold ClaimsEngine.claim_attr. run_M.
  rewrite bool_decide_eq_false_2 by assumption. cbn.
  eexists _, _, _. split; [reflexivity|]. cbn.
  rewrite !lookup_alter_eq, Hclaim. cbn. repeat split.
Qed.

Lemma fdc_finalization_webhook_other_attestation_type_witness :
  let db := Sample.db PolicyStatus.PAYOUT_PENDING ClaimStatus.VERIFYING in
  let payload := {| Api.request_id := "0xREQ";
                    Api.attestation_type := "EVMTransaction";
                    Api.merkle_root := "0xROOT";
                    Api.response_data := Sample.response 500;
                    Api.finalized_at := 50;
                    Api.block_number := 1 |} in
  exists db' response claim',
    Api.fdc_finalization_webhook payload db = (db', Return response)
    /\ claims db' !! 1%positive = Some claim'
    /\ Claim.status claim' = ClaimStatus.VERIFYING.
Proof.
  cbv zeta.
  destruct (fdc_finalization_webhook_other_attestation_type
              (Sample.db PolicyStatus.PAYOUT_PENDING ClaimStatus.VERIFYING)
              {| Api.request_id := "0xREQ";
                 Api.attestation_type := "EVMTransaction";
                 Api.merkle_root := "0xROOT";
                 Api.response_data := Sample.response 500;
                 Api.finalized_at := 50;
                 Api.block_number := 1 |}
              1 (Sample.claim ClaimStatus.VERIFYING))
    as (db' & response & claim' & Hrun & Hclaim' & Hstatus & _).
  - reflexivity.
  - reflexivity.
  - reflexivity.
  - intros id' c' H _. cbn in H. apply lookup_singleton_Some in H as [<- _]. reflexivity.
  - discriminate.
  - exists db', response, claim'. split; [exact Hrun|]. split; [exact Hclaim'|].
    exact Hstatus.
Defined.

(** ** The status report of a claim *)

(** The report of an existing claim: one quarter of the progress for the
    claim itself and one for each of the request id, the approval time
    and the payment time that is set. *)
Lemma get_claim_status_returns db created_at claim_id claim :
  claims db !! claim_id = Some claim ->
  exists report,
    ClaimStatusReport.get_claim_status created_at claim_id db = (db, Return report)
    /\ ClaimStatusReport.progress_percentage report
       = 25 * (1 + Z.b2z (bool_decide (Claim.fdc_request_id claim <> None))
                 + Z.b2z (bool_decide (Claim.approved_at claim <> None))
                 + Z.b2z (bool_decide (Claim.paid_at claim <> None)))
    /\ ClaimStatusReport.status report = ClaimStatus.value (Claim.status claim)
    /\ ClaimStatusReport.paid_at report = Claim.paid_at claim.
Proof.
  intros Hclaim. unfold ClaimStatusReport.get_claim_status.
  unfold mbind at 1, M_bind at 1. rewrite (load_claim_found _ _ _ Hclaim).
  eexists. split; [reflexivity|]. cbn.
  split; [|split; reflexivity].
  destruct (bool_decide (Claim.fdc_request_id claim <> None)),
           (bool_decide (Claim.approved_at claim <> None)),
           (bool_decide (Claim.paid_at claim <> None)); vm_compute; reflexivity.
Qed.

(** X16: the progress of a claim's status report counts recorded
    milestones, not the claim's status. [get_claim_status] of an existing
    claim returns without writing the store; the progress is 25 for the
    claim itself plus 25 for each of [fdc_request_id], [approved_at] and
    [paid_at] that is set, so it is 100 exactly when all three are set. *)
Theorem get_claim_status_progress
    (db : DB) (created_at : datetime) (claim_id : UUID) (claim : Claim.t) :
  claims db !! claim_id = Some claim ->
  exists report,
    ClaimStatusReport.get_claim_status created_at claim_id db = (db, Return report)
    /\ ClaimStatusReport.progress_percentage report
       = 25 * (1 + Z.b2z (bool_decide (Claim.fdc_request_id claim <> None))
                 + Z.b2z (bool_decide (Claim.approved_at claim <> None))
                 + Z.b2z (bool_decide (Claim.paid_at claim <> None)))
    /\ (ClaimStatusReport.progress_percentage report = 100
        <-> Claim.fdc_request_id claim <> None
            /\ Claim.approved_at claim <> None
            /\ Claim.paid_at claim <> None)
    /\ ClaimStatusReport.status report = ClaimStatus.value (Claim.status claim).
Proof.
  intros Hclaim.
  destruct (get_claim_status_returns db created_at claim_id claim Hclaim)
    as (report & Hrun & Hprogress & Hstatus & _).
  exists report. split; [exact Hrun|]. split; [exact Hprogress|]. split; [|exact Hstatus].
  rewrite Hprogress.
  repeat case_bool_decide; cbn [Z.b2z]; split; try lia; intuition congruence.
Qed.

Lemma get_claim_status_progress_witness :
  let db := Sample.db PolicyStatus.PAYOUT_PENDING ClaimStatus.VERIFYING in
  exists report,
    ClaimStatusReport.get_claim_status 0 1 db = (db, Return report)
    /\ ClaimStatusReport.progress_percentage report = 50.
Proof.
  cbv zeta.
  destruct (get_claim_status_progress
              (Sample.db PolicyStatus.PAYOUT_PENDING ClaimStatus.VERIFYING) 0 1
              (Sample.claim ClaimStatus.VERIFYING))
    as (report & Hrun & Hprogress & _).
  - reflexivity.
  - exists report. split; [exact Hrun|]. rewrite Hprogress. reflexivity.
Defined.

(** A claim that [initiate_claim] returns has no request id, no approval
    time and no payment time. *)
Lemma initiate_claim_new_claim_milestones db claim_number now policy_id user_id trigger_event
    trigger_value payout_address db' claim :
  ClaimsEngine.initiate_claim claim_number now policy_id user_id trigger_event
    trigger_value payout_address db = (db', Return claim) ->
  Claim.fdc_request_id claim = None
  /\ Claim.approved_at claim = None
  /\ Claim.paid_at claim = None.
Proof.
  unfold ClaimsEngine.initiate_claim, flush_unique. run_M.
  destruct (policies db !! policy_id) as [policy|]; cbn; [|discriminate].
  destruct (bool_decide _); cbn; [discriminate|].
  destruct (bool_decide _); cbn; [discriminate|].
  destruct (bool_decide _); cbn; [discriminate|].
  destruct (ClaimsEngine.claim_number_taken db claim_number); cbn; [discriminate|].
  intros H. injection H as _ <-. repeat split.
Qed.

(** A verification never writes the payment time, and a verified result
    means that the request id and the approval time are recorded. *)
Lemma verify_claim_with_fdc_milestones db fdc now claim_id claim policy :
  claims db !! claim_id = Some claim ->
  policies db !! Claim.policy_id claim = Some policy ->
  exists db' v claim',
    ClaimsEngine.verify_claim_with_fdc fdc now claim_id db = (db', Return v)
    /\ claims db' !! claim_id = Some claim'
    /\ Claim.paid_at claim' = Claim.paid_at claim
    /\ (ClaimsEngine.is_verified v = true ->
        Claim.fdc_request_id claim' <> None
        /\ Claim.approved_at claim' = Some now).
Proof.
  intros Hclaim Hpolicy.
  unfold ClaimsEngine.verify_claim_with_fdc. unfold mbind at 1, M_bind at 1.
  rewrite (begin_verification_marks_verifying _ _ _ _ Hclaim Hpolicy).
  unfold ClaimsEngine.attest, ClaimsEngine.attestation_failed, ClaimsEngine.claim_attr.
  run_M.
  destruct (FDCClient.submit_request fdc _) as [request_id|detail]; cbn;
    [|verify_case claim Hclaim].
  destruct (FDCClient.poll fdc request_id) as [st|detail]; cbn; [|verify_case claim Hclaim].
  destruct (FDCClient.get_proof fdc request_id) as [proof|detail]; cbn;
    [|verify_case claim Hclaim].
  destruct (FDCClient.verify_proof _ _) eqn:Hvalid; cbn; [|verify_case claim Hclaim].
  destruct (ClaimsEngine.truthy _); cbn; verify_case claim Hclaim.
Qed.

(** A payout that returns keeps the request id and the approval time of
    the claim. *)
Lemma process_payout_keeps_milestones db usdt_usd now claim_id pool_id claim db' r :
  claims db !! claim_id = Some claim ->
  ClaimsEngine.process_payout usdt_usd now claim_id pool_id db = (db', Return r) ->
  exists claim',
    claims db' !! claim_id = Some claim'
    /\ Claim.fdc_request_id claim' = Claim.fdc_request_id claim
    /\ Claim.approved_at claim' = Claim.approved_at claim.
Proof.
  intros Hclaim. destruct claim.
  unfold ClaimsEngine.process_payout.
  unfold mbind at 1, M_bind at 1. rewrite (load_claim_found _ _ _ Hclaim).
  destruct (bool_decide _); [discriminate|].
  unfold ClaimsEngine.pay, ClaimsEngine.payout_failed, PoolManager.process_payout. run_M.
  destruct usdt_usd as [usdt_price|detail]; cbn.
  - destruct (pools db !! pool_id) as [pool|] eqn:Hpool; cbn.
    + destruct (Qgtb payout_amount (InsurancePool.stablecoin_reserve pool)); cbn;
        intros H; injection H as <- _; cbn;
        rewrite !lookup_alter_eq, Hclaim; cbn; eexists; repeat split.
    + intros H; injection H as <- _; cbn.
      rewrite !lookup_alter_eq, Hclaim; cbn; eexists; repeat split.
  - intros H; injection H as <- _; cbn.
    rewrite !lookup_alter_eq, Hclaim; cbn; eexists; repeat split.
Qed.

(** X17: an automatic claim that succeeds reports complete, and only
    then. After [auto_process_claim] on an ACTIVE policy of the caller
    with an unused claim number, [get_claim_status] of the new claim
    reports status "paid", progress 100 and the payment time when the
    result says [success = True], and a progress below 100 with no
    payment time when it says [success = False]. *)
Theorem auto_process_claim_then_status_report
    (db : DB) (claim_number : string) (fdc : FDCClient.t) (usdt_usd : answer Decimal)
    (now created_at : datetime) (policy_id user_id pool_id : UUID) (payout_address : string)
    (policy : Policy.t) :
  policies db !! policy_id = Some policy ->
  Policy.user_id policy = user_id ->
  Policy.status policy = PolicyStatus.ACTIVE ->
  (forall id c, claims db !! id = Some c -> Claim.claim_number c <> claim_number) ->
  exists db' r report,
    ClaimsEngine.auto_process_claim claim_number fdc usdt_usd now policy_id user_id pool_id
      payout_address db = (db', Return r)
    /\ ClaimStatusReport.get_claim_status created_at (ClaimsEngine.auto_claim_id r) db'
       = (db', Return report)
    /\ (if ClaimsEngine.auto_success r
        then ClaimStatusReport.status report = "paid"
             /\ ClaimStatusReport.progress_percentage report = 100
             /\ ClaimStatusReport.paid_at report = Some now
        else ClaimStatusReport.progress_percentage report < 100
             /\ ClaimStatusReport.paid_at report = None).
Proof.
  intros Hpolicy Huser Hactive Hfree.
  destruct (initiate_claim_cases db claim_number now policy_id user_id "flight_delayed"
              None payout_address)
    as [(e & _ & He)|(policy0 & claim & Hinit & Hpolicy0 & _ & _ & Hid & _ & Hpid & _)].
  { exfalso. rewrite Hpolicy in He. rewrite decide_True in He by assumption.
    rewrite decide_True in He by assumption. destruct He as [_ Htaken].
    rewrite (claim_number_free _ _ Hfree) in Htaken. discriminate. }
  rewrite Hpolicy in Hpolicy0. injection Hpolicy0 as <-.
  destruct (initiate_claim_new_claim_milestones _ _ _ _ _ _ _ _ _ _ Hinit)
    as (_ & _ & Hunpaid).
  set (db1 := mkDB (<[policy_id := Policy.with_status PolicyStatus.PAYOUT_PENDING policy]>
                      (policies db))
                   (<[fresh (dom (claims db)) := claim]> (claims db))
                   (pools db) (pool_transactions db)) in Hinit.
  assert (Hclaim1 : claims db1 !! Claim.id claim = Some claim)
    by (rewrite Hid; apply lookup_insert_eq).
  assert (Hpolicy1 : policies db1 !! Claim.policy_id claim
                     = Some (Policy.with_status PolicyStatus.PAYOUT_PENDING policy))
    by (rewrite Hpid; apply lookup_insert_eq).
  destruct (verify_claim_with_fdc_milestones db1 fdc now (Claim.id claim) claim _
              Hclaim1 Hpolicy1)
    as (db2 & v & claim2 & Hverify & Hclaim2 & Hpaid2 & Hmilestones).
  destruct (verify_claim_with_fdc_returns db1 fdc now (Claim.id claim) claim _
              Hclaim1 Hpolicy1)
    as (db2' & v' & claim2' & Hverify' & Hclaim2' & _ & Hverified & _).
  rewrite Hverify in Hverify'. injection Hverify' as <- <-.
  rewrite Hclaim2 in Hclaim2'. injection Hclaim2' as <-.
  unfold ClaimsEngine.auto_process_claim. unfold mbind at 1, M_bind at 1. rewrite Hinit.
  unfold mbind at 1, M_bind at 1. rewrite Hverify.
  destruct (ClaimsEngine.is_verified v) eqn:Hv; cbn [negb].
  - specialize (Hverified eq_refl). destruct (Hmilestones eq_refl) as (Hrid2 & Happroved2).
    destruct (process_payout_outcome db2 usdt_usd now (Claim.id claim) pool_id claim2
                Hclaim2 Hverified)
      as (db3 & r & claim3 & Hpay & Hclaim3 & _ & _
          & [(Hok & Hpaid & Hpaid3 & _)|(Hfail & _ & Hpaid3 & _)]);
      destruct (process_payout_keeps_milestones _ _ _ _ _ _ _ _ Hclaim2 Hpay)
        as (claim3' & Hclaim3' & Hrid3 & Happroved3);
      rewrite Hclaim3 in Hclaim3'; injection Hclaim3' as <-;
      destruct (get_claim_status_returns db3 created_at (Claim.id claim) claim3 Hclaim3)
        as (report & Hreport & Hprogress & Hstatus & Hpaid_at);
      unfold mbind, M_bind; rewrite Hpay; cbn;
      eexists _, _, report; (split; [reflexivity|]); cbn; (split; [exact Hreport|]).
    + rewrite Hok. rewrite Hstatus, Hpaid, Hpaid_at, Hpaid3, Hprogress.
      rewrite Hrid3, Happroved3, Happroved2, Hpaid3.
      rewrite !bool_decide_eq_true_2 by (assumption || discriminate).
      repeat split.
    + rewrite Hfail. rewrite Hpaid_at, Hprogress, Hpaid3, Hpaid2, Hunpaid.
      split; [|reflexivity].
      rewrite (bool_decide_eq_false_2 (None <> None)) by (intros H; apply H; reflexivity).
      repeat case_bool_decide; cbn [Z.b2z]; lia.
  - destruct (get_claim_status_returns db2 created_at (Claim.id claim) claim2 Hclaim2)
      as (report & Hreport & Hprogress & Hstatus & Hpaid_at).
    eexists _, _, report. split; [reflexivity|]. cbn. split; [exact Hreport|].
    rewrite Hpaid_at, Hprogress, Hpaid2, Hunpaid. split; [|reflexivity].
    rewrite (bool_decide_eq_false_2 (None <> None)) by (intros H; apply H; reflexivity).
    repeat case_bool_decide; cbn [Z.b2z]; lia.
Qed.

Lemma auto_process_claim_then_status_report_witness :
  let db := Sample.db_without_claim PolicyStatus.ACTIVE in
  exists db' r report,
    ClaimsEngine.auto_process_claim "CLM-260101-A1B2C3" (Sample.fdc 150) (Answer 1%Q) 50
      1 7 1 "0xUSER" db = (db', Return r)
    /\ ClaimsEngine.auto_success r = true
    /\ ClaimStatusReport.get_claim_status 40 (ClaimsEngine.auto_claim_id r) db'
       = (db', Return report)
    /\ ClaimStatusReport.progress_percentage report = 100.
Proof.
  cbv zeta.
  destruct (auto_process_claim_then_status_report
              (Sample.db_without_claim PolicyStatus.ACTIVE) "CLM-260101-A1B2C3"
              (Sample.fdc 150) (Answer 1%Q) 50 40 1 7 1 "0xUSER"
              (Sample.policy PolicyStatus.ACTIVE))
    as (db' & r & report & Hrun & Hreport & Hcases).
  - reflexivity.
  - reflexivity.
  - reflexivity.
  - intros id c H. cbn in H. rewrite lookup_empty in H. discriminate.
  - assert (Hok : ClaimsEngine.auto_success r = true).
    { vm_compute in Hrun. injection Hrun as _ <-. reflexivity. }
    exists db', r, report. rewrite Hok in Hcases. split; [exact Hrun|].
    split; [exact Hok|]. split; [exact Hreport|]. apply Hcases.
Defined.

(** ** The price cache of the FTSO client *)

Lemma fetch_returns upper str_of chain fetched symbol price_cache price_cache' quote :
  FTSOClient.fetch upper str_of chain fetched symbol price_cache
  = (price_cache', Return quote) ->
  price_cache' !! symbol = Some quote /\ FTSOClient.fetched_at quote = fetched.
Proof.
  unfold FTSOClient.fetch.
  destruct (FTSOClient.ftso_contract chain); [|discriminate].
  destruct (FTSOClient.get_feed_id upper symbol); [|discriminate].
  destruct (FTSOClient.get_feed_by_id chain _); [|discriminate].
  intros H. injection H as <- <-. split; [apply lookup_insert_eq|reflexivity].
Qed.

Lemma get_price_returns upper str_of chain now fetched symbol price_cache price_cache' quote :
  FTSOClient.get_price upper str_of chain now fetched symbol price_cache
  = (price_cache', Return quote) ->
  price_cache' !! symbol = Some quote
  /\ (now - FTSOClient.fetched_at quote < FDCClient.seconds FTSOClient.cache_ttl
      \/ FTSOClient.fetched_at quote = fetched).
Proof.
  unfold FTSOClient.get_price, FTSOClient.is_cache_valid.
  destruct (price_cache !! symbol) as [cached|] eqn:Hcached.
  - case_bool_decide as Hage.
    + intros H. injection H as <- <-. auto.
    + intros H. apply fetch_returns in H as [H1 H2]. auto.
  - intros H. apply fetch_returns in H as [H1 H2]. auto.
Qed.

(** X18: a price is reused for thirty seconds. Once [get_price] has
    returned a quote for a symbol, every call for that symbol made while
    the clock is less than 30 seconds past the quote's [fetched_at]
    returns the same quote and leaves the cache as it is, whatever the
    chain would answer, also when the chain is unreachable. *)
Theorem get_price_reuses_quote_within_ttl
    (upper : string -> string) (str_of : exn -> string)
    (chain chain' : FTSOClient.Chain) (now fetched now' fetched' : datetime)
    (symbol : string) (price_cache price_cache' : gmap string FTSOClient.Quote)
    (quote : FTSOClient.Quote) :
  FTSOClient.get_price upper str_of chain now fetched symbol price_cache
  = (price_cache', Return quote) ->
  now' - FTSOClient.fetched_at quote < FDCClient.seconds 30 ->
  FTSOClient.get_price upper str_of chain' now' fetched' symbol price_cache'
  = (price_cache', Return quote).
Proof.
  intros Hrun Hage. apply get_price_returns in Hrun as [Hquote _].
  unfold FTSOClient.get_price, FTSOClient.is_cache_valid. rewrite Hquote.
  rewrite bool_decide_eq_true_2 by exact Hage. reflexivity.
Qed.

Lemma get_price_reuses_quote_within_ttl_witness :
  let chain := {| FTSOClient.ftso_contract := Answer tt;
                  FTSOClient.get_feed_by_id := fun _ =>
                    Answer (FTSOClient.mkFeed 100012 5 990 (100012 # 100000)) |} in
  let down := {| FTSOClient.ftso_contract := Fails "connection refused";
                 FTSOClient.get_feed_by_id := fun _ => Fails "connection refused" |} in
  let quote := FTSOClient.mkQuote "USDT/USD" (100012 # 100000) 5 990 100012 1000 in
  FTSOClient.get_price id (fun _ => "") down 30000999 31000000 "USDT/USD"
    {[ "USDT/USD" := quote ]}
  = ({[ "USDT/USD" := quote ]}, Return quote).
Proof.
  cbv zeta.
  apply (get_price_reuses_quote_within_ttl id (fun _ => "")
           {| FTSOClient.ftso_contract := Answer tt;
              FTSOClient.get_feed_by_id := fun _ =>
                Answer (FTSOClient.mkFeed 100012 5 990 (100012 # 100000)) |}
           _ 0 1000 30000999 31000000 "USDT/USD" ∅).
  - reflexivity.
  - reflexivity.
Defined.

(** X19: [get_price] never returns a quote that is thirty seconds old.
    A quote it returns was fetched in this call, or was fetched less than
    30 seconds before the clock was read; and it is the quote the cache
    holds for the symbol afterwards. *)
Theorem get_price_never_returns_stale_quote
    (upper : string -> string) (str_of : exn -> string)
    (chain : FTSOClient.Chain) (now fetched : datetime)
    (symbol : string) (price_cache price_cache' : gmap string FTSOClient.Quote)
    (quote : FTSOClient.Quote) :
  FTSOClient.get_price upper str_of chain now fetched symbol price_cache
  = (price_cache', Return quote) ->
  price_cache' !! symbol = Some quote
  /\ (now - FTSOClient.fetched_at quote < FDCClient.seconds 30
      \/ (FTSOClient.fetched_at quote = fetched
          /\ price_cache' = <[symbol := quote]> price_cache)).
Proof.
  intros Hrun. pose proof (get_price_returns _ _ _ _ _ _ _ _ _ Hrun) as [Hquote Hage].
  split; [exact Hquote|].
  destruct (decide (now - FTSOClient.fetched_at quote < FDCClient.seconds 30)) as [Hlt|Hge];
    [left; exact Hlt|right].
  destruct Hage as [Hlt|Hfetched]; [contradiction|]. split; [exact Hfetched|].
  revert Hrun. unfold FTSOClient.get_price, FTSOClient.is_cache_valid.
  assert (Hfetch : FTSOClient.fetch upper str_of chain fetched symbol price_cache
                   = (price_cache', Return quote) ->
                   price_cache' = <[symbol := quote]> price_cache).
  { unfold FTSOClient.fetch.
    destruct (FTSOClient.ftso_contract chain); [|discriminate].
    destruct (FTSOClient.get_feed_id upper symbol); [|discriminate].
    destruct (FTSOClient.get_feed_by_id chain _); [|discriminate].
    intros H. injection H as <- <-. reflexivity. }
  destruct (price_cache !! symbol) as [cached|] eqn:Hcached; [|exact Hfetch].
  case_bool_decide as Hvalid; [|exact Hfetch].
  intros H. injection H as <- <-. contradiction.
Qed.

Lemma get_price_never_returns_stale_quote_witness :
  let chain := {| FTSOClient.ftso_contract := Answer tt;
                  FTSOClient.get_feed_by_id := fun _ =>
                    Answer (FTSOClient.mkFeed 99987 5 31 (99987 # 100000)) |} in
  let old := FTSOClient.mkQuote "USDT/USD" (100012 # 100000) 5 0 100012 1000 in
  let quote := FTSOClient.mkQuote "USDT/USD" (99987 # 100000) 5 31 99987 30500000 in
  FTSOClient.get_price id (fun _ => "") chain 30001000 30500000 "USDT/USD"
    {[ "USDT/USD" := old ]}
  = (<[ "USDT/USD" := quote ]> {[ "USDT/USD" := old ]}, Return quote)
  /\ (<[ "USDT/USD" := quote ]> {[ "USDT/USD" := old ]} : gmap string FTSOClient.Quote)
     !! "USDT/USD" = Some quote.
Proof.
  cbv zeta.
  assert (Hrun : FTSOClient.get_price id (fun _ => "")
                   {| FTSOClient.ftso_contract := Answer tt;
                      FTSOClient.get_feed_by_id := fun _ =>
                        Answer (FTSOClient.mkFeed 99987 5 31 (99987 # 100000)) |}
                   30001000 30500000 "USDT/USD"
                   {[ "USDT/USD" := FTSOClient.mkQuote "USDT/USD" (100012 # 100000) 5 0
                                      100012 1000 ]}
                 = (<[ "USDT/USD" := FTSOClient.mkQuote "USDT/USD" (99987 # 100000) 5 31
                                       99987 30500000 ]>
                      {[ "USDT/USD" := FTSOClient.mkQuote "USDT/USD" (100012 # 100000) 5 0
                                         100012 1000 ]},
                    Return (FTSOClient.mkQuote "USDT/USD" (99987 # 100000) 5 31
                              99987 30500000)))
    by reflexivity.
  split; [exact Hrun|].
  exact (proj1 (get_price_never_returns_stale_quote _ _ _ _ _ _ _ _ _ Hrun)).
Defined.

(** X20: a price that cannot be fetched is an [FTSOPriceError] and
    nothing else, and the cache is left as it was. Whatever [get_price]
    raises is an [FTSOPriceError] whose detail begins with "Failed to
    fetch <symbol> price: "; the cache, an expired entry included, is
    unchanged. *)
Theorem get_price_failure_keeps_cache
    (upper : string -> string) (str_of : exn -> string)
    (chain : FTSOClient.Chain) (now fetched : datetime)
    (symbol : string) (price_cache price_cache' : gmap string FTSOClient.Quote)
    (e : exn) :
  FTSOClient.get_price upper str_of chain now fetched symbol price_cache
  = (price_cache', Raise e) ->
  price_cache' = price_cache
  /\ exists detail,
       e = FTSOPriceError ("Failed to fetch " +:+ symbol +:+ " price: " +:+ detail).
Proof.
  assert (Hfetch : FTSOClient.fetch upper str_of chain fetched symbol price_cache
                   = (price_cache', Raise e) ->
                   price_cache' = price_cache
                   /\ exists detail,
                        e = FTSOPriceError
                              ("Failed to fetch " +:+ symbol +:+ " price: " +:+ detail)).
  { unfold FTSOClient.fetch, FTSOClient.fetch_failed.
    destruct (FTSOClient.ftso_contract chain);
      [|intros H; injection H as <- <-; eauto].
    destruct (FTSOClient.get_feed_id upper symbol);
      [|intros H; injection H as <- <-; eauto].
    destruct (FTSOClient.get_feed_by_id chain _);
      [discriminate|intros H; injection H as <- <-; eauto]. }
  unfold FTSOClient.get_price.
  destruct (price_cache !! symbol) as [cached|]; [|exact Hfetch].
  destruct (FTSOClient.is_cache_valid _ _ _); [discriminate|exact Hfetch].
Qed.

Lemma get_price_failure_keeps_cache_witness :
  let chain := {| FTSOClient.ftso_contract := Answer tt;
                  FTSOClient.get_feed_by_id := fun _ => Fails "execution reverted" |} in
  exists price_cache' e,
    FTSOClient.get_price id (fun _ => "") chain 0 1 "USDT/USD" ∅ = (price_cache', Raise e)
    /\ price_cache' = ∅.
Proof.
  cbv zeta. eexists _, _. split; [reflexivity|].
  eapply (get_price_failure_keeps_cache id (fun _ => "")
            {| FTSOClient.ftso_contract := Answer tt;
               FTSOClient.get_feed_by_id := fun _ => Fails "execution reverted" |}
            0 1 "USDT/USD" ∅).
  reflexivity.
Defined.

(** ** Polling with no time to poll *)

(** X21: with a timeout of zero or less, [poll_until_finalized] never
    asks the hub. It raises the timeout error at once, with no status
    call made and the clock where it was, also for a request that the
    hub would report finalized. *)
Theorem poll_until_finalized_without_time
    (hub : FDCClient.Hub) (start_time : datetime) (request_id : string)
    (timeout_seconds poll_interval : Z) (fuel : nat) :
  timeout_seconds <= 0 ->
  (0 < fuel)%nat ->
  FDCClient.poll_until_finalized fuel hub start_time request_id timeout_seconds poll_interval
  = Some {| FDCClient.outcome :=
              Raise (FDCAttestationError
                       ("Request " +:+ request_id +:+ " did not finalize within "
                          +:+ pretty timeout_seconds +:+ "s"));
            FDCClient.calls := 0;
            FDCClient.ended := start_time |}.
Proof.
  intros Htimeout Hfuel. destruct fuel as [|fuel]; [lia|].
  unfold FDCClient.poll_until_finalized, FDCClient.seconds. cbn [FDCClient.poll_loop].
  rewrite bool_decide_eq_false_2 by lia. reflexivity.
Qed.

Lemma poll_until_finalized_without_time_witness :
  FDCClient.poll_until_finalized 1
    {| FDCClient.hub_status := fun _ => Answer 3;
       FDCClient.call_time := fun _ => 1000000;
       FDCClient.sleep_lag := fun _ => 0 |}
    0 "0xREQ" 0 10
  = Some {| FDCClient.outcome :=
              Raise (FDCAttestationError "Request 0xREQ did not finalize within 0s");
            FDCClient.calls := 0;
            FDCClient.ended := 0 |}.
Proof.
  apply (poll_until_finalized_without_time
           {| FDCClient.hub_status := fun _ => Answer 3;
              FDCClient.call_time := fun _ => 1000000;
              FDCClient.sleep_lag := fun _ => 0 |} 0 "0xREQ" 0 10 1); lia.
Defined.
